(** * Offline-AI: the extractive summariser and the answer compiler

    A shallow embedding of the summarisation and answer-compilation code of
    [conversational_ai.py], [simple_ai_chat.py], [intelligent_limbor.py] and
    [smart_search_test.py], with the properties of that code.

    Representation of Python values:
    - a [str] is a [string] holding its UTF-8 encoding; [len] counts code
      points, so that the bullet and emoji of the message literals count as
      one character each, as they do in Python;
    - character classes ([str.strip], [str.lower], [\s], [\d]) are modelled
      on the ASCII range; bytes of non-ASCII code points are left untouched;
    - an operation that can raise returns an [outcome]; [try]/[except] is a
      handler on outcomes;
    - the network, the HTML parser, the clock and [eval] are parameters. *)

From Stdlib Require Import String Ascii List Arith Bool Lia.
From Stdlib Require Import Permutation Sorted.
From Stdlib Require Import DecimalString.
Import ListNotations.
Open Scope string_scope.
Open Scope nat_scope.

(** ** Python strings *)

Module Py.

Definition is_continuation (c : ascii) : bool :=
  let n := nat_of_ascii c in (128 <=? n) && (n <? 192).

(** [len(s)]: the number of code points. *)
Fixpoint len (s : string) : nat :=
  match s with
  | EmptyString => 0
  | String c s' => (if is_continuation c then 0 else 1) + len s'
  end.

(** [s[:n]]: the first [n] code points. *)
Fixpoint slice_to (n : nat) (s : string) : string :=
  match s with
  | EmptyString => EmptyString
  | String c s' =>
      if is_continuation c then String c (slice_to n s')
      else match n with
           | 0 => EmptyString
           | S n' => String c (slice_to n' s')
           end
  end.

(** [str.isspace] on one ASCII character: tab, newline, vertical tab, form
    feed, carriage return, the four separators 0x1c-0x1f and space. *)
Definition is_space (c : ascii) : bool :=
  let n := nat_of_ascii c in
  ((9 <=? n) && (n <=? 13)) || ((28 <=? n) && (n <=? 32)).

(** [\d] on one ASCII character. *)
Definition is_digit (c : ascii) : bool :=
  let n := nat_of_ascii c in (48 <=? n) && (n <=? 57).

Definition is_upper (c : ascii) : bool :=
  let n := nat_of_ascii c in (65 <=? n) && (n <=? 90).

Definition is_lower (c : ascii) : bool :=
  let n := nat_of_ascii c in (97 <=? n) && (n <=? 122).

Definition lower_char (c : ascii) : ascii :=
  if is_upper c then ascii_of_nat (nat_of_ascii c + 32) else c.

Definition upper_char (c : ascii) : ascii :=
  if is_lower c then ascii_of_nat (nat_of_ascii c - 32) else c.

(** [s.lower()] *)
Fixpoint lower (s : string) : string :=
  match s with
  | EmptyString => EmptyString
  | String c s' => String (lower_char c) (lower s')
  end.

(** [s.title()]: a letter that follows a non-letter is upper-cased, any
    other letter is lower-cased. *)
Fixpoint title_from (after_letter : bool) (s : string) : string :=
  match s with
  | EmptyString => EmptyString
  | String c s' =>
      let letter := is_upper c || is_lower c in
      String (if after_letter then lower_char c else upper_char c)
             (title_from letter s')
  end.

Definition title (s : string) : string := title_from false s.

(** [s.lstrip()], [s.rstrip()], [s.strip()] *)
Fixpoint lstrip (s : string) : string :=
  match s with
  | EmptyString => EmptyString
  | String c s' => if is_space c then lstrip s' else s
  end.

Fixpoint rstrip (s : string) : string :=
  match s with
  | EmptyString => EmptyString
  | String c s' =>
      match rstrip s' with
      | EmptyString => if is_space c then EmptyString else String c EmptyString
      | r => String c r
      end
  end.

Definition strip (s : string) : string := rstrip (lstrip s).

(** [needle in hay] *)
Fixpoint contains (needle hay : string) : bool :=
  prefix needle hay ||
  match hay with
  | EmptyString => false
  | String _ hay' => contains needle hay'
  end.

(** [s.endswith(suffix)] *)
Fixpoint endswith (s suffix : string) : bool :=
  String.eqb s suffix ||
  match s with
  | EmptyString => false
  | String _ s' => endswith s' suffix
  end.

(** [sep.join(parts)] *)
Fixpoint join (sep : string) (parts : list string) : string :=
  match parts with
  | [] => EmptyString
  | [p] => p
  | p :: ps => p ++ sep ++ join sep ps
  end.

(** [s.replace(old, new)] for a non-empty [old]: [skip] counts the
    characters of a replaced occurrence that are still to be dropped. *)
Fixpoint replace_from (old new : string) (skip : nat) (s : string) : string :=
  match s with
  | EmptyString => EmptyString
  | String c s' =>
      match skip with
      | S k => replace_from old new k s'
      | 0 =>
          if prefix old s
          then new ++ replace_from old new (String.length old - 1) s'
          else String c (replace_from old new 0 s')
      end
  end.

Definition replace (old new s : string) : string := replace_from old new 0 s.

(** [str(n)] for a non-negative integer. *)
Definition str_of_nat (n : nat) : string :=
  NilEmpty.string_of_uint (Nat.to_uint n).

(** [re.search(r'\d+', s)] succeeds when [s] holds a digit. *)
Fixpoint has_digit (s : string) : bool :=
  match s with
  | EmptyString => false
  | String c s' => is_digit c || has_digit s'
  end.

(** [re.split(r'[.!?]+', s)]: the pieces between the maximal runs of
    delimiters; a run at either end leaves an empty piece there. *)
Definition is_sentence_end (c : ascii) : bool :=
  Ascii.eqb c "." || Ascii.eqb c "!" || Ascii.eqb c "?".

Definition cons_head (c : ascii) (pieces : list string) : list string :=
  match pieces with
  | [] => [String c EmptyString]
  | p :: ps => String c p :: ps
  end.

Fixpoint split_from (in_run : bool) (s : string) : list string :=
  match s with
  | EmptyString => [EmptyString]
  | String c s' =>
      if is_sentence_end c
      then (if in_run then split_from true s'
            else EmptyString :: split_from true s')
      else cons_head c (split_from false s')
  end.

Definition re_split_sentences (s : string) : list string := split_from false s.

(** The character class [[\d+\-*/().\s]] of the math handlers. *)
Definition is_math_char (c : ascii) : bool :=
  is_digit c || is_space c ||
  existsb (Ascii.eqb c) ["+"; "-"; "*"; "/"; "("; ")"; "."]%char.

(** [re.findall(r'[\d+\-*/().\s]+', s)]: the maximal runs of characters of
    the class, left to right. [cur] is the run being read, reversed. *)
Definition flush (cur : list ascii) (runs : list string) : list string :=
  match cur with
  | [] => runs
  | _ => string_of_list_ascii (rev cur) :: runs
  end.

Fixpoint findall_from (cur : list ascii) (s : string) : list string :=
  match s with
  | EmptyString => flush cur []
  | String c s' =>
      if is_math_char c then findall_from (c :: cur) s'
      else flush cur (findall_from [] s')
  end.

Definition re_findall_math (s : string) : list string := findall_from [] s.

(** [re.match(r'^[\d+\-*/().\s]+$', s)]: one or more characters, all of the
    class (a newline before the end is of the class as well). *)
Fixpoint all_math_chars (s : string) : bool :=
  match s with
  | EmptyString => true
  | String c s' => is_math_char c && all_math_chars s'
  end.

Definition re_match_math (s : string) : bool :=
  negb (String.eqb s EmptyString) && all_math_chars s.

(** [drop n s] is [s] without its first [n] bytes, and [search_after] the
    group of [re.search]
    with flags [IGNORECASE | DOTALL] for the pattern made of a lower-case
    literal [phrase], an optional colon, white space and a group that takes
    the rest: what follows the leftmost occurrence of the phrase, the colon
    and the white space. The phrase is ASCII, so it covers that many bytes
    of the text it matches. *)
Fixpoint drop (n : nat) (s : string) : string :=
  match n, s with
  | 0, _ => s
  | S n', String _ s' => drop n' s'
  | S _, EmptyString => EmptyString
  end.

Definition after_colon_space (s : string) : string :=
  lstrip (match s with
          | String ":" s' => s'
          | _ => s
          end).

Fixpoint search_after (phrase s : string) : option string :=
  if prefix phrase (lower s)
  then Some (after_colon_space (drop (String.length phrase) s))
  else match s with
       | EmptyString => None
       | String _ s' => search_after phrase s'
       end.

(** [\w] on one ASCII character, and [\b] after the text matched so far:
    the end of the string or a character that is not of [\w]. *)
Definition is_word (c : ascii) : bool :=
  is_upper c || is_lower c || is_digit c || Ascii.eqb c "_".

Definition at_word_end (rest : string) : bool :=
  match rest with
  | EmptyString => true
  | String c _ => negb (is_word c)
  end.

(** [re.sub(r'\b(p1|p2|...)\b', '', s, flags=re.IGNORECASE)] for lower-case
    phrases that begin and end with a letter: every occurrence that stands
    between two word boundaries is deleted, the leftmost first and the
    alternatives in their order. [after_word] tells whether the character
    before is of [\w]; [skip] counts the characters of a deleted occurrence
    still to be dropped. *)
Fixpoint remove_phrases_from (phrases : list string) (after_word : bool)
    (skip : nat) (s : string) : string :=
  match s with
  | EmptyString => EmptyString
  | String c s' =>
      match skip with
      | S k => remove_phrases_from phrases (is_word c) k s'
      | 0 =>
          match
            (if after_word then None
             else find (fun phrase =>
                          prefix phrase (lower s)
                          && at_word_end (drop (String.length phrase) s))
                       phrases)
          with
          | Some phrase =>
              remove_phrases_from phrases (is_word c)
                (String.length phrase - 1) s'
          | None => String c (remove_phrases_from phrases (is_word c) 0 s')
          end
      end
  end.

Definition remove_phrases (phrases : list string) (s : string) : string :=
  remove_phrases_from phrases false 0 s.

(** The characters of [s], one string for each code point. *)
Fixpoint chars (s : string) : list string :=
  match s with
  | EmptyString => []
  | String c s' =>
      match s' with
      | String d _ =>
          if is_continuation d
          then match chars s' with
               | g :: gs => String c g :: gs
               | [] => [String c EmptyString]
               end
          else String c EmptyString :: chars s'
      | EmptyString => [String c EmptyString]
      end
  end.

(** The loop [for pattern in patterns: match = re.search(...); if match:
    text = match.group(1).strip(); if len(text) > limit: return text]. *)
Fixpoint first_long_match (limit : nat) (phrases : list string)
    (request : string) : option string :=
  match phrases with
  | [] => None
  | phrase :: rest =>
      match search_after phrase request with
      | Some group =>
          let text := strip group in
          if limit <? len text then Some text
          else first_long_match limit rest request
      | None => first_long_match limit rest request
      end
  end.

End Py.

(** ** Exceptions *)

(** The exceptions of the modelled operations. [KeyboardInterrupt] derives
    from [BaseException] only; the others derive from [Exception]. *)
Inductive exn : Type :=
  | TypeError | KeyError | IndexError | ValueError | SyntaxError
  | ZeroDivisionError | ConnectionError | Timeout | KeyboardInterrupt
  | AttributeError.

Definition is_Exception (e : exn) : bool :=
  match e with
  | KeyboardInterrupt => false
  | _ => true
  end.

Inductive outcome (A : Type) : Type :=
  | Ret (a : A)
  | Raise (e : exn).
Arguments Ret {A} a.
Arguments Raise {A} e.

Definition bind {A B : Type} (m : outcome A) (k : A -> outcome B) : outcome B :=
  match m with
  | Ret a => k a
  | Raise e => Raise e
  end.

Notation "x <- m ;; k" := (bind m (fun x => k))
  (at level 61, m at next level, right associativity).

(** [try: body except Exception: handler] *)
Definition try_except_Exception {A : Type}
    (body : outcome A) (handler : exn -> outcome A) : outcome A :=
  match body with
  | Ret a => Ret a
  | Raise e => if is_Exception e then handler e else Raise e
  end.

(** [try: body except: handler] *)
Definition try_except {A : Type}
    (body : outcome A) (handler : exn -> outcome A) : outcome A :=
  match body with
  | Ret a => Ret a
  | Raise e => handler e
  end.

(** ** JSON values and HTTP responses *)

(** What [response.json()] returns. A dictionary keeps its entries in
    order; its keys are distinct. *)
#[warnings="-register-all"]
Inductive json : Type :=
  | JNull
  | JBool (b : bool)
  | JNum (n : nat)   (* a number; only its being zero is observed *)
  | JStr (s : string)
  | JList (l : list json)
  | JDict (d : list (string * json)).

Module Json.

Fixpoint lookup {V : Type} (key : string) (d : list (string * V)) : option V :=
  match d with
  | [] => None
  | (k, v) :: d' => if String.eqb k key then Some v else lookup key d'
  end.

(** [bool(v)] *)
Definition truthy (v : json) : bool :=
  match v with
  | JNull => false
  | JBool b => b
  | JNum n => negb (n =? 0)
  | JStr s => negb (String.eqb s EmptyString)
  | JList l => negb (length l =? 0)
  | JDict d => negb (length d =? 0)
  end.

(** [key in v] for a string [key] *)
Definition has (key : string) (v : json) : outcome bool :=
  match v with
  | JDict d => Ret (match lookup key d with Some _ => true | None => false end)
  | JList l =>
      Ret (existsb (fun x => match x with
                             | JStr s => String.eqb s key
                             | _ => false
                             end) l)
  | JStr s => Ret (Py.contains key s)
  | _ => Raise TypeError
  end.

(** [v[key]] for a string [key] *)
Definition get (key : string) (v : json) : outcome json :=
  match v with
  | JDict d => match lookup key d with Some x => Ret x | None => Raise KeyError end
  | _ => Raise TypeError
  end.

(** [v[0]] *)
Definition first (v : json) : outcome json :=
  match v with
  | JList (x :: _) => Ret x
  | JList [] => Raise IndexError
  | JStr (String c _) => Ret (JStr (String c EmptyString))
  | JStr EmptyString => Raise IndexError
  | JDict _ => Raise KeyError
  | _ => Raise TypeError
  end.

(** [len(v)] *)
Definition len (v : json) : outcome nat :=
  match v with
  | JStr s => Ret (Py.len s)
  | JList l => Ret (length l)
  | JDict d => Ret (length d)
  | _ => Raise TypeError
  end.

(** [v[:n] + "..."] *)
Definition truncate (n : nat) (v : json) : outcome json :=
  match v with
  | JStr s => Ret (JStr (Py.slice_to n s ++ "..."))
  | _ => Raise TypeError
  end.

(** [for x in v]: the values that the loop goes through *)
Definition iterate (v : json) : outcome (list json) :=
  match v with
  | JList l => Ret l
  | JDict d => Ret (map (fun entry => JStr (fst entry)) d)
  | JStr s => Ret (map JStr (Py.chars s))
  | _ => Raise TypeError
  end.

(** [v.items()] and [v.get(key, default)], which only a dictionary has *)
Definition items (v : json) : outcome (list (string * json)) :=
  match v with
  | JDict d => Ret d
  | _ => Raise AttributeError
  end.

Definition get_or (key : string) (default : json) (v : json) : outcome json :=
  match v with
  | JDict d =>
      Ret (match lookup key d with
           | Some x => x
           | None => default
           end)
  | _ => Raise AttributeError
  end.

End Json.

(** An HTTP response: its status code and what [.json()] gives. *)
Record response : Type := {
  status_code : nat;
  json_body : outcome json
}.

(** ** Sorting and enumeration *)

(** [l.sort(key=key, reverse=True)]: Python's sort is stable, also with
    [reverse=True]: elements of equal key keep their order. A stable sort has
    one possible result, computed here by insertion from the right: [x]
    stood before every element of [l] and goes before the first element whose
    key is not greater than its own. *)
Section Sort.
Context {X : Type}.
Variable key : X -> nat.

Fixpoint insert_desc (x : X) (l : list X) : list X :=
  match l with
  | [] => [x]
  | y :: l' =>
      if key y <=? key x then x :: y :: l' else y :: insert_desc x l'
  end.

Definition sort_desc (l : list X) : list X := fold_right insert_desc [] l.
End Sort.

(** [enumerate(l)] *)
Definition enumerate {A : Type} (l : list A) : list (nat * A) :=
  combine (seq 0 (length l)) l.

(** The newline and the double quote of the message literals. *)
Definition nl : string := String "010" EmptyString.
Definition dq : string := String "034" EmptyString.

(** The lines [f"{i}. {item}\n"] for [i, item in enumerate(items, start)],
    concatenated. *)
Fixpoint numbered (start : nat) (items : list string) : string :=
  match items with
  | [] => EmptyString
  | item :: rest =>
      Py.str_of_nat start ++ ". " ++ item ++ nl ++ numbered (S start) rest
  end.

(** ** conversational_ai.py *)

Module Conversational.
Import Py.

(** [split_into_sentences] *)
Definition split_into_sentences (text : string) : list string :=
  filter (fun sentence => 10 <? len sentence)
         (map strip (re_split_sentences text)).

Definition keywords : list string :=
  ["important"; "key"; "main"; "primary"; "significant"; "crucial";
   "essential"; "major"; "conclusion"; "result"; "therefore"; "however";
   "because"].

(** The four contributions to a sentence's score in [extract_key_sentences].
    [i < len(sentences) * 0.3] compares an integer with a double; the
    rounded product [n * 0.3] is [3n/10] exactly when that is an integer and
    is on the same side of every integer otherwise, so the test is
    [10 * i < 3 * n]. *)
Definition position_score (n i : nat) : nat :=
  if i =? 0 then 3
  else if i =? n - 1 then 2
  else if 10 * i <? 3 * n then 1
  else 0.

Definition length_score (sentence : string) : nat :=
  if (50 <? len sentence) && (len sentence <? 200) then 2
  else if (20 <? len sentence) && (len sentence <? 300) then 1
  else 0.

Definition keyword_score (sentence : string) : nat :=
  length (filter (fun keyword => contains (lower keyword) (lower sentence))
                 keywords).

Definition number_score (sentence : string) : nat :=
  if has_digit sentence then 1 else 0.

Definition sentence_score (n i : nat) (sentence : string) : nat :=
  position_score n i + length_score sentence
  + keyword_score sentence + number_score sentence.

Definition score_sentences (sentences : list string) : list (string * nat) :=
  map (fun '(i, sentence) =>
         (sentence, sentence_score (length sentences) i sentence))
      (enumerate sentences).

Definition keep_count (num_sentences : nat) : nat :=
  if num_sentences <=? 5 then 2
  else if num_sentences <=? 10 then 3
  else Nat.max 3 (num_sentences / 3).

(** [extract_key_sentences]; the [full_text] argument is not used. *)
Definition extract_key_sentences (sentences : list string) : list string :=
  let scored_sentences := sort_desc snd (score_sentences sentences) in
  map fst (firstn (keep_count (length sentences)) scored_sentences).

(** [create_summary] *)
Definition ends_sentence (sentence : string) : bool :=
  endswith sentence "." || endswith sentence "!" || endswith sentence "?".

Definition finish (sentence : string) : string :=
  let sentence := strip sentence in
  if ends_sentence sentence then sentence else sentence ++ ".".

Definition summary_lines (key_sentences : list string) : list string :=
  List.app
    (if 1 <? length key_sentences then ["**Key Points:**"] else [])
    (map (fun sentence =>
            if 1 <? length key_sentences then "• " ++ finish sentence
            else finish sentence)
         key_sentences).

Definition footnote (original_length summary_length : nat) : string :=
  nl ++ "*This summary condensed " ++ str_of_nat original_length
  ++ " characters into " ++ str_of_nat summary_length ++ " characters.*".

Definition create_summary (key_sentences : list string)
    (original_text : string) : string :=
  match key_sentences with
  | [] => "Unable to generate summary - please provide more substantial text."
  | _ =>
      let summary_parts := summary_lines key_sentences in
      let summary_parts :=
        if 1000 <? len original_text
        then List.app summary_parts
               [footnote (len original_text) (len (join " " summary_parts))]
        else summary_parts in
      join nl summary_parts
  end.

(** [summarize_text] *)
Definition summarize_text (text : string) : string :=
  let text := strip text in
  if len text <? 200
  then "This text is already quite brief. Here it is:" ++ nl ++ nl ++ text
  else
    let sentences := split_into_sentences text in
    if length sentences <=? 3
    then "This text is already concise:" ++ nl ++ nl ++ text
    else create_summary (extract_key_sentences sentences) text.

(** [handle_math_request]. [py_eval expr] is [eval(expr)] formatted by the
    f-string, or the exception it raises. *)
Definition math_help : string :=
  "I can help with math! Try asking me things like:" ++ nl ++ nl
  ++ "• " ++ dq ++ "Calculate 15 + 25 * 3" ++ dq ++ nl
  ++ "• " ++ dq ++ "What's 25% of 200?" ++ dq ++ nl
  ++ "• " ++ dq ++ "Convert 100 fahrenheit to celsius" ++ dq ++ nl
  ++ "• " ++ dq ++ "Explain how to solve quadratic equations" ++ dq ++ nl
  ++ "• " ++ dq ++ "What's the area of a circle with radius 5?" ++ dq ++ nl ++ nl
  ++ "For complex math problems, I can also explain the steps and concepts involved. What would you like to calculate or learn about?".

Definition handle_math_request (py_eval : string -> outcome string)
    (request : string) : outcome string :=
  try_except
    (let matches := re_findall_math request in
     answer <-
       match matches with
       | [] => Ret None
       | _ =>
           let expr := strip (join EmptyString matches) in
           if re_match_math expr
           then try_except
                  (result <- py_eval expr ;;
                   Ret (Some ("The answer is: **" ++ result ++ "**" ++ nl ++ nl
                              ++ "Calculation: " ++ expr ++ " = " ++ result)))
                  (fun _ => Ret None)
           else Ret None
       end ;;
     match answer with
     | Some text => Ret text
     | None => Ret math_help
     end)
    (fun _ =>
       Ret "I can help with math calculations! What would you like me to calculate?").

(** [extract_text_for_summary] and [extract_text_for_analysis] *)
Definition extract_text_for_summary (request : string) : option string :=
  match first_long_match 100
          ["summarize this"; "summary of"; "tldr"; "brief"; "condense"]
          request with
  | Some text => Some text
  | None => if 500 <? len request then Some request else None
  end.

Definition extract_text_for_analysis (request : string) : option string :=
  match first_long_match 50
          ["analyze this"; "analysis of"; "review this"; "feedback on";
           "critique"]
          request with
  | Some text => Some text
  | None => if 200 <? len request then Some request else None
  end.

(** [search_wikipedia]: one request, the extract cut to 500 characters, the
    whole body under a bare [except]. *)
Section Wikipedia.
Variable quote : string -> string.
Variable http_get : string -> list (string * string) -> outcome response.

Definition search_wikipedia_body (query : string) : outcome (option json) :=
  let clean_query := strip query in
  response <-
    http_get ("https://en.wikipedia.org/api/rest_v1/page/summary/"
              ++ quote clean_query) [] ;;
  if status_code response =? 200 then
    data <- json_body response ;;
    present <- Json.has "extract" data ;;
    if present then
      extract <- Json.get "extract" data ;;
      if Json.truthy extract then
        n <- Json.len extract ;;
        if 500 <? n
        then (cut <- Json.truncate 497 extract ;; Ret (Some cut))
        else Ret (Some extract)
      else Ret None
    else Ret None
  else Ret None.

Definition search_wikipedia (query : string) : outcome (option json) :=
  try_except (search_wikipedia_body query) (fun _ => Ret None).
End Wikipedia.

(** [get_response]. The state is [conversation_history]; the response
    generator reads it and does not change it. The result is the history
    after the call and the response, or the exception of the generator. *)
Section Conversation.
Variable generate_intelligent_response : list string -> string -> outcome string.

(** [l[-n:]] for a positive [n] *)
Definition last_n {A : Type} (n : nat) (l : list A) : list A :=
  skipn (length l - n) l.

Definition get_response (conversation_history : list string)
    (user_input : string) : list string * outcome string :=
  let history := List.app conversation_history ["User: " ++ user_input] in
  let history := if 20 <? length history then last_n 20 history else history in
  match generate_intelligent_response history user_input with
  | Ret response =>
      (List.app history ["Limbor: " ++ response], Ret response)
  | Raise e => (history, Raise e)
  end.

(** A conversation: the calls made one after the other, from a history. *)
Fixpoint converse (conversation_history : list string)
    (inputs : list string) : list string :=
  match inputs with
  | [] => conversation_history
  | user_input :: rest =>
      converse (fst (get_response conversation_history user_input)) rest
  end.
End Conversation.

End Conversational.

(** ** simple_ai_chat.py *)

Module Simple.
Import Py.

(** [split_sentences] *)
Definition split_sentences (text : string) : list string :=
  filter (fun sentence => 15 <? len sentence)
         (map strip (re_split_sentences text)).

Definition important_words : list string :=
  ["important"; "key"; "main"; "primary"; "essential"; "crucial";
   "therefore"; "however"; "because"; "result"; "conclusion"].

Definition position_score (n i : nat) : nat :=
  if i =? 0 then 3
  else if i =? n - 1 then 2
  else 0.

Definition length_score (sentence : string) : nat :=
  if (30 <=? len sentence) && (len sentence <=? 150) then 2 else 0.

Definition keyword_score (sentence : string) : nat :=
  length (filter (fun word => contains (lower word) (lower sentence))
                 important_words).

Definition number_score (sentence : string) : nat :=
  if has_digit sentence then 1 else 0.

Definition sentence_score (n i : nat) (sentence : string) : nat :=
  position_score n i + length_score sentence
  + keyword_score sentence + number_score sentence.

Definition score_sentences (sentences : list string) : list (string * nat) :=
  map (fun '(i, sentence) =>
         (sentence, sentence_score (length sentences) i sentence))
      (enumerate sentences).

Definition num_to_take (n : nat) : nat := Nat.min 3 (Nat.max 2 (n / 3)).

(** [select_key_sentences] *)
Definition select_key_sentences (sentences : list string) : list string :=
  if length sentences <=? 3 then sentences
  else
    let scored := sort_desc snd (score_sentences sentences) in
    map fst (firstn (num_to_take (length sentences)) scored).

(** [create_summary]. With one key sentence the code returns it as it is;
    the other branch also serves an empty selection. *)
Definition create_summary (text : string) : string :=
  let text := strip text in
  if len text <? 100
  then "This text is already brief:" ++ nl ++ nl ++ text
  else
    let sentences := split_sentences text in
    if length sentences <=? 2
    then "This text is already concise:" ++ nl ++ nl ++ text
    else
      match select_key_sentences sentences with
      | [sentence] => sentence
      | key_sentences =>
          strip ("**Key Points:**" ++ nl ++ numbered 1 (map strip key_sentences))
      end.

(** [handle_math] *)
Definition handle_math (py_eval : string -> outcome string)
    (user_input : string) : outcome string :=
  try_except
    (let math_expr := re_findall_math user_input in
     answer <-
       match math_expr with
       | [] => Ret None
       | _ =>
           let expr := strip (join EmptyString math_expr) in
           if re_match_math expr
           then result <- py_eval expr ;;
                Ret (Some ("**Answer:** " ++ result ++ nl ++ nl
                           ++ "Calculation: " ++ expr ++ " = " ++ result))
           else Ret None
       end ;;
     match answer with
     | Some text => Ret text
     | None =>
         Ret "I can help with math! Try something like: 'Calculate 25 * 4 + 10'"
     end)
    (fun _ =>
       Ret "I can help with calculations! What would you like me to calculate?").

(** [extract_search_snippets]. The parsed page is the map from a CSS
    selector to the texts ([get_text()]) of the elements it selects, in
    document order. *)
Definition result_selectors : list string :=
  ["div.BVG0Nb"; "div.VwiC3b"; "span.aCOpRe"; "div.s3v9rd"; "div.IsZvec"].

Definition unwanted : list string :=
  ["sign in"; "cookies"; "privacy"; "javascript"; "advertisement"].

Definition usable (text : string) : bool :=
  negb (String.eqb text EmptyString)
  && (30 <? len text) && (len text <? 300)
  && negb (existsb (fun skip => contains skip (lower text)) unwanted).

Definition collect_snippets (soup : string -> list string) : list string :=
  flat_map (fun selector =>
              filter usable (map strip (firstn 5 (soup selector))))
           result_selectors.

(** The loop that fills [unique_snippets]. *)
Definition keep_unique (unique_snippets : list string) (snippet : string)
    : list string :=
  if existsb (fun existing => contains (lower snippet) (lower existing))
             unique_snippets
  then unique_snippets
  else List.app unique_snippets [snippet].

Definition unique (snippets : list string) : list string :=
  fold_left keep_unique snippets [].

(** The entries that are printed: [unique_snippets[:3]]. *)
Definition kept_snippets (soup : string -> list string) : list string :=
  firstn 3 (unique (collect_snippets soup)).

Definition extract_search_snippets (soup : string -> list string)
    : option string :=
  match collect_snippets soup with
  | [] => None
  | snippets =>
      match unique snippets with
      | [] => None
      | unique_snippets =>
          Some (strip ("**Key Information Found:**" ++ nl
                       ++ numbered 1 (firstn 3 unique_snippets)))
      end
  end.

(** [search_wikipedia]. [quote] is [urllib.parse.quote]; [http_get url
    params] is [requests.get] with the headers and timeout of the code. The
    handler prints the error and returns [None]. *)
Definition clean_query (query : string) : string :=
  strip (replace "how does" EmptyString
           (replace "who is" EmptyString
              (replace "what is" EmptyString query))).

Section Wikipedia.
Variable quote : string -> string.
Variable http_get : string -> list (string * string) -> outcome response.

Definition summary_url (title : string) : string :=
  "https://en.wikipedia.org/api/rest_v1/page/summary/" ++ quote title.

(** The part shared by the two lookups: the extract of a summary page,
    cut to 400 characters. [None] stands for falling through. *)
Definition read_extract (r : response) : outcome (option json) :=
  if status_code r =? 200 then
    data <- json_body r ;;
    present <- Json.has "extract" data ;;
    if present then
      extract <- Json.get "extract" data ;;
      if Json.truthy extract then
        n <- Json.len extract ;;
        if 400 <? n
        then (cut <- Json.truncate 397 extract ;; Ret (Some cut))
        else Ret (Some extract)
      else Ret None
    else Ret None
  else Ret None.

(** [has_results]: ['query' in d and 'search' in d['query'] and
    d['query']['search']] *)
Definition has_results (search_data : json) : outcome bool :=
  q <- Json.has "query" search_data ;;
  if q then
    query_part <- Json.get "query" search_data ;;
    s <- Json.has "search" query_part ;;
    if s then
      query_part <- Json.get "query" search_data ;;
      hits <- Json.get "search" query_part ;;
      Ret (Json.truthy hits)
    else Ret false
  else Ret false.

Definition page_title_of (search_data : json) : outcome string :=
  query_part <- Json.get "query" search_data ;;
  hits <- Json.get "search" query_part ;;
  hit <- Json.first hits ;;
  title <- Json.get "title" hit ;;
  match title with
  | JStr t => Ret t
  | _ => Raise TypeError
  end.

Definition search_wikipedia_body (query : string) : outcome (option json) :=
  let clean_query := clean_query query in
  response <- http_get (summary_url clean_query) [] ;;
  direct <- read_extract response ;;
  match direct with
  | Some extract => Ret (Some extract)
  | None =>
      search_response <-
        http_get "https://en.wikipedia.org/w/api.php"
                 [("action", "query"); ("list", "search");
                  ("srsearch", clean_query); ("format", "json");
                  ("srlimit", "1")] ;;
      search_data <- json_body search_response ;;
      found <- has_results search_data ;;
      if found then
        page_title <- page_title_of search_data ;;
        summary_response <- http_get (summary_url page_title) [] ;;
        read_extract summary_response
      else Ret None
  end.

Definition search_wikipedia (query : string) : outcome (option json) :=
  try_except_Exception (search_wikipedia_body query) (fun _ => Ret None).
End Wikipedia.

(** [extract_text_to_summarize] *)
Definition extract_text_to_summarize (user_input : string) : option string :=
  match first_long_match 30
          ["summarize"; "summary"; "tldr"; "brief"; "condense"; "key points";
           "main points"]
          user_input with
  | Some text => Some text
  | None => if 200 <? len user_input then Some user_input else None
  end.

(** [bool(x)] for a text or [None] *)
Definition truthy_text (x : option string) : bool :=
  match x with
  | Some text => negb (String.eqb text EmptyString)
  | None => false
  end.

(** [extract_direct_answer] *)
Definition answer_selectors : list string :=
  ["div[data-attrid=" ++ dq ++ "wa:/description" ++ dq ++ "]";
   "div.BNeawe.iBp4i.AP7Wnd"; "div.BNeawe.s3v9rd.AP7Wnd"; "span.hgKElc";
   "div.kno-rdesc span"; "div.Z0LcW"; "div.IZ6rdc"].

Definition direct (text : string) : bool :=
  negb (String.eqb text EmptyString)
  && (20 <? len text) && (len text <? 500)
  && negb (existsb (fun skip => contains skip (lower text))
             ["sign in"; "cookies"; "privacy"; "javascript"]).

Definition extract_direct_answer (soup : string -> list string)
    : option string :=
  find direct
       (flat_map (fun selector => map strip (soup selector)) answer_selectors).

(** [search_google] and [search_and_answer]. [fetch_page url] is the request
    and the parse; [str_of_json] and [str_of_exn] are what an f-string
    prints for a JSON value that is not a string and for an exception;
    [now] is the formatted clock. *)
Section Search.
Variable quote : string -> string.
Variable http_get : string -> list (string * string) -> outcome response.
Variable fetch_page : string -> outcome (string -> list string).
Variable str_of_json : json -> string.
Variable str_of_exn : exn -> string.
Variable now : string.

Definition search_google (query : string) : outcome (option string) :=
  try_except_Exception
    (soup <- fetch_page ("https://www.google.com/search?q=" ++ quote query) ;;
     let direct_answer := extract_direct_answer soup in
     if truthy_text direct_answer then Ret direct_answer
     else
       let snippets := extract_search_snippets soup in
       if truthy_text snippets then Ret snippets else Ret None)
    (fun _ => Ret None).

Definition truthy_json (x : option json) : bool :=
  match x with
  | Some v => Json.truthy v
  | None => false
  end.

Definition text_of_json (x : option json) : string :=
  match x with
  | Some (JStr s) => s
  | Some v => str_of_json v
  | None => "None"
  end.

Definition text_of (x : option string) : string :=
  match x with
  | Some s => s
  | None => "None"
  end.

Definition no_clear_results (question : string) : string :=
  "I searched for information about '" ++ question
  ++ "' but couldn't find clear results. This might be because:" ++ nl
  ++ "• The topic is very new or specialized" ++ nl
  ++ "• The search terms need to be more specific" ++ nl
  ++ "• The information might not be widely available online" ++ nl ++ nl
  ++ "Try rephrasing your question or being more specific!".

Definition search_failed (question : string) (e : exn) : string :=
  "I tried to search for '" ++ question
  ++ "' but encountered an error. Let me try to help based on general knowledge instead."
  ++ nl ++ nl ++ "Error: " ++ str_of_exn e.

Definition search_and_answer (question : string) : outcome string :=
  try_except_Exception
    (google_result <- search_google question ;;
     wiki_result <- search_wikipedia quote http_get question ;;
     Ret ("**Answer to: " ++ question ++ "**" ++ nl ++ nl
          ++ (if truthy_json wiki_result
              then "**From Wikipedia:**" ++ nl ++ text_of_json wiki_result
                   ++ nl ++ nl
              else EmptyString)
          ++ (if truthy_text google_result
              then "**From Web Search:**" ++ nl ++ text_of google_result
                   ++ nl ++ nl
              else EmptyString)
          ++ (if negb (truthy_text google_result)
                 && negb (truthy_json wiki_result)
              then no_clear_results question
              else EmptyString)
          ++ "🕒 **Search completed at:** " ++ now))
    (fun e => Ret (search_failed question e)).
End Search.

(** [chat]. The state is [conversation_history], which [process_input]
    does not read. *)
Section Chat.
Variable process_input : string -> outcome string.

Definition chat (conversation_history : list string) (user_input : string)
    : list string * outcome string :=
  let history := List.app conversation_history ["User: " ++ user_input] in
  match process_input user_input with
  | Ret response => (List.app history ["Limbor: " ++ response], Ret response)
  | Raise e => (history, Raise e)
  end.

Fixpoint converse (conversation_history : list string)
    (inputs : list string) : list string :=
  match inputs with
  | [] => conversation_history
  | user_input :: rest =>
      converse (fst (chat conversation_history user_input)) rest
  end.
End Chat.

End Simple.

(** ** smart_search_test.py *)

Module SmartSearch.
Import Py.

(** [search_duckduckgo]. [fetch_snippets url] is the request and the parse:
    the texts of the elements whose class mentions [snippet], or the
    exception raised on the way. *)
Section DuckDuckGo.
Variable quote : string -> string.
Variable fetch_snippets : string -> outcome (list string).

Definition navigation : list string :=
  ["cookies"; "privacy"; "javascript"; "sign in"].

Definition acceptable (text : string) : bool :=
  negb (String.eqb text EmptyString)
  && (30 <? len text) && (len text <? 400)
  && negb (existsb (fun skip => contains skip (lower text)) navigation).

Definition shorten (text : string) : string :=
  if 300 <? len text then slice_to 300 text ++ "..." else text.

Definition first_acceptable (texts : list string) : option string :=
  match filter acceptable (map strip (firstn 3 texts)) with
  | [] => None
  | text :: _ => Some (shorten text)
  end.

Definition search_duckduckgo_body (query : string) : outcome (option string) :=
  results <- fetch_snippets ("https://duckduckgo.com/html/?q=" ++ quote query) ;;
  Ret (first_acceptable results).

Definition search_duckduckgo (query : string) : outcome (option string) :=
  try_except_Exception (search_duckduckgo_body query) (fun _ => Ret None).
End DuckDuckGo.

(** [search_wikipedia] *)
Section Wikipedia.
Variable quote : string -> string.
Variable http_get : string -> list (string * string) -> outcome response.

Definition search_wikipedia_body (query : string) : outcome (option json) :=
  let clean_query :=
    strip (replace "who is" EmptyString (replace "what is" EmptyString query)) in
  response <-
    http_get ("https://en.wikipedia.org/api/rest_v1/page/summary/"
              ++ quote clean_query) [] ;;
  if status_code response =? 200 then
    data <- json_body response ;;
    present <- Json.has "extract" data ;;
    if present then
      extract <- Json.get "extract" data ;;
      if Json.truthy extract then
        n <- Json.len extract ;;
        if 300 <? n
        then (cut <- Json.truncate 297 extract ;; Ret (Some cut))
        else Ret (Some extract)
      else Ret None
    else Ret None
  else Ret None.

Definition search_wikipedia (query : string) : outcome (option json) :=
  try_except_Exception (search_wikipedia_body query) (fun _ => Ret None).
End Wikipedia.

(** [get_built_in_knowledge]; [now_time] and [now_date] are the two
    formatted readings of the clock. *)
Section Answer.
Variable now_time now_date : string.

Definition get_built_in_knowledge (query : string) : option string :=
  let q := lower query in
  if contains "npu" q then
    Some "NPU (Neural Processing Unit) is a specialized chip designed for AI and machine learning tasks. It's found in modern phones and computers to handle AI workloads efficiently, like image recognition, voice processing, and neural networks."
  else if contains "ai" q || contains "artificial intelligence" q then
    Some "Artificial Intelligence (AI) is computer technology that can perform tasks requiring human-like intelligence - learning, reasoning, problem-solving. Examples include virtual assistants, recommendation systems, and autonomous vehicles."
  else if contains "python" q && (contains "programming" q || contains "language" q) then
    Some "Python is a popular programming language known for being easy to learn and powerful. It's used for web development, data science, AI/machine learning, automation, and more. Great for beginners!"
  else if contains "machine learning" q || contains "ml" q then
    Some "Machine Learning is AI that learns patterns from data without explicit programming. It powers recommendation systems (Netflix, Spotify), image recognition, language translation, and predictive analytics."
  else if contains "time" q then
    Some ("Current time: " ++ now_time)
  else if contains "date" q || contains "today" q then
    Some ("Today is " ++ now_date)
  else if contains "weather" q then
    Some "I can't check live weather data, but you can ask Siri, check your weather app, or visit weather.com for current conditions in your area."
  else if contains "how to" q && contains "code" q then
    Some "For coding help, I recommend: 1) Start with Python or JavaScript, 2) Use free resources like Codecademy or freeCodeCamp, 3) Practice on coding challenges, 4) Build small projects to learn."
  else None.

Variable quote : string -> string.
Variable http_get : string -> list (string * string) -> outcome response.
Variable fetch_snippets : string -> outcome (list string).
Variable str_of_json : json -> string.

Definition truthy_text (x : option string) : bool :=
  match x with
  | Some text => negb (String.eqb text EmptyString)
  | None => false
  end.

Definition text_of (x : option string) : string :=
  match x with
  | Some s => s
  | None => "None"
  end.

Definition truthy_json (x : option json) : bool :=
  match x with
  | Some v => Json.truthy v
  | None => false
  end.

Definition text_of_json (x : option json) : string :=
  match x with
  | Some (JStr s) => s
  | Some v => str_of_json v
  | None => "None"
  end.

Definition browser_url (query : string) : string :=
  "https://www.google.com/search?q=" ++ quote query.

(** [get_smart_answer]: the answer and the address that [webbrowser.open]
    was given, if it was called. *)
Definition get_smart_answer (query : string)
    : outcome (string * option string) :=
  let built_in := get_built_in_knowledge query in
  if truthy_text built_in then Ret ("💡 " ++ text_of built_in, None)
  else
    wiki_result <- search_wikipedia quote http_get query ;;
    if truthy_json wiki_result
    then Ret ("📚 From Wikipedia: " ++ text_of_json wiki_result, None)
    else
      ddg_result <- search_duckduckgo quote fetch_snippets query ;;
      if truthy_text ddg_result
      then Ret ("🔍 From DuckDuckGo: " ++ text_of ddg_result, None)
      else Ret ("🌐 I've opened a browser search for '" ++ query
                ++ "' - check the results there!",
                Some (browser_url query)).
End Answer.

End SmartSearch.

(** ** intelligent_limbor.py *)

Module Limbor.
Import Py.

(** What a provider hands to the compiler: a dictionary of texts (built-in
    knowledge, Wikipedia), a list of result dictionaries (DuckDuckGo) or a
    list of titles (news). A dictionary is kept in insertion order, each
    value as the text an f-string prints for it. *)
Definition dict : Type := list (string * string).

Inductive item : Type :=
  | ItemDict (d : dict)
  | ItemStr (s : string).

Inductive source_data : Type :=
  | Dict (d : dict)
  | Items (l : list item).

(** [bool(data)] *)
Definition truthy (data : source_data) : bool :=
  match data with
  | Dict d => negb (length d =? 0)
  | Items l => negb (length l =? 0)
  end.

(** [d[key]] and [d.get(key, default)] *)
Definition getitem (key : string) (d : dict) : outcome string :=
  match Json.lookup key d with
  | Some v => Ret v
  | None => Raise KeyError
  end.

Definition get_or (key default : string) (d : dict) : string :=
  match Json.lookup key d with
  | Some v => v
  | None => default
  end.

Definition has_key (key : string) (d : dict) : bool :=
  match Json.lookup key d with
  | Some _ => true
  | None => false
  end.

(** [l[0]] *)
Definition first {A : Type} (l : list A) : outcome A :=
  match l with
  | x :: _ => Ret x
  | [] => Raise IndexError
  end.

(** [get_built_in_knowledge] *)
Definition get_built_in_knowledge (query : string) : option dict :=
  let q := lower query in
  if contains "npu" q then
    Some [("definition", "Neural Processing Unit (NPU) is a specialized microprocessor designed to accelerate artificial intelligence and machine learning computations.");
          ("details", "NPUs are optimized for neural network operations like matrix multiplications, convolutions, and other AI workloads. They're found in modern smartphones (Apple A17 Pro, Qualcomm Snapdragon), laptops (Apple M-series, Intel Core Ultra), and dedicated AI chips.");
          ("applications", "Used for on-device AI tasks like image recognition, natural language processing, voice assistants, camera enhancements, and real-time translation.");
          ("advantages", "More energy-efficient than CPUs/GPUs for AI tasks, enables privacy-preserving on-device AI, reduces latency by avoiding cloud processing.")]
  else if contains "artificial intelligence" q || contains "ai" q then
    Some [("definition", "Artificial Intelligence (AI) is the simulation of human intelligence in machines programmed to think and learn like humans.");
          ("types", "Narrow AI (specific tasks like Siri), General AI (human-level intelligence, not yet achieved), Super AI (beyond human intelligence, theoretical)");
          ("applications", "Virtual assistants, recommendation systems, autonomous vehicles, medical diagnosis, fraud detection, language translation, image recognition");
          ("technologies", "Machine Learning, Deep Learning, Neural Networks, Natural Language Processing, Computer Vision");
          ("current_state", "We're in the era of Narrow AI with rapid advances in Large Language Models (ChatGPT, GPT-4) and multimodal AI systems.")]
  else if contains "python" q && (contains "programming" q || contains "language" q) then
    Some [("definition", "Python is a high-level, interpreted programming language known for its simplicity and readability.");
          ("features", "Easy syntax, extensive libraries, cross-platform, object-oriented and functional programming support");
          ("uses", "Web development (Django, Flask), Data Science (Pandas, NumPy), AI/ML (TensorFlow, PyTorch), Automation, Scientific computing");
          ("advantages", "Beginner-friendly, large community, extensive documentation, rapid development");
          ("learning_path", "Start with basics → Learn data structures → Practice projects → Explore libraries → Build real applications")]
  else if contains "machine learning" q || contains "ml" q then
    Some [("definition", "Machine Learning is a subset of AI that enables computers to learn and improve from data without explicit programming.");
          ("types", "Supervised Learning (labeled data), Unsupervised Learning (pattern finding), Reinforcement Learning (reward-based)");
          ("algorithms", "Linear Regression, Decision Trees, Random Forest, Neural Networks, Support Vector Machines, K-means Clustering");
          ("applications", "Recommendation systems, Image recognition, Natural language processing, Predictive analytics, Autonomous systems");
          ("process", "Data Collection → Data Preprocessing → Model Selection → Training → Evaluation → Deployment → Monitoring")]
  else None.

(** [s * n] *)
Fixpoint repeat_string (s : string) (n : nat) : string :=
  match n with
  | 0 => EmptyString
  | S n' => s ++ repeat_string s n'
  end.

Definition name : string := "Limbor".

Section Compile.
(** [str(l)] of a list, which the f-string prints for a main source that
    is not a dictionary, and the formatted reading of the clock. *)
Variable str_of_items : list item -> string.
Variable now : string.

Definition no_information (query : string) : string :=
  "❌ I couldn't find comprehensive information about '" ++ query
  ++ "'. Try rephrasing your question or being more specific.".

(** The bullet lines of a structured main source. *)
Fixpoint field_lines (data : dict) : string :=
  match data with
  | [] => EmptyString
  | (key, value) :: rest =>
      (if String.eqb key "definition" then EmptyString
       else "• " ++ title (replace "_" " " key) ++ ": " ++ value ++ nl)
      ++ field_lines rest
  end.

Definition main_summary (data : source_data) : outcome string :=
  match data with
  | Dict d =>
      head <- (if has_key "definition" d
               then (definition <- getitem "definition" d ;;
                     Ret (definition ++ nl ++ nl))
               else Ret EmptyString) ;;
      Ret (head ++ field_lines d)
  | Items l => Ret (str_of_items l ++ nl)
  end.

Definition item_lines (it : item) : string :=
  match it with
  | ItemDict d =>
      "   • " ++ get_or "title" "No title" d ++ nl
      ++ "     " ++ slice_to 100 (get_or "snippet" "No description" d)
      ++ "..." ++ nl
  | ItemStr s => "   • " ++ slice_to 100 s ++ "..." ++ nl
  end.

Definition source_lines (data : source_data) : outcome string :=
  match data with
  | Dict d =>
      t <- (if has_key "title" d
            then (v <- getitem "title" d ;; Ret ("   Title: " ++ v ++ nl))
            else Ret EmptyString) ;;
      c <- (if has_key "content" d
            then (v <- getitem "content" d ;; Ret ("   Content: " ++ v ++ nl))
            else Ret EmptyString) ;;
      u <- (if has_key "url" d
            then (v <- getitem "url" d ;; Ret ("   Source: " ++ v ++ nl))
            else Ret EmptyString) ;;
      Ret (t ++ c ++ u)
  | Items l => Ret (String.concat EmptyString (map item_lines (firstn 3 l)))
  end.

(** The loop over [enumerate(sources[1:], 1)]. *)
Fixpoint additional (i : nat) (sources : list (string * source_data))
    : outcome string :=
  match sources with
  | [] => Ret EmptyString
  | (source_name, data) :: rest =>
      lines <- source_lines data ;;
      others <- additional (S i) rest ;;
      Ret (str_of_nat i ++ ". " ++ source_name ++ ":" ++ nl
           ++ lines ++ nl ++ others)
  end.

(** [compile_comprehensive_response] *)
Definition compile_comprehensive_response (query : string)
    (sources : list (string * source_data)) : outcome string :=
  match sources with
  | [] => Ret (no_information query)
  | _ =>
      main_source <- first sources ;;
      summary <- main_summary (snd main_source) ;;
      more <- (if 1 <? length sources
               then (lines <- additional 1 (tl sources) ;;
                     Ret ("📚 ADDITIONAL SOURCES:" ++ nl ++ nl ++ lines))
               else Ret EmptyString) ;;
      Ret (nl ++ "🤖 " ++ name ++ "'s Research Report: " ++ query ++ nl
           ++ repeat_string "=" 60 ++ nl ++ nl
           ++ "📋 SUMMARY:" ++ nl
           ++ summary
           ++ nl ++ repeat_string "─" 60 ++ nl ++ nl
           ++ more
           ++ repeat_string "─" 60 ++ nl
           ++ "🕒 Research completed at " ++ now ++ nl
           ++ "📊 Sources consulted: " ++ str_of_nat (length sources) ++ nl)
  end.

(** What the three lookups that go to the network have returned, for
    [search_multiple_sources] and for the gathering of the sources. *)
Variable search_wikipedia_detailed : string -> option dict.
Variable search_duckduckgo_detailed : string -> option (list dict).
Variable search_news : string -> option (list string).

Definition current_words : list string :=
  ["news"; "latest"; "current"; "today"; "recent"].

(** [if x: sources.append((label, x))] *)
Definition when_truthy (label : string) (x : option source_data)
    : list (string * source_data) :=
  match x with
  | Some data => if truthy data then [(label, data)] else []
  | None => []
  end.

(** [search_multiple_sources] *)
Definition search_multiple_sources (query : string)
    : list (string * source_data) :=
  List.app
    (when_truthy "DuckDuckGo Search"
       (option_map (fun l => Items (map ItemDict l))
                   (search_duckduckgo_detailed query)))
    (if existsb (fun word => contains word (lower query)) current_words
     then when_truthy "News Sources"
            (option_map (fun l => Items (map ItemStr l)) (search_news query))
     else []).

(** The list [sources] of [get_comprehensive_answer], filled from the
    results of the lookups. *)
Definition gather (query : string) : list (string * source_data) :=
  List.app
    (when_truthy "Built-in Knowledge"
       (option_map Dict (get_built_in_knowledge query)))
    (List.app
       (when_truthy "Wikipedia"
          (option_map Dict (search_wikipedia_detailed query)))
       (search_multiple_sources query)).
End Compile.

(** [search_duckduckgo_detailed] and [search_news]. A result block of the
    page is read through its title link (text and [href]) and its snippet
    link (text), either of which may be missing; for the news, through the
    text of its first link. *)
Record result_block : Type := {
  title_link : option (string * string);
  snippet_link : option string
}.

Section Web.
Variable quote : string -> string.
Variable fetch_results : string -> outcome (list result_block).
Variable fetch_news : string -> outcome (list (option string)).

Definition result_of (element : result_block) : list dict :=
  match title_link element, snippet_link element with
  | Some (title_text, link), Some snippet_text =>
      let title := strip title_text in
      let snippet := strip snippet_text in
      if negb (String.eqb snippet EmptyString) && (30 <? len snippet)
      then [[("title", title); ("snippet", snippet); ("url", link)]]
      else []
  | _, _ => []
  end.

Definition search_duckduckgo_detailed (query : string)
    : outcome (option (list dict)) :=
  try_except_Exception
    (result_elements <-
       fetch_results ("https://duckduckgo.com/html/?q=" ++ quote query) ;;
     let results := flat_map result_of (firstn 3 result_elements) in
     Ret (match results with
          | [] => None
          | _ => Some results
          end))
    (fun _ => Ret None).

Definition news_words : list string := ["news"; "report"; "update"; "announce"].

Definition news_of (element : option string) : list string :=
  match element with
  | Some text =>
      let title := strip text in
      if existsb (fun news_word => contains news_word (lower title)) news_words
      then [title] else []
  | None => []
  end.

Definition search_news (query : string) : outcome (option (list string)) :=
  try_except_Exception
    (result_elements <-
       fetch_news ("https://duckduckgo.com/html/?q="
                   ++ quote (query ++ " news") ++ "&iar=news") ;;
     let news_results := flat_map news_of (firstn 2 result_elements) in
     Ret (match news_results with
          | [] => None
          | _ => Some news_results
          end))
    (fun _ => Ret None).
End Web.

(** [search_wikipedia_detailed] and [get_comprehensive_answer].
    [session_get url params] is [self.session.get] with the timeout of the
    code, the parameters as the code builds them; [str_of_json] is what an
    f-string prints for a JSON value that is not a string. *)
Section Research.
Variable quote : string -> string.
Variable session_get : string -> list (string * json) -> outcome response.
Variable str_of_json : json -> string.

Definition api_url : string := "https://en.wikipedia.org/w/api.php".

Definition text_of_json (v : json) : string :=
  match v with
  | JStr s => s
  | _ => str_of_json v
  end.

(** [d1 and d2] for two tests that may raise *)
Definition and_then (first : outcome bool) (second : outcome bool)
    : outcome bool :=
  b <- first ;; if b then second else Ret false.

(** The loop over [pages.items()]: the first page with an extract. The
    default of [page_info.get] is built before the call, so [quote] is
    applied to the title, which has to be a string. *)
Fixpoint first_extract (page_title : json) (pages : list (string * json))
    : outcome (option dict) :=
  match pages with
  | [] => Ret None
  | (page_id, page_info) :: rest =>
      found <- and_then (Json.has "extract" page_info)
                 (extract <- Json.get "extract" page_info ;;
                  Ret (Json.truthy extract)) ;;
      if found then
        extract <- Json.get "extract" page_info ;;
        title <- match page_title with
                 | JStr t => Ret t
                 | _ => Raise TypeError
                 end ;;
        url <- Json.get_or "fullurl"
                 (JStr ("https://en.wikipedia.org/wiki/" ++ quote title))
                 page_info ;;
        n <- Json.len extract ;;
        content <- (if 800 <? n then Json.truncate 800 extract
                    else Ret extract) ;;
        Ret (Some [("title", title); ("content", text_of_json content);
                   ("url", text_of_json url)])
      else first_extract page_title rest
  end.

(** The loop over the search results: the first result one of whose pages
    has an extract. *)
Fixpoint first_page (results : list json) : outcome (option dict) :=
  match results with
  | [] => Ret None
  | result :: rest =>
      page_title <- Json.get "title" result ;;
      content_response <-
        session_get api_url
          [("action", JStr "query"); ("format", JStr "json");
           ("titles", page_title); ("prop", JStr "extracts|info");
           ("exintro", JBool true); ("explaintext", JBool true);
           ("exsectionformat", JStr "plain"); ("inprop", JStr "url")] ;;
      content_data <- json_body content_response ;;
      has_pages <- and_then (Json.has "query" content_data)
                     (query_part <- Json.get "query" content_data ;;
                      Json.has "pages" query_part) ;;
      if has_pages then
        query_part <- Json.get "query" content_data ;;
        pages <- Json.get "pages" query_part ;;
        page_list <- Json.items pages ;;
        found <- first_extract page_title page_list ;;
        match found with
        | Some page => Ret (Some page)
        | None => first_page rest
        end
      else first_page rest
  end.

Definition interrogatives : list string :=
  ["what is"; "who is"; "tell me about"; "explain"].

Definition search_wikipedia_detailed_body (query : string)
    : outcome (option dict) :=
  let clean_query := strip (remove_phrases interrogatives query) in
  search_response <-
    session_get api_url
      [("action", JStr "query"); ("list", JStr "search");
       ("srsearch", JStr clean_query); ("format", JStr "json");
       ("srlimit", JNum 3)] ;;
  search_data <- json_body search_response ;;
  has_search <- and_then (Json.has "query" search_data)
                  (query_part <- Json.get "query" search_data ;;
                   Json.has "search" query_part) ;;
  if has_search then
    query_part <- Json.get "query" search_data ;;
    results <- Json.get "search" query_part ;;
    result_list <- Json.iterate results ;;
    first_page result_list
  else Ret None.

Definition search_wikipedia_detailed (query : string)
    : outcome (option dict) :=
  try_except_Exception (search_wikipedia_detailed_body query)
    (fun _ => Ret None).

Variable fetch_results : string -> outcome (list result_block).
Variable fetch_news : string -> outcome (list (option string)).
Variable str_of_items : list item -> string.
Variable now : string.

(** [get_comprehensive_answer]: the two lines it prints before anything
    else (writing to the terminal is taken to succeed), and the report or
    the exception that reaches the caller. The lookups run in the order of
    the code, the two of [search_multiple_sources] after the encyclopedia,
    the news only for a query with one of [current_words]; [gather] then
    fills [sources] from their results. The line that a lookup prints when
    it catches an exception is not recorded. *)
Definition get_comprehensive_answer (query : string)
    : list string * outcome string :=
  (["🔍 Researching: " ++ query;
    "📚 Gathering information from multiple sources..."],
   wiki_info <- search_wikipedia_detailed query ;;
   ddg_result <- search_duckduckgo_detailed quote fetch_results query ;;
   news_result <-
     (if existsb (fun word => contains word (lower query)) current_words
      then search_news quote fetch_news query
      else Ret None) ;;
   compile_comprehensive_response str_of_items now query
     (gather (fun _ => wiki_info) (fun _ => ddg_result)
        (fun _ => news_result) query)).
End Research.

End Limbor.

(** * Vocabulary of the statements *)

(** [i] is ranked before [j]: a higher score, or the same score and an
    earlier position. *)
Definition ranked_before (score : nat -> nat) (i j : nat) : Prop :=
  score j < score i \/ (score i = score j /\ i < j).

(** [out] holds the [k] best-ranked sentences of [sentences], best first:
    it reads [sentences] at distinct positions [idxs], each ranked before
    the next and before every position left out. *)
Definition top_ranked (score : nat -> nat) (k : nat)
    (sentences out : list string) : Prop :=
  exists idxs : list nat,
    out = map (fun i => nth i sentences EmptyString) idxs
    /\ length idxs = Nat.min k (length sentences)
    /\ NoDup idxs
    /\ Forall (fun i => i < length sentences) idxs
    /\ StronglySorted (ranked_before score) idxs
    /\ forall j, j < length sentences -> ~ In j idxs ->
                 Forall (fun i => ranked_before score i j) idxs.



(** The last character of a string, and whether it is one of [.], [!],
    [?]. *)
Fixpoint last_char (s : string) : option ascii :=
  match s with
  | EmptyString => None
  | String c EmptyString => Some c
  | String _ s' => last_char s'
  end.

Definition is_sentence_end_opt (o : option ascii) : bool :=
  match o with
  | Some c => Py.is_sentence_end c
  | None => false
  end.

(** The lower-case form of [later] is not contained in the lower-case form
    of [earlier]. *)
Definition not_within (earlier later : string) : Prop :=
  Py.contains (Py.lower later) (Py.lower earlier) = false.

(** An outcome that, if it is an exception, is one that [except Exception]
    catches. *)
Definition catchable {A : Type} (m : outcome A) : Prop :=
  match m with
  | Ret _ => True
  | Raise e => is_Exception e = true
  end.

(** What a provider returns once its handler has run. *)
Definition absorbed {A : Type} (body : outcome (option A)) : option A :=
  match body with
  | Ret r => r
  | Raise _ => None
  end.

(** The expression a math handler computes from the request: the runs of
    the character class, joined and stripped. *)
Definition math_expression (request : string) : string :=
  Py.strip (Py.join EmptyString (Py.re_findall_math request)).

(** ** Sample inputs *)

(** A sentence of exactly 50 characters. *)
Definition fifty : string :=
  "The committee will meet again on Monday at the pub".

(** A text of six sentences; the fourth scores highest. *)
Definition sample_text : string :=
  "Sun is a big star in the sky and it is very far away. It is very hot there and nobody can go. It provides light and heat to Earth every day. The main result is therefore important because 42. Planets go around the sun in long orbits of years. Moons go around the planets too.".

Definition three_sentences : list string :=
  ["The first sentence of three"; "The second sentence of three";
   "The third sentence of three"].

(** A text of 1250 characters. *)
Definition long_text : string := Limbor.repeat_string "word " 250.

(** A page with two results, the first contained in the second. *)
Definition fox : string := "The quick brown fox jumps over the lazy dog".

Definition fox_more : string :=
  "The quick brown fox jumps over the lazy dog and more".

Definition fox_page (selector : string) : list string :=
  if String.eqb selector "div.VwiC3b" then [fox; fox_more] else [].

(** A network on which every request times out, and an evaluator that
    fails on every expression. *)
Definition unreachable {A B : Type} (_ : A) (_ : B) : outcome response :=
  Raise Timeout.

Definition failing_eval (_ : string) : outcome string := Raise SyntaxError.

(** A summary page whose extract is the text of 1250 characters. *)
Definition long_page {A B : Type} (_ : A) (_ : B) : outcome response :=
  Ret {| status_code := 200;
         json_body := Ret (JDict [("extract", JStr long_text)]) |}.

(** A result block of a DuckDuckGo page, and a response generator that
    echoes the request. *)
Definition fox_block : Limbor.result_block :=
  {| Limbor.title_link := Some (" Foxes ", "https://example.org/fox");
     Limbor.snippet_link := Some fox |}.

Definition echo (_ : list string) (user_input : string) : outcome string :=
  Ret user_input.

(** ** Further vocabulary *)

(** Every character of [s] satisfies [p]. *)
Fixpoint string_forall (p : ascii -> bool) (s : string) : bool :=
  match s with
  | EmptyString => true
  | String c s' => p c && string_forall p s'
  end.

(** The characters of [s] that satisfy [p], in order. *)
Fixpoint filter_string (p : ascii -> bool) (s : string) : string :=
  match s with
  | EmptyString => EmptyString
  | String c s' => if p c then String c (filter_string p s') else filter_string p s'
  end.

(** No [.], [!] or [?] in [s]. *)
Definition no_sentence_end (s : string) : bool :=
  string_forall (fun c => negb (Py.is_sentence_end c)) s.

(** [sub] is [l] with some elements left out. *)
Inductive sublist {A : Type} : list A -> list A -> Prop :=
  | sublist_nil : sublist [] []
  | sublist_keep (x : A) (sub l : list A) :
      sublist sub l -> sublist (x :: sub) (x :: l)
  | sublist_skip (x : A) (sub l : list A) :
      sublist sub l -> sublist sub (x :: l).

(** The order in which the answer compiler consults its providers. *)
Definition provider_order : list string :=
  ["Built-in Knowledge"; "Wikipedia"; "DuckDuckGo Search"; "News Sources"].

(** * Properties *)

(** ** Strings *)

Section StringFacts.
Import Py.

Lemma len_app (s t : string) : len (s ++ t) = len s + len t.
Proof.
  induction s as [|c s IH]; simpl; [reflexivity|].
  rewrite IH. lia.
Qed.

Lemma lower_app (s t : string) : lower (s ++ t) = lower s ++ lower t.
Proof.
  induction s as [|c s IH]; simpl; [reflexivity|].
  now rewrite IH.
Qed.

Lemma prefix_app (k s t : string) :
  prefix k s = true -> prefix k (s ++ t) = true.
Proof.
  revert s; induction k as [|a k IH]; intros s H.
  - destruct s, t; reflexivity.
  - destruct s as [|b s]; simpl in *; [discriminate|].
    destruct (ascii_dec a b); [now apply IH | discriminate].
Qed.

Lemma contains_app (k s t : string) :
  contains k s = true -> contains k (s ++ t) = true.
Proof.
  induction s as [|c s IH]; simpl; intros H.
  - rewrite orb_false_r in H.
    destruct k; [|discriminate].
    destruct t; reflexivity.
  - apply orb_true_iff in H. apply orb_true_iff.
    destruct H as [H|H].
    + left. exact (prefix_app k (String c s) t H).
    + right. now apply IH.
Qed.

Lemma has_digit_app (s t : string) :
  has_digit s = true -> has_digit (s ++ t) = true.
Proof.
  induction s as [|c s IH]; simpl; [discriminate|].
  intros H. apply orb_true_iff in H. apply orb_true_iff.
  destruct H; [now left | right; now apply IH].
Qed.

Lemma filter_length_mono {A : Type} (p q : A -> bool) (l : list A) :
  (forall x, p x = true -> q x = true) ->
  length (filter p l) <= length (filter q l).
Proof.
  intros Hpq. induction l as [|x l IH]; simpl; [lia|].
  destruct (p x) eqn:Hp.
  - rewrite (Hpq x Hp). simpl. lia.
  - destruct (q x); simpl; lia.
Qed.
End StringFacts.

(** ** Scoring *)

Lemma conversational_keyword_mono (s t : string) :
  Conversational.keyword_score s <= Conversational.keyword_score (s ++ t).
Proof.
  apply filter_length_mono. intros k H.
  rewrite lower_app. now apply contains_app.
Qed.

Lemma simple_keyword_mono (s t : string) :
  Simple.keyword_score s <= Simple.keyword_score (s ++ t).
Proof.
  apply filter_length_mono. intros k H.
  rewrite lower_app. now apply contains_app.
Qed.

Lemma number_score_mono (s t : string) :
  Conversational.number_score s <= Conversational.number_score (s ++ t).
Proof.
  unfold Conversational.number_score.
  destruct (Py.has_digit s) eqn:H.
  - now rewrite (has_digit_app s t H).
  - destruct (Py.has_digit (s ++ t)); lia.
Qed.

(** C5 (as amended). In [conversational_ai.py] the length contribution is +2
    for a length strictly between 50 and 200, otherwise +1 for a length
    strictly between 20 and 300, otherwise 0; a sentence of exactly 50
    characters gets +1. In [simple_ai_chat.py] it is +2 for a length from 30
    to 150 and 0 otherwise. One contribution enters the score. *)
Theorem C5_length_contribution (n i : nat) (sentence : string) :
  let l := Py.len sentence in
  (50 < l < 200 -> Conversational.length_score sentence = 2) /\
  (20 < l <= 50 \/ 200 <= l < 300 -> Conversational.length_score sentence = 1) /\
  (l <= 20 \/ 300 <= l -> Conversational.length_score sentence = 0) /\
  Conversational.sentence_score n i sentence
  = Conversational.position_score n i + Conversational.length_score sentence
    + Conversational.keyword_score sentence
    + Conversational.number_score sentence /\
  (30 <= l <= 150 -> Simple.length_score sentence = 2) /\
  (l < 30 \/ 150 < l -> Simple.length_score sentence = 0) /\
  Simple.sentence_score n i sentence
  = Simple.position_score n i + Simple.length_score sentence
    + Simple.keyword_score sentence + Simple.number_score sentence.
Proof.
  cbv zeta. unfold Conversational.length_score, Simple.length_score.
  repeat split; intros;
    repeat match goal with
    | |- context [?a <? ?b] => destruct (Nat.ltb_spec a b)
    | |- context [?a <=? ?b] => destruct (Nat.leb_spec a b)
    end; simpl; lia.
Qed.

Lemma C5_witness :
  Py.len fifty = 50 /\ Conversational.length_score fifty = 1
  /\ Simple.length_score fifty = 2.
Proof.
  destruct (C5_length_contribution 4 1 fifty) as (_ & H1 & _ & _ & H2 & _).
  split; [reflexivity|]. split.
  - apply H1. left. vm_compute. lia.
  - apply H2. vm_compute. lia.
Defined.

(** C5 as the claim states it fails: a sentence of exactly 50 characters
    gets +1 in [conversational_ai.py], not +2. *)
Lemma C5_counterexample :
  Py.len fifty = 50 /\ Conversational.length_score fifty <> 2.
Proof.
  split; [reflexivity | vm_compute; discriminate].
Qed.

(** C9. Appending a keyword of the fixed set to a sentence never lowers its
    score when its position (index and sequence length) is the same and its
    length contribution is unchanged; this holds for each scorer on its own,
    under the condition on that scorer's length contribution only. *)
Theorem C9_keyword_monotone (n i : nat) (sentence keyword : string) :
  In keyword Conversational.keywords ->
  (Conversational.length_score (sentence ++ keyword)
   = Conversational.length_score sentence ->
   Conversational.sentence_score n i sentence
   <= Conversational.sentence_score n i (sentence ++ keyword))
  /\ (Simple.length_score (sentence ++ keyword)
      = Simple.length_score sentence ->
      Simple.sentence_score n i sentence
      <= Simple.sentence_score n i (sentence ++ keyword)).
Proof.
  intros _.
  pose proof (number_score_mono sentence keyword) as Hnumber.
  unfold Conversational.number_score in Hnumber.
  split; intros Hlength.
  - unfold Conversational.sentence_score. rewrite Hlength.
    pose proof (conversational_keyword_mono sentence keyword).
    unfold Conversational.number_score. lia.
  - unfold Simple.sentence_score. rewrite Hlength.
    pose proof (simple_keyword_mono sentence keyword).
    unfold Simple.number_score. lia.
Qed.

Lemma C9_witness :
  In "key" Conversational.keywords
  /\ Conversational.sentence_score 4 1 "The report was filed late"
     <= Conversational.sentence_score 4 1 ("The report was filed late" ++ "key")
  /\ Simple.sentence_score 4 1 "The report was filed late"
     <= Simple.sentence_score 4 1 ("The report was filed late" ++ "key").
Proof.
  assert (H : In "key" Conversational.keywords) by (simpl; tauto).
  split; [exact H|].
  destruct (C9_keyword_monotone 4 1 "The report was filed late" "key" H)
    as [Hconversational Hsimple].
  split; [apply Hconversational | apply Hsimple]; reflexivity.
Defined.

(** ** Sorting and selection *)

Section SortFacts.
Context {X : Type}.
Variable key : X -> nat.

Lemma insert_desc_perm (x : X) (l : list X) :
  Permutation (insert_desc key x l) (x :: l).
Proof.
  induction l as [|y l IH]; simpl; [reflexivity|].
  destruct (key y <=? key x); [reflexivity|].
  rewrite IH. apply perm_swap.
Qed.

Lemma sort_desc_perm (l : list X) : Permutation (sort_desc key l) l.
Proof.
  induction l as [|x l IH]; simpl; [reflexivity|].
  rewrite insert_desc_perm. now constructor.
Qed.

Lemma sort_desc_length (l : list X) : length (sort_desc key l) = length l.
Proof. apply Permutation_length, sort_desc_perm. Qed.
End SortFacts.

(** Sorting looks at the keys only, so it commutes with a relabelling. *)
Lemma insert_desc_map {X Y : Type} (key : Y -> nat) (f : X -> Y)
    (x : X) (l : list X) :
  insert_desc key (f x) (map f l)
  = map f (insert_desc (fun x => key (f x)) x l).
Proof.
  induction l as [|y l IH]; simpl; [reflexivity|].
  destruct (key (f y) <=? key (f x)); simpl; [reflexivity|].
  now rewrite IH.
Qed.

Lemma sort_desc_map {X Y : Type} (key : Y -> nat) (f : X -> Y) (l : list X) :
  sort_desc key (map f l) = map f (sort_desc (fun x => key (f x)) l).
Proof.
  induction l as [|x l IH]; simpl; [reflexivity|].
  rewrite IH. apply insert_desc_map.
Qed.

Section Ranking.
Variable score : nat -> nat.
Let R := ranked_before score.

Lemma ranked_score_le (i j : nat) : R i j -> score j <= score i.
Proof. unfold R, ranked_before. lia. Qed.

Lemma insert_desc_ranked (x : nat) (l : list nat) :
  StronglySorted R l -> Forall (fun y => x < y) l ->
  StronglySorted R (insert_desc score x l).
Proof.
  induction l as [|y l IH]; intros Hs Hlt; simpl.
  - repeat constructor.
  - inversion Hs as [|? ? Hs' Hy]; subst.
    inversion Hlt as [|? ? Hxy Hlt']; subst.
    destruct (Nat.leb_spec (score y) (score x)) as [Hle|Hgt].
    + constructor; [assumption|].
      constructor.
      * unfold R, ranked_before. lia.
      * rewrite Forall_forall in *. intros z Hz.
        pose proof (ranked_score_le _ _ (Hy z Hz)).
        pose proof (Hlt' z Hz).
        unfold R, ranked_before. lia.
    + constructor; [now apply IH|].
      rewrite (insert_desc_perm score x l).
      constructor; [|assumption].
      unfold R, ranked_before. lia.
Qed.

Lemma sort_desc_ranked (l : list nat) :
  StronglySorted lt l -> StronglySorted R (sort_desc score l).
Proof.
  induction 1 as [|x l Hs IH Hx]; simpl; [constructor|].
  apply insert_desc_ranked; [assumption|].
  now rewrite (sort_desc_perm score l).
Qed.
End Ranking.

Lemma seq_increasing (start n : nat) : StronglySorted lt (seq start n).
Proof.
  revert start; induction n as [|n IH]; intros start; simpl; constructor.
  - apply IH.
  - apply Forall_forall. intros y Hy. apply in_seq in Hy. lia.
Qed.

Lemma In_firstn {A : Type} (k : nat) (l : list A) (x : A) :
  In x (firstn k l) -> In x l.
Proof.
  intros H. rewrite <- (firstn_skipn k l). apply in_or_app. now left.
Qed.

Lemma In_skipn {A : Type} (k : nat) (l : list A) (x : A) :
  In x (skipn k l) -> In x l.
Proof.
  intros H. rewrite <- (firstn_skipn k l). apply in_or_app. now right.
Qed.

Lemma StronglySorted_firstn {A : Type} (R : A -> A -> Prop) (k : nat)
    (l : list A) :
  StronglySorted R l -> StronglySorted R (firstn k l).
Proof.
  intros H; revert k; induction H as [|x l Hs IH Hx]; intros [|k]; simpl;
    try constructor.
  - apply IH.
  - rewrite Forall_forall in *. intros y Hy. apply Hx.
    now apply In_firstn in Hy.
Qed.

Lemma StronglySorted_split {A : Type} (R : A -> A -> Prop) (k : nat)
    (l : list A) :
  StronglySorted R l ->
  forall y, In y (skipn k l) -> Forall (fun x => R x y) (firstn k l).
Proof.
  intros H; revert k; induction H as [|x l Hs IH Hx]; intros [|k] y Hy; simpl;
    try constructor.
  - rewrite Forall_forall in Hx. apply Hx.
    simpl in Hy. now apply In_skipn in Hy.
  - apply IH. exact Hy.
Qed.

(** [enumerate] pairs each element with its index. *)
Lemma combine_seq_nth {A : Type} (d : A) (l : list A) (start : nat) :
  combine (seq start (length l)) l
  = map (fun i => (i, nth (i - start) l d)) (seq start (length l)).
Proof.
  revert start; induction l as [|x l IH]; intros start; simpl; [reflexivity|].
  rewrite Nat.sub_diag. f_equal.
  rewrite IH. apply map_ext_in. intros i Hi. apply in_seq in Hi.
  replace (i - start) with (S (i - S start)) by lia. reflexivity.
Qed.

Lemma enumerate_nth {A : Type} (d : A) (l : list A) :
  enumerate l = map (fun i => (i, nth i l d)) (seq 0 (length l)).
Proof.
  unfold enumerate. rewrite (combine_seq_nth d l 0).
  apply map_ext. intros i. now rewrite Nat.sub_0_r.
Qed.

(** The selection shared by the two programs: score, sort, cut. *)
Lemma select_top_ranked (score_of : nat -> string -> nat) (k : nat)
    (sentences : list string) :
  top_ranked (fun i => score_of i (nth i sentences EmptyString)) k sentences
    (map fst
       (firstn k
          (sort_desc snd
             (map (fun '(i, sentence) => (sentence, score_of i sentence))
                  (enumerate sentences))))).
Proof.
  set (score := fun i => score_of i (nth i sentences EmptyString)).
  set (n := length sentences).
  exists (firstn k (sort_desc score (seq 0 n))).
  assert (Hperm : Permutation (sort_desc score (seq 0 n)) (seq 0 n))
    by apply sort_desc_perm.
  assert (Hsorted : StronglySorted (ranked_before score)
                      (sort_desc score (seq 0 n)))
    by apply sort_desc_ranked, seq_increasing.
  repeat split.
  - rewrite (enumerate_nth EmptyString), map_map.
    rewrite (sort_desc_map snd
               (fun i => (nth i sentences EmptyString, score i))).
    rewrite firstn_map, map_map. reflexivity.
  - rewrite length_firstn, sort_desc_length, length_seq. reflexivity.
  - assert (NoDup (sort_desc score (seq 0 n))) as Hnd.
    { apply (Permutation_NoDup (Permutation_sym Hperm)), seq_NoDup. }
    rewrite <- (firstn_skipn k) in Hnd. now apply NoDup_app_remove_r in Hnd.
  - apply Forall_forall. intros i Hi. apply In_firstn in Hi.
    apply (Permutation_in _ Hperm) in Hi. apply in_seq in Hi. lia.
  - now apply StronglySorted_firstn.
  - intros j Hj Hout. apply StronglySorted_split; [assumption|].
    assert (In j (sort_desc score (seq 0 n))) as Hin.
    { apply (Permutation_in _ (Permutation_sym Hperm)), in_seq. lia. }
    rewrite <- (firstn_skipn k) in Hin. apply in_app_or in Hin.
    destruct Hin; [contradiction | assumption].
Qed.

Lemma score_sentences_length (sentences : list string) :
  length (Conversational.score_sentences sentences) = length sentences.
Proof.
  unfold Conversational.score_sentences, enumerate.
  rewrite length_map, length_combine, length_seq. lia.
Qed.

Lemma simple_score_sentences_length (sentences : list string) :
  length (Simple.score_sentences sentences) = length sentences.
Proof.
  unfold Simple.score_sentences, enumerate.
  rewrite length_map, length_combine, length_seq. lia.
Qed.

Lemma extract_key_sentences_length (sentences : list string) :
  length (Conversational.extract_key_sentences sentences)
  = Nat.min (Conversational.keep_count (length sentences)) (length sentences).
Proof.
  unfold Conversational.extract_key_sentences.
  now rewrite length_map, length_firstn, sort_desc_length,
    score_sentences_length.
Qed.

Lemma select_key_sentences_length (sentences : list string) :
  3 < length sentences ->
  length (Simple.select_key_sentences sentences)
  = Simple.num_to_take (length sentences).
Proof.
  intros H. unfold Simple.select_key_sentences.
  destruct (Nat.leb_spec (length sentences) 3); [lia|].
  rewrite length_map, length_firstn, sort_desc_length,
    simple_score_sentences_length.
  unfold Simple.num_to_take. lia.
Qed.





Lemma num_to_take_le_keep_count (n : nat) :
  3 < n -> Simple.num_to_take n <= Conversational.keep_count n.
Proof.
  intros H. unfold Simple.num_to_take, Conversational.keep_count.
  pose proof (Nat.div_mod_eq n 3).
  pose proof (Nat.mod_upper_bound n 3).
  destruct (Nat.leb_spec n 5); [lia|].
  destruct (Nat.leb_spec n 10); lia.
Qed.

(** C6 (as amended). In [conversational_ai.py] the selection returns
    [min(n, keep_count)] sentences, [keep_count] being 2 for [n <= 5], 3 for
    [6 <= n <= 10] and [max(3, n // 3)] beyond. In [simple_ai_chat.py] it
    returns all [n] sentences when [n <= 3] and [min(3, max(2, n // 3))]
    otherwise, which is at most [keep_count] for every [n] but 3. *)
Theorem C6_selection_size (sentences : list string) :
  let n := length sentences in
  let keep_count := Conversational.keep_count n in
  length (Conversational.extract_key_sentences sentences)
  = Nat.min keep_count n
  /\ length (Conversational.extract_key_sentences sentences) <= keep_count
  /\ (n <= 5 -> keep_count = 2)
  /\ (6 <= n <= 10 -> keep_count = 3)
  /\ (10 < n -> keep_count = Nat.max 3 (n / 3))
  /\ (n <= 3 -> Simple.select_key_sentences sentences = sentences)
  /\ (3 < n -> length (Simple.select_key_sentences sentences)
               = Nat.min 3 (Nat.max 2 (n / 3)))
  /\ (n <> 3 -> length (Simple.select_key_sentences sentences) <= keep_count).
Proof.
  cbv zeta. rewrite extract_key_sentences_length.
  repeat split; try lia.
  - unfold Conversational.keep_count.
    destruct (Nat.leb_spec (length sentences) 5); lia.
  - unfold Conversational.keep_count.
    destruct (Nat.leb_spec (length sentences) 5); [lia|].
    destruct (Nat.leb_spec (length sentences) 10); lia.
  - unfold Conversational.keep_count.
    destruct (Nat.leb_spec (length sentences) 5); [lia|].
    destruct (Nat.leb_spec (length sentences) 10); lia.
  - intros H. unfold Simple.select_key_sentences.
    now destruct (Nat.leb_spec (length sentences) 3); [|lia].
  - intros H. now apply select_key_sentences_length.
  - intros H. destruct (Nat.le_gt_cases (length sentences) 3) as [Hle|Hgt].
    + unfold Simple.select_key_sentences.
      destruct (Nat.leb_spec (length sentences) 3); [|lia].
      unfold Conversational.keep_count.
      destruct (Nat.leb_spec (length sentences) 5); lia.
    + rewrite select_key_sentences_length by assumption.
      now apply num_to_take_le_keep_count.
Qed.

Lemma C6_witness :
  length three_sentences <= 5
  /\ Conversational.keep_count (length three_sentences) = 2
  /\ Simple.select_key_sentences three_sentences = three_sentences.
Proof.
  destruct (C6_selection_size three_sentences) as (_ & _ & H1 & _ & _ & H2 & _).
  split; [simpl; lia|].
  split; [apply H1 | apply H2]; simpl; lia.
Defined.

(** C6 as the claim states it fails in [simple_ai_chat.py]: three sentences
    are all returned, one more than [keep_count]. *)
Lemma C6_counterexample :
  length (Simple.select_key_sentences three_sentences) = 3
  /\ Conversational.keep_count (length three_sentences) = 2.
Proof.
  split; reflexivity.
Qed.

(** ** Segmentation and the short-text guards *)

Section StripFacts.
Import Py.

Lemma rstrip_lstrip (s : string) : rstrip (lstrip s) = lstrip (rstrip s).
Proof.
  induction s as [|c s IH]; [reflexivity|].
  simpl. destruct (is_space c) eqn:Hc.
  - rewrite IH. destruct (rstrip s); simpl; now rewrite ?Hc.
  - simpl. destruct (rstrip s); simpl; now rewrite Hc.
Qed.

Lemma split_from_nonempty (b : bool) (s : string) : split_from b s <> [].
Proof.
  revert b; induction s as [|c s IH]; intros b; simpl; [discriminate|].
  destruct (is_sentence_end c).
  - destruct b; [apply IH | discriminate].
  - specialize (IH false). destruct (split_from false s); [contradiction|].
    discriminate.
Qed.

Lemma space_not_sentence_end (c : ascii) :
  is_space c = true -> is_sentence_end c = false.
Proof.
  intros H. unfold is_sentence_end.
  destruct (Ascii.eqb_spec c "."); [subst; discriminate|].
  destruct (Ascii.eqb_spec c "!"); [subst; discriminate|].
  destruct (Ascii.eqb_spec c "?"); [subst; discriminate|].
  reflexivity.
Qed.

Lemma map_rstrip_cons_head (c : ascii) (l l' : list string) :
  l <> [] -> l' <> [] -> map rstrip l = map rstrip l' ->
  map rstrip (cons_head c l) = map rstrip (cons_head c l').
Proof.
  destruct l as [|p l], l' as [|p' l']; try contradiction.
  intros _ _ H. injection H as Hp Hl. simpl. now rewrite Hp, Hl.
Qed.

(** A string of spaces is one piece, which strips to nothing. *)
Lemma split_from_blank (b : bool) (s : string) :
  rstrip s = EmptyString ->
  split_from b s = [s].
Proof.
  revert b; induction s as [|c s IH]; intros b H; [reflexivity|].
  simpl in H. destruct (rstrip s) eqn:Hr; [|discriminate].
  destruct (is_space c) eqn:Hc; [|discriminate].
  simpl. rewrite (space_not_sentence_end c Hc).
  now rewrite (IH false eq_refl).
Qed.

Lemma split_from_cons (b : bool) (c : ascii) (s : string) :
  split_from b (String c s)
  = if is_sentence_end c
    then (if b then split_from true s else EmptyString :: split_from true s)
    else cons_head c (split_from false s).
Proof. reflexivity. Qed.

Lemma split_from_rstrip (b : bool) (s : string) :
  map rstrip (split_from b (rstrip s)) = map rstrip (split_from b s).
Proof.
  revert b; induction s as [|c s IH]; intros b; [reflexivity|].
  simpl rstrip. destruct (rstrip s) as [|a r] eqn:Hr.
  - destruct (is_space c) eqn:Hc.
    + rewrite (split_from_blank b (String c s)); [|simpl; now rewrite Hr, Hc].
      simpl. now rewrite Hr, Hc.
    + simpl.
      rewrite (split_from_blank true s Hr), (split_from_blank false s Hr).
      destruct (is_sentence_end c).
      * destruct b; simpl; now rewrite Hr.
      * simpl. now rewrite Hr, Hc.
  - rewrite <- Hr in IH |- *. rewrite !split_from_cons.
    destruct (is_sentence_end c).
    + destruct b; [apply IH|]. simpl map. f_equal. apply IH.
    + apply map_rstrip_cons_head; try apply split_from_nonempty. apply IH.
Qed.

Lemma map_strip_cons_head (c : ascii) (l : list string) :
  is_space c = true -> l <> [] -> map strip (cons_head c l) = map strip l.
Proof.
  intros Hc Hl. destruct l as [|p l]; [contradiction|].
  simpl. unfold strip. simpl. now rewrite Hc.
Qed.

Lemma split_lstrip (s : string) :
  map strip (re_split_sentences (lstrip s)) = map strip (re_split_sentences s).
Proof.
  unfold re_split_sentences.
  induction s as [|c s IH]; [reflexivity|].
  simpl lstrip. destruct (is_space c) eqn:Hc; [|reflexivity].
  simpl split_from. rewrite (space_not_sentence_end c Hc).
  rewrite map_strip_cons_head; auto using split_from_nonempty.
Qed.

Lemma map_strip_of_rstrip (l l' : list string) :
  map rstrip l = map rstrip l' -> map strip l = map strip l'.
Proof.
  intros H.
  assert (E : forall m, map strip m = map lstrip (map rstrip m)).
  { intros m. rewrite map_map. apply map_ext. intros p. apply rstrip_lstrip. }
  now rewrite !E, H.
Qed.

(** Stripping the text first does not change its sentences. *)
Lemma split_strip (s : string) :
  map strip (re_split_sentences (strip s)) = map strip (re_split_sentences s).
Proof.
  transitivity (map strip (re_split_sentences (lstrip s)));
    [|apply split_lstrip].
  apply map_strip_of_rstrip. apply (split_from_rstrip false (lstrip s)).
Qed.
End StripFacts.

Lemma split_into_sentences_strip (text : string) :
  Conversational.split_into_sentences (Py.strip text)
  = Conversational.split_into_sentences text.
Proof.
  unfold Conversational.split_into_sentences. now rewrite split_strip.
Qed.

Lemma split_sentences_strip (text : string) :
  Simple.split_sentences (Py.strip text) = Simple.split_sentences text.
Proof.
  unfold Simple.split_sentences. now rewrite split_strip.
Qed.

(** C3 (as amended). A text with fewer than 3 qualifying sentences comes
    back whole and in order, stripped of the white space around it, under a
    label. The label is "already concise" when the stripped text has at
    least 200 characters ([conversational_ai.py]; 100 in
    [simple_ai_chat.py]); a shorter text is labelled "already quite brief"
    (respectively "already brief"). *)
Theorem C3_short_text_verbatim (text : string) :
  (length (Conversational.split_into_sentences text) < 3 ->
   Conversational.summarize_text text
   = (if Py.len (Py.strip text) <? 200
      then "This text is already quite brief. Here it is:"
      else "This text is already concise:")
     ++ nl ++ nl ++ Py.strip text)
  /\ (length (Simple.split_sentences text) < 3 ->
      Simple.create_summary text
      = (if Py.len (Py.strip text) <? 100
         then "This text is already brief:"
         else "This text is already concise:")
        ++ nl ++ nl ++ Py.strip text).
Proof.
  split; intros H.
  - unfold Conversational.summarize_text.
    destruct (Py.len (Py.strip text) <? 200); [reflexivity|].
    rewrite split_into_sentences_strip.
    destruct (Nat.leb_spec (length (Conversational.split_into_sentences text)) 3);
      [reflexivity | lia].
  - unfold Simple.create_summary.
    destruct (Py.len (Py.strip text) <? 100); [reflexivity|].
    rewrite split_sentences_strip.
    destruct (Nat.leb_spec (length (Simple.split_sentences text)) 2);
      [reflexivity | lia].
Qed.

Lemma C3_witness :
  length (Conversational.split_into_sentences " This one is short. ") < 3
  /\ Conversational.summarize_text " This one is short. "
     = "This text is already quite brief. Here it is:" ++ nl ++ nl
       ++ "This one is short.".
Proof.
  split; [vm_compute; lia|].
  apply (C3_short_text_verbatim " This one is short. "). vm_compute. lia.
Defined.

(** C3 as the claim states it fails: a short text of one sentence is not
    labelled "already concise", in either program. *)
Lemma C3_counterexample :
  length (Conversational.split_into_sentences "This one is short.") < 3
  /\ Conversational.summarize_text "This one is short."
     <> "This text is already concise:" ++ nl ++ nl ++ "This one is short."
  /\ Py.contains "already concise"
       (Conversational.summarize_text "This one is short.") = false
  /\ length (Simple.split_sentences "This one is short.") < 3
  /\ Py.contains "already concise"
       (Simple.create_summary "This one is short.") = false.
Proof.
  repeat split; try (vm_compute; lia); try reflexivity.
  vm_compute. discriminate.
Qed.

(** ** Rendering *)

Section RenderFacts.
Import Py.

Lemma append_assoc (s t u : string) : (s ++ t) ++ u = s ++ t ++ u.
Proof.
  induction s as [|c s IH]; simpl; [reflexivity | now rewrite IH].
Qed.

Lemma last_char_app (s t : string) :
  t <> EmptyString -> last_char (s ++ t) = last_char t.
Proof.
  intros Ht. induction s as [|c s IH]; [reflexivity|].
  simpl. rewrite IH. destruct (s ++ t) eqn:E; [|reflexivity].
  destruct s; simpl in E; [contradiction | discriminate].
Qed.

Lemma last_char_endswith (s suffix : string) :
  suffix <> EmptyString -> endswith s suffix = true ->
  last_char s = last_char suffix.
Proof.
  intros Hn. induction s as [|c s IH]; cbn [endswith]; intros H.
  - rewrite orb_false_r in H. apply String.eqb_eq in H. now subst.
  - apply orb_true_iff in H. destruct H as [H|H].
    + apply String.eqb_eq in H. now rewrite <- H.
    + rewrite <- (IH H). destruct s; [|reflexivity].
      cbn [endswith] in H. rewrite orb_false_r in H. apply String.eqb_eq in H.
      now subst.
Qed.

Lemma finish_ends (sentence : string) :
  is_sentence_end_opt (last_char (Conversational.finish sentence)) = true.
Proof.
  unfold Conversational.finish, Conversational.ends_sentence. cbv zeta.
  destruct (endswith (strip sentence) ".") eqn:E1; cbn [orb];
    [now rewrite (last_char_endswith _ "." ltac:(discriminate) E1)|].
  destruct (endswith (strip sentence) "!") eqn:E2; cbn [orb];
    [now rewrite (last_char_endswith _ "!" ltac:(discriminate) E2)|].
  destruct (endswith (strip sentence) "?") eqn:E3; cbn [orb];
    [now rewrite (last_char_endswith _ "?" ltac:(discriminate) E3)|].
  now rewrite last_char_app.
Qed.

Lemma finish_nonempty (sentence : string) :
  Conversational.finish sentence <> EmptyString.
Proof.
  intros E. pose proof (finish_ends sentence) as H. now rewrite E in H.
Qed.

Lemma last_char_none (s : string) : last_char s = None -> s = EmptyString.
Proof.
  induction s as [|c s IH]; [reflexivity|]. simpl.
  destruct s; [discriminate|]. intros H. now apply IH in H.
Qed.

Lemma join_cons (sep p : string) (parts : list string) :
  parts <> [] -> join sep (p :: parts) = p ++ sep ++ join sep parts.
Proof. destruct parts; [contradiction | reflexivity]. Qed.

Lemma last_char_join (sep : string) (parts : list string) (p : string) :
  p <> EmptyString ->
  last_char (join sep (List.app parts [p])) = last_char p.
Proof.
  intros Hp. induction parts as [|q parts IH]; [reflexivity|].
  simpl List.app. rewrite join_cons by (destruct parts; discriminate).
  assert (Hj : join sep (List.app parts [p]) <> EmptyString).
  { intros E. rewrite E in IH. symmetry in IH.
    now apply last_char_none in IH. }
  rewrite !last_char_app; [exact IH | exact Hj |].
  destruct sep; [exact Hj | discriminate].
Qed.

Lemma len_join (sep sep' : string) (parts : list string) :
  len sep = len sep' -> len (join sep parts) = len (join sep' parts).
Proof.
  intros H. induction parts as [|p parts IH]; [reflexivity|].
  destruct parts as [|q parts]; [reflexivity|].
  rewrite (join_cons sep), (join_cons sep') by discriminate.
  rewrite !len_app, IH, H. reflexivity.
Qed.

Lemma join_snoc (sep : string) (parts : list string) (p : string) :
  parts <> [] ->
  join sep (List.app parts [p]) = join sep parts ++ sep ++ p.
Proof.
  induction parts as [|q parts IH]; [contradiction|]. intros _.
  destruct parts as [|q' parts]; [reflexivity|].
  simpl List.app in *.
  rewrite (join_cons sep q (q' :: List.app parts [p])) by discriminate.
  rewrite (join_cons sep q (q' :: parts)) by discriminate.
  rewrite IH by discriminate.
  now rewrite !append_assoc.
Qed.

(** The rendered sentences end with the last sentence's punctuation. *)
Lemma summary_lines_end (key_sentences : list string) :
  key_sentences <> [] ->
  is_sentence_end_opt
    (last_char (join nl (Conversational.summary_lines key_sentences))) = true.
Proof.
  intros Hne. unfold Conversational.summary_lines.
  destruct (exists_last Hne) as (front & s & ->).
  rewrite map_app, app_assoc. cbn [map].
  destruct (1 <? length (List.app front [s])); cbv beta iota.
  - rewrite last_char_join.
    + rewrite last_char_app; [apply finish_ends | apply finish_nonempty].
    + discriminate.
  - rewrite last_char_join; [apply finish_ends | apply finish_nonempty].
Qed.

Lemma summary_lines_nonempty (key_sentences : list string) :
  key_sentences <> [] -> Conversational.summary_lines key_sentences <> [].
Proof.
  intros Hne. unfold Conversational.summary_lines.
  destruct key_sentences; [contradiction|].
  destruct (1 <? length (s :: key_sentences)); discriminate.
Qed.

Lemma append_nonempty_r (s t : string) :
  t <> EmptyString -> s ++ t <> EmptyString.
Proof. destruct s; [trivial | discriminate]. Qed.

Lemma footnote_last (a b : nat) :
  Conversational.footnote a b <> EmptyString
  /\ last_char (Conversational.footnote a b) = Some "*"%char.
Proof.
  unfold Conversational.footnote. split.
  - repeat apply append_nonempty_r. discriminate.
  - repeat (rewrite last_char_app;
            [|solve [repeat apply append_nonempty_r; discriminate]]).
    reflexivity.
Qed.
End RenderFacts.

(** C8. The renderer, which [summarize_text] calls with the selected
    sentences (a list that is not empty): when the original has more than
    1000 characters the rendered summary is the rendered sentences followed
    by the footnote, which states the length of the original and the length
    of the rendered sentences; when it has 1000 characters or fewer the
    summary is the rendered sentences alone and ends with no footnote. *)
Theorem C8_footnote (key_sentences : list string) (original_text : string) :
  key_sentences <> [] ->
  let rendered := Py.join nl (Conversational.summary_lines key_sentences) in
  (1000 < Py.len original_text ->
   Conversational.create_summary key_sentences original_text
   = rendered ++ nl
     ++ Conversational.footnote (Py.len original_text) (Py.len rendered))
  /\ (Py.len original_text <= 1000 ->
      Conversational.create_summary key_sentences original_text = rendered
      /\ forall a b,
           Py.endswith
             (Conversational.create_summary key_sentences original_text)
             (Conversational.footnote a b) = false).
Proof.
  intros Hne rendered.
  assert (Hshort : Py.len original_text <= 1000 ->
            Conversational.create_summary key_sentences original_text
            = rendered).
  { intros H. unfold Conversational.create_summary.
    destruct key_sentences; [contradiction|].
    now destruct (Nat.ltb_spec 1000 (Py.len original_text)); [lia|]. }
  split.
  - intros H. unfold Conversational.create_summary.
    destruct key_sentences as [|s ks]; [contradiction|].
    destruct (Nat.ltb_spec 1000 (Py.len original_text)); [|lia].
    rewrite join_snoc by now apply summary_lines_nonempty.
    rewrite (len_join " " nl) by reflexivity. reflexivity.
  - intros H. split; [now apply Hshort|].
    intros a b. rewrite (Hshort H).
    destruct (Py.endswith rendered (Conversational.footnote a b)) eqn:E;
      [|reflexivity].
    destruct (footnote_last a b) as [Hn Hl].
    apply (last_char_endswith _ _ Hn) in E. rewrite Hl in E.
    pose proof (summary_lines_end key_sentences Hne) as Hp.
    fold rendered in Hp. rewrite E in Hp. discriminate.
Qed.

Lemma C8_witness :
  ["A first point"; "A second point"] <> []
  /\ Conversational.create_summary ["A first point"; "A second point"] long_text
     = "**Key Points:**" ++ nl ++ "• A first point." ++ nl
       ++ "• A second point." ++ nl ++ nl
       ++ "*This summary condensed 1250 characters into 50 characters.*".
Proof.
  assert (Hne : ["A first point"; "A second point"] <> []) by discriminate.
  split; [exact Hne|].
  destruct (C8_footnote ["A first point"; "A second point"] long_text Hne)
    as [H _].
  rewrite H; [reflexivity | vm_compute; lia].
Defined.

(** The guard of the renderer on an empty selection, which no caller
    passes: the fixed message is returned as it is. *)
Lemma create_summary_empty_selection :
  1000 < Py.len long_text
  /\ Conversational.create_summary [] long_text
     = "Unable to generate summary - please provide more substantial text."
  /\ forall a b,
       Py.endswith (Conversational.create_summary [] long_text)
                   (Conversational.footnote a b) = false.
Proof.
  split; [vm_compute; lia|]. split; [reflexivity|].
  intros a b.
  destruct (Py.endswith (Conversational.create_summary [] long_text)
              (Conversational.footnote a b)) eqn:E; [|reflexivity].
  destruct (footnote_last a b) as [Hn Hl].
  apply (last_char_endswith _ _ Hn) in E. rewrite Hl in E. discriminate.
Qed.

(** ** Deduplication of snippets *)

Lemma ForallOrdPairs_snoc {A : Type} (R : A -> A -> Prop) (l : list A) (x : A) :
  ForallOrdPairs R l -> Forall (fun y => R y x) l ->
  ForallOrdPairs R (l ++ [x]).
Proof.
  induction 1 as [|a l Ha Hl IH]; intros Hx; simpl.
  - repeat constructor.
  - inversion Hx as [|? ? Hax Hlx]; subst.
    constructor; [|now apply IH].
    apply Forall_app. split; [assumption | now constructor].
Qed.

Lemma ForallOrdPairs_firstn {A : Type} (R : A -> A -> Prop) (k : nat)
    (l : list A) :
  ForallOrdPairs R l -> ForallOrdPairs R (firstn k l).
Proof.
  intros H; revert k; induction H as [|a l Ha Hl IH]; intros [|k]; simpl;
    try constructor.
  - rewrite Forall_forall in *. intros y Hy. apply Ha.
    now apply In_firstn in Hy.
  - apply IH.
Qed.

Lemma keep_unique_not_within (acc : list string) (snippet : string) :
  ForallOrdPairs not_within acc ->
  ForallOrdPairs not_within (Simple.keep_unique acc snippet).
Proof.
  intros H. unfold Simple.keep_unique.
  destruct (existsb _ acc) eqn:E; [assumption|].
  apply ForallOrdPairs_snoc; [assumption|].
  apply Forall_forall. intros e He.
  rewrite <- not_true_iff_false in E. unfold not_within.
  destruct (Py.contains (Py.lower snippet) (Py.lower e)) eqn:C; [|reflexivity].
  exfalso. apply E. apply existsb_exists. now exists e.
Qed.

Lemma unique_not_within (snippets acc : list string) :
  ForallOrdPairs not_within acc ->
  ForallOrdPairs not_within (fold_left Simple.keep_unique snippets acc).
Proof.
  revert acc; induction snippets as [|s l IH]; intros acc H; simpl;
    [assumption|].
  apply IH. now apply keep_unique_not_within.
Qed.

(** C4 (as amended). The result lists at most 3 snippets, and the
    lower-case form of a listed snippet is never contained in the lower-case
    form of one listed before it: a snippet met after a kept one that
    contains it in this sense is dropped. *)
Theorem C4_snippets_deduplicated (soup : string -> list string) :
  let kept := Simple.kept_snippets soup in
  length kept <= 3
  /\ ForallOrdPairs not_within kept
  /\ Simple.extract_search_snippets soup
     = match kept with
       | [] => None
       | _ => Some (Py.strip ("**Key Information Found:**" ++ nl
                              ++ numbered 1 kept))
       end.
Proof.
  cbv zeta. unfold Simple.kept_snippets, Simple.extract_search_snippets.
  split; [|split].
  - rewrite length_firstn. lia.
  - apply ForallOrdPairs_firstn. apply unique_not_within. constructor.
  - destruct (Simple.collect_snippets soup) as [|s l]; [reflexivity|].
    destruct (Simple.unique (s :: l)); reflexivity.
Qed.

(** C4 as the claim states it fails: the shorter snippet comes first, the
    longer one contains it, and both are listed. *)
Lemma C4_counterexample :
  Py.contains (Py.lower fox) (Py.lower fox_more) = true
  /\ Simple.kept_snippets fox_page = [fox; fox_more]
  /\ Simple.extract_search_snippets fox_page
     = Some ("**Key Information Found:**" ++ nl
             ++ "1. " ++ fox ++ nl ++ "2. " ++ fox_more).
Proof.
  repeat split; reflexivity.
Qed.

(** ** The answer compiler *)

Section CompileFacts.
Import Py.

Lemma contains_refl_app (k t : string) : prefix k (k ++ t) = true.
Proof.
  induction k as [|c k IH]; simpl; [now destruct t|].
  destruct (ascii_dec c c); [assumption | contradiction].
Qed.

Lemma contains_app_left (k s t : string) :
  contains k t = true -> contains k (s ++ t) = true.
Proof.
  intros H. induction s as [|c s IH]; simpl; [assumption|].
  rewrite IH. apply orb_true_r.
Qed.

Lemma contains_prefix (k u : string) :
  prefix k u = true -> contains k u = true.
Proof. intros H. destruct u; cbn [contains]; now rewrite H. Qed.

Lemma contains_middle (k s t : string) : contains k (s ++ k ++ t) = true.
Proof.
  apply contains_app_left, contains_prefix, contains_refl_app.
Qed.

Lemma getitem_has_key (key : string) (d : Limbor.dict) :
  Limbor.has_key key d = true -> exists v, Limbor.getitem key d = Ret v.
Proof.
  unfold Limbor.has_key, Limbor.getitem.
  destruct (Json.lookup key d); [eauto | discriminate].
Qed.
End CompileFacts.

Lemma main_summary_returns (str_of_items : list Limbor.item -> string)
    (data : Limbor.source_data) :
  exists text, Limbor.main_summary str_of_items data = Ret text.
Proof.
  destruct data as [d|l]; simpl; [|eauto].
  destruct (Limbor.has_key "definition" d) eqn:E; simpl; [|eauto].
  destruct (getitem_has_key _ _ E) as [v ->]. simpl. eauto.
Qed.

Lemma source_lines_returns (data : Limbor.source_data) :
  exists text, Limbor.source_lines data = Ret text.
Proof.
  destruct data as [d|l]; simpl; [|eauto].
  destruct (Limbor.has_key "title" d) eqn:E1;
    [destruct (getitem_has_key _ _ E1) as [v1 ->]|]; simpl;
  (destruct (Limbor.has_key "content" d) eqn:E2;
    [destruct (getitem_has_key _ _ E2) as [v2 ->]|]; simpl;
   (destruct (Limbor.has_key "url" d) eqn:E3;
    [destruct (getitem_has_key _ _ E3) as [v3 ->]|]; simpl; eauto)).
Qed.

Lemma additional_returns (i : nat)
    (sources : list (string * Limbor.source_data)) :
  exists text, Limbor.additional i sources = Ret text.
Proof.
  revert i; induction sources as [|[source_name data] rest IH]; intros i;
    simpl; [eauto|].
  destruct (source_lines_returns data) as [lines ->].
  destruct (IH (S i)) as [others ->]. simpl. eauto.
Qed.

Lemma compile_returns (str_of_items : list Limbor.item -> string)
    (now query : string) (sources : list (string * Limbor.source_data)) :
  exists text,
    Limbor.compile_comprehensive_response str_of_items now query sources
    = Ret text
    /\ text <> EmptyString.
Proof.
  destruct sources as [|[main_name main_data] rest].
  - exists (Limbor.no_information query). split; [reflexivity | discriminate].
  - unfold Limbor.compile_comprehensive_response.
    cbn [Limbor.first bind snd tl].
    destruct (main_summary_returns str_of_items main_data) as [summary ->].
    cbn [bind].
    destruct (1 <? length ((main_name, main_data) :: rest)).
    + destruct (additional_returns 1 rest) as [lines ->]. cbn [bind].
      eexists. split; [reflexivity | discriminate].
    + cbn [bind]. eexists. split; [reflexivity | discriminate].
Qed.


(** ** Providers *)

Lemma catchable_bind {A B : Type} (m : outcome A) (k : A -> outcome B) :
  catchable m -> (forall a, m = Ret a -> catchable (k a)) ->
  catchable (bind m k).
Proof.
  destruct m as [a|e]; simpl; intros Hm Hk; [now apply Hk | exact Hm].
Qed.

Lemma try_except_Exception_absorbs {A : Type} (body : outcome (option A)) :
  catchable body ->
  try_except_Exception body (fun _ => Ret None) = Ret (absorbed body).
Proof.
  destruct body as [r|e]; simpl; [reflexivity|]. now intros ->.
Qed.

Lemma json_has_catchable (key : string) (v : json) :
  catchable (Json.has key v).
Proof. destruct v; simpl; trivial. Qed.

Lemma json_get_catchable (key : string) (v : json) :
  catchable (Json.get key v).
Proof.
  destruct v; simpl; trivial. destruct (Json.lookup key d); simpl; trivial.
Qed.

Lemma json_first_catchable (v : json) : catchable (Json.first v).
Proof.
  destruct v as [| | |s|l|d]; simpl; trivial.
  - destruct s; simpl; trivial.
  - destruct l; simpl; trivial.
Qed.

Lemma json_len_catchable (v : json) : catchable (Json.len v).
Proof. destruct v; simpl; trivial. Qed.

Lemma json_truncate_catchable (n : nat) (v : json) :
  catchable (Json.truncate n v).
Proof. destruct v; simpl; trivial. Qed.

Create HintDb catchable.

#[local] Hint Resolve json_has_catchable json_get_catchable
  json_first_catchable json_len_catchable json_truncate_catchable : catchable.

Ltac catchable_step :=
  match goal with
  | |- catchable (bind _ _) => apply catchable_bind; [|intros ? ?]
  | |- catchable (if ?b then _ else _) => destruct b
  | |- catchable (match ?x with _ => _ end) => destruct x
  | |- catchable (Ret _) => exact I
  | |- catchable (Raise TypeError) => reflexivity
  | _ => solve [auto with catchable]
  end.

Section WikipediaFacts.
Variable quote : string -> string.
Variable http_get : string -> list (string * string) -> outcome response.
Hypothesis http_get_catchable :
  forall url params, catchable (http_get url params).
Hypothesis json_body_catchable :
  forall url params r, http_get url params = Ret r -> catchable (json_body r).

Lemma read_extract_catchable (r : response) :
  catchable (json_body r) -> catchable (Simple.read_extract r).
Proof.
  intros Hr. unfold Simple.read_extract. repeat catchable_step.
Qed.

Lemma has_results_catchable (search_data : json) :
  catchable (Simple.has_results search_data).
Proof. unfold Simple.has_results. repeat catchable_step. Qed.

Lemma page_title_of_catchable (search_data : json) :
  catchable (Simple.page_title_of search_data).
Proof. unfold Simple.page_title_of. repeat catchable_step. Qed.

Lemma search_wikipedia_body_catchable (query : string) :
  catchable (Simple.search_wikipedia_body quote http_get query).
Proof.
  unfold Simple.search_wikipedia_body. cbv zeta.
  apply catchable_bind; [apply http_get_catchable | intros r Hr].
  apply catchable_bind;
    [apply read_extract_catchable; eapply json_body_catchable; eassumption|].
  intros [extract|] _; [exact I|].
  apply catchable_bind; [apply http_get_catchable | intros r' Hr'].
  apply catchable_bind; [eapply json_body_catchable; eassumption|].
  intros search_data _.
  apply catchable_bind; [apply has_results_catchable | intros [|] _];
    [|exact I].
  apply catchable_bind; [apply page_title_of_catchable | intros title _].
  apply catchable_bind; [apply http_get_catchable | intros r'' Hr''].
  apply read_extract_catchable. eapply json_body_catchable; eassumption.
Qed.
End WikipediaFacts.

(** C7. Each lookup returns a result or [None] and raises nothing: the
    built-in table gives a dictionary with a definition or [None], and the
    Wikipedia and DuckDuckGo lookups turn any failure of the transport or of
    the decoding (any exception deriving from [Exception]) into [None]. *)
Theorem C7_providers_absorb_failures
    (quote : string -> string)
    (http_get : string -> list (string * string) -> outcome response)
    (fetch_snippets : string -> outcome (list string))
    (query : string) :
  (forall url params, catchable (http_get url params)) ->
  (forall url params r,
     http_get url params = Ret r -> catchable (json_body r)) ->
  (forall url, catchable (fetch_snippets url)) ->
  (Limbor.get_built_in_knowledge query = None
   \/ exists d, Limbor.get_built_in_knowledge query = Some d
                /\ Limbor.has_key "definition" d = true)
  /\ Simple.search_wikipedia quote http_get query
     = Ret (absorbed (Simple.search_wikipedia_body quote http_get query))
  /\ SmartSearch.search_duckduckgo quote fetch_snippets query
     = Ret (absorbed (SmartSearch.search_duckduckgo_body quote fetch_snippets
                        query))
  /\ (forall e,
        http_get (Simple.summary_url quote (Simple.clean_query query)) []
        = Raise e ->
        Simple.search_wikipedia quote http_get query = Ret None)
  /\ (forall e, fetch_snippets ("https://duckduckgo.com/html/?q=" ++ quote query)
                = Raise e ->
        SmartSearch.search_duckduckgo quote fetch_snippets query = Ret None).
Proof.
  intros Hget Hjson Hfetch.
  assert (Hw : Simple.search_wikipedia quote http_get query
               = Ret (absorbed (Simple.search_wikipedia_body quote http_get
                                  query))).
  { apply try_except_Exception_absorbs.
    now apply search_wikipedia_body_catchable. }
  assert (Hd : SmartSearch.search_duckduckgo quote fetch_snippets query
               = Ret (absorbed (SmartSearch.search_duckduckgo_body quote
                                  fetch_snippets query))).
  { apply try_except_Exception_absorbs.
    unfold SmartSearch.search_duckduckgo_body.
    apply catchable_bind; [apply Hfetch | intros; exact I]. }
  split; [|repeat split; try assumption].
  - unfold Limbor.get_built_in_knowledge. cbv zeta.
    repeat match goal with
    | |- context [if ?b then _ else _] => destruct b
    end; (now left) || (right; eexists; split; reflexivity).
  - intros e He. rewrite Hw. unfold Simple.search_wikipedia_body.
    cbv zeta. now rewrite He.
  - intros e He. rewrite Hd. unfold SmartSearch.search_duckduckgo_body.
    now rewrite He.
Qed.

Lemma C7_witness :
  Simple.search_wikipedia (fun s => s) unreachable "what is rocq" = Ret None
  /\ SmartSearch.search_duckduckgo (fun s => s) (fun _ => Raise ConnectionError)
       "what is rocq" = Ret None.
Proof.
  destruct (C7_providers_absorb_failures (fun s => s) unreachable
              (fun _ => Raise ConnectionError) "what is rocq")
    as (_ & _ & _ & Hw & Hd).
  - intros url params. reflexivity.
  - intros url params r H. discriminate.
  - intros url. reflexivity.
  - split; [apply (Hw Timeout) | apply (Hd ConnectionError)]; reflexivity.
Defined.
(** ** The research answer *)

Lemma json_iterate_catchable (v : json) : catchable (Json.iterate v).
Proof. destruct v; simpl; trivial. Qed.

Lemma json_items_catchable (v : json) : catchable (Json.items v).
Proof. destruct v; simpl; trivial. Qed.

Lemma json_get_or_catchable (key : string) (default v : json) :
  catchable (Json.get_or key default v).
Proof. destruct v; simpl; trivial. Qed.

#[local] Hint Resolve json_iterate_catchable json_items_catchable
  json_get_or_catchable : catchable.

Ltac catchable_steps :=
  repeat first [ catchable_step
               | match goal with
                 | |- catchable (Raise _) => reflexivity
                 | |- catchable (Limbor.and_then _ _) =>
                     unfold Limbor.and_then
                 end ].

Section ResearchFacts.
Variable quote : string -> string.
Variable session_get : string -> list (string * json) -> outcome response.
Variable str_of_json : json -> string.
Hypothesis session_get_catchable :
  forall url params, catchable (session_get url params).
Hypothesis json_body_catchable :
  forall url params r,
    session_get url params = Ret r -> catchable (json_body r).

Lemma first_extract_catchable (page_title : json)
    (pages : list (string * json)) :
  catchable (Limbor.first_extract quote str_of_json page_title pages).
Proof.
  induction pages as [|[page_id page_info] rest IH]; [exact I|].
  cbn [Limbor.first_extract].
  apply catchable_bind; [catchable_steps | intros [|] _]; [|exact IH].
  catchable_steps.
Qed.

Lemma first_page_catchable (results : list json) :
  catchable (Limbor.first_page quote session_get str_of_json results).
Proof.
  induction results as [|result rest IH]; [exact I|].
  cbn [Limbor.first_page].
  apply catchable_bind; [catchable_steps | intros page_title _].
  apply catchable_bind; [apply session_get_catchable | intros r Hr].
  apply catchable_bind; [eapply json_body_catchable; eassumption|].
  intros content_data _.
  apply catchable_bind; [catchable_steps | intros [|] _]; [|exact IH].
  apply catchable_bind; [catchable_steps | intros query_part _].
  apply catchable_bind; [catchable_steps | intros pages _].
  apply catchable_bind; [catchable_steps | intros page_list _].
  apply catchable_bind; [apply first_extract_catchable|].
  intros [page|] _; [exact I | exact IH].
Qed.

Lemma search_wikipedia_detailed_body_catchable (query : string) :
  catchable
    (Limbor.search_wikipedia_detailed_body quote session_get str_of_json
       query).
Proof.
  unfold Limbor.search_wikipedia_detailed_body. cbv zeta.
  apply catchable_bind; [apply session_get_catchable | intros r Hr].
  apply catchable_bind; [eapply json_body_catchable; eassumption|].
  intros search_data _.
  apply catchable_bind; [catchable_steps | intros [|] _]; [|exact I].
  apply catchable_bind; [catchable_steps | intros query_part _].
  apply catchable_bind; [catchable_steps | intros results _].
  apply catchable_bind; [catchable_steps | intros result_list _].
  apply first_page_catchable.
Qed.

Lemma search_wikipedia_detailed_returns (query : string) :
  Limbor.search_wikipedia_detailed quote session_get str_of_json query
  = Ret (absorbed (Limbor.search_wikipedia_detailed_body quote session_get
                     str_of_json query)).
Proof.
  apply try_except_Exception_absorbs,
    search_wikipedia_detailed_body_catchable.
Qed.
End ResearchFacts.

Lemma search_duckduckgo_detailed_returns (quote : string -> string)
    (fetch_results : string -> outcome (list Limbor.result_block))
    (query : string) :
  (forall url, catchable (fetch_results url)) ->
  exists found,
    Limbor.search_duckduckgo_detailed quote fetch_results query = Ret found.
Proof.
  intros Hfetch. unfold Limbor.search_duckduckgo_detailed.
  rewrite try_except_Exception_absorbs; [eauto|].
  apply catchable_bind; [apply Hfetch | intros; exact I].
Qed.

Lemma search_news_returns (quote : string -> string)
    (fetch_news : string -> outcome (list (option string)))
    (query : string) :
  (forall url, catchable (fetch_news url)) ->
  exists found, Limbor.search_news quote fetch_news query = Ret found.
Proof.
  intros Hfetch. unfold Limbor.search_news.
  rewrite try_except_Exception_absorbs; [eauto|].
  apply catchable_bind; [apply Hfetch | intros; exact I].
Qed.

(** C2. For every query, the empty one included, when the transport and the
    decoding of a reply fail only with exceptions that derive from
    [Exception], [get_comprehensive_answer] raises nothing and returns a text
    that is not empty; when the built-in table and the three lookups that go
    to the network all give nothing, the text is the closing message, which
    names the query. *)
Theorem C2_answer_total
    (quote : string -> string)
    (session_get : string -> list (string * json) -> outcome response)
    (str_of_json : json -> string)
    (fetch_results : string -> outcome (list Limbor.result_block))
    (fetch_news : string -> outcome (list (option string)))
    (str_of_items : list Limbor.item -> string)
    (now : string) (query : string) :
  (forall url params, catchable (session_get url params)) ->
  (forall url params r,
     session_get url params = Ret r -> catchable (json_body r)) ->
  (forall url, catchable (fetch_results url)) ->
  (forall url, catchable (fetch_news url)) ->
  let answer :=
    snd (Limbor.get_comprehensive_answer quote session_get str_of_json
           fetch_results fetch_news str_of_items now query) in
  (exists text, answer = Ret text /\ text <> EmptyString)
  /\ (Limbor.get_built_in_knowledge query = None ->
      Limbor.search_wikipedia_detailed quote session_get str_of_json query
      = Ret None ->
      Limbor.search_duckduckgo_detailed quote fetch_results query
      = Ret None ->
      Limbor.search_news quote fetch_news query = Ret None ->
      answer = Ret (Limbor.no_information query)
      /\ Py.contains query (Limbor.no_information query) = true).
Proof.
  intros Hget Hjson Hresults Hnews. cbv zeta.
  unfold Limbor.get_comprehensive_answer. cbn [snd].
  rewrite (search_wikipedia_detailed_returns quote session_get str_of_json
             Hget Hjson query).
  destruct (search_duckduckgo_detailed_returns quote fetch_results query
              Hresults) as [ddg_result Hddg].
  destruct (search_news_returns quote fetch_news query Hnews)
    as [news_found Hfound].
  rewrite Hddg, Hfound. cbn [bind].
  split.
  - match goal with
    | |- context [existsb ?f ?l] => destruct (existsb f l)
    end; cbn [bind]; apply compile_returns.
  - intros Hb Hw Hd Hn.
    injection Hw as Hw. injection Hd as ->. injection Hn as ->.
    rewrite Hw. split; [|apply contains_middle].
    unfold Limbor.gather, Limbor.search_multiple_sources. rewrite Hb.
    match goal with
    | |- context [existsb ?f ?l] => destruct (existsb f l)
    end; reflexivity.
Qed.

Lemma C2_witness :
  snd (Limbor.get_comprehensive_answer (fun s => s) unreachable
         (fun _ => EmptyString) (fun _ => Raise Timeout)
         (fun _ => Raise Timeout) (fun _ => EmptyString) EmptyString
         EmptyString)
  = Ret "❌ I couldn't find comprehensive information about ''. Try rephrasing your question or being more specific.".
Proof.
  apply (C2_answer_total (fun s => s) unreachable (fun _ => EmptyString)
           (fun _ => Raise Timeout) (fun _ => Raise Timeout)
           (fun _ => EmptyString) EmptyString EmptyString);
    try reflexivity; intros; try exact I; discriminate.
Defined.

(** ** The math handlers *)

Section MathFacts.
Import Py.

Lemma all_math_chars_In (s : string) :
  all_math_chars s = true ->
  forall c, In c (list_ascii_of_string s) -> is_math_char c = true.
Proof.
  induction s as [|a s IH]; simpl; [contradiction|].
  intros H c [<-|Hc]; apply andb_true_iff in H; destruct H; auto.
Qed.

Lemma math_char_not_letter (c : ascii) :
  is_math_char c = true -> is_upper c = false /\ is_lower c = false.
Proof.
  unfold is_math_char, is_digit, is_space, is_upper, is_lower. cbv zeta.
  intros H. apply orb_true_iff in H. destruct H as [H|H].
  - apply orb_true_iff in H.
    repeat match goal with
    | |- context [?a <=? ?b] => destruct (Nat.leb_spec a b)
    | H : context [?a <=? ?b] |- _ => destruct (Nat.leb_spec a b)
    end; simpl in *; try lia; try (split; reflexivity);
      destruct H; discriminate.
  - simpl in H.
    repeat match type of H with
    | context [Ascii.eqb c ?x] => destruct (Ascii.eqb_spec c x); [subst; split; reflexivity|]
    end. discriminate.
Qed.
End MathFacts.

(** * Further properties *)

(** ** Sentences *)

Section SentenceFacts.
Import Py.

Lemma lstrip_idempotent (s : string) : lstrip (lstrip s) = lstrip s.
Proof.
  induction s as [|c s IH]; [reflexivity|].
  simpl. destruct (is_space c) eqn:Hc; [exact IH|].
  simpl. now rewrite Hc.
Qed.

Lemma rstrip_idempotent (s : string) : rstrip (rstrip s) = rstrip s.
Proof.
  induction s as [|c s IH]; [reflexivity|].
  simpl. destruct (rstrip s) as [|a r] eqn:Hr.
  - destruct (is_space c) eqn:Hc; [reflexivity|]. simpl. now rewrite Hc.
  - change (rstrip (String c (String a r)) = String c (String a r)).
    cbn [rstrip] in *. now rewrite IH.
Qed.

Lemma strip_idempotent (s : string) : strip (strip s) = strip s.
Proof.
  unfold strip.
  rewrite (rstrip_lstrip (rstrip (lstrip s))), rstrip_idempotent.
  now rewrite <- rstrip_lstrip, lstrip_idempotent.
Qed.

Lemma string_forall_lstrip (p : ascii -> bool) (s : string) :
  string_forall p s = true -> string_forall p (lstrip s) = true.
Proof.
  induction s as [|c s IH]; [trivial|]. simpl. intros H.
  apply andb_true_iff in H. destruct H as [Hc Hs].
  destruct (is_space c); [now apply IH|]. simpl. now rewrite Hc, Hs.
Qed.

Lemma string_forall_rstrip (p : ascii -> bool) (s : string) :
  string_forall p s = true -> string_forall p (rstrip s) = true.
Proof.
  induction s as [|c s IH]; [trivial|]. simpl. intros H.
  apply andb_true_iff in H. destruct H as [Hc Hs].
  specialize (IH Hs). destruct (rstrip s).
  - destruct (is_space c); [reflexivity|]. simpl. now rewrite Hc.
  - cbn [string_forall] in *. now rewrite Hc, IH.
Qed.

Lemma string_forall_strip (p : ascii -> bool) (s : string) :
  string_forall p s = true -> string_forall p (strip s) = true.
Proof.
  intros H. now apply string_forall_rstrip, string_forall_lstrip.
Qed.

Lemma len_lstrip (s : string) : len (lstrip s) <= len s.
Proof.
  induction s as [|c s IH]; [simpl; lia|].
  simpl. destruct (is_space c); simpl; lia.
Qed.

Lemma len_rstrip (s : string) : len (rstrip s) <= len s.
Proof.
  induction s as [|c s IH]; [simpl; lia|].
  simpl. destruct (rstrip s).
  - destruct (is_space c); simpl in *; lia.
  - cbn [len] in *. lia.
Qed.

Lemma len_strip (s : string) : len (strip s) <= len s.
Proof.
  unfold strip. pose proof (len_rstrip (lstrip s)). pose proof (len_lstrip s).
  lia.
Qed.

(** The pieces of a split hold no terminator and are no longer than the
    text. *)
Lemma split_from_pieces (b : bool) (s p : string) :
  In p (split_from b s) -> no_sentence_end p = true /\ len p <= len s.
Proof.
  revert b p; induction s as [|c s IH]; intros b p; simpl.
  - intros [<-|[]]. split; [reflexivity | simpl; lia].
  - destruct (is_sentence_end c) eqn:Hc.
    + intros H.
      assert (Hp : p = EmptyString \/ In p (split_from true s)).
      { destruct b; [now right|]. destruct H as [<-|H]; [now left | now right]. }
      destruct Hp as [->|Hp]; [split; [reflexivity | simpl; lia]|].
      destruct (IH true p Hp). split; [assumption | lia].
    + pose proof (split_from_nonempty false s) as Hne.
      destruct (split_from false s) as [|q l] eqn:E; [contradiction|].
      simpl. intros [<-|Hp].
      * destruct (IH false q) as [Hq Hl]; [rewrite E; now left|].
        split; [|simpl; lia].
        unfold no_sentence_end in *. simpl. now rewrite Hc, Hq.
      * destruct (IH false p) as [Hq Hl]; [rewrite E; now right|].
        split; [assumption | lia].
Qed.

Lemma filter_none {A : Type} (f : A -> bool) (l : list A) :
  (forall x, In x l -> f x = false) -> filter f l = [].
Proof.
  induction l as [|x l IH]; intros H; simpl; [reflexivity|].
  rewrite (H x) by now left. apply IH. intros y Hy. apply H. now right.
Qed.

(** What the two segmenters return, for a threshold [k] on the length. *)
Lemma sentences_clean (k : nat) (text sentence : string) :
  In sentence (filter (fun s => k <? len s)
                      (map strip (re_split_sentences text))) ->
  k < len sentence /\ len sentence <= len text
  /\ strip sentence = sentence /\ no_sentence_end sentence = true.
Proof.
  intros H. apply filter_In in H. destruct H as [H Hk].
  apply in_map_iff in H. destruct H as (p & <- & Hp).
  apply split_from_pieces in Hp. destruct Hp as [Hend Hlen].
  apply Nat.ltb_lt in Hk. pose proof (len_strip p).
  repeat split; try lia.
  - apply strip_idempotent.
  - now apply string_forall_strip.
Qed.
End SentenceFacts.

(** X1. Every sentence that the segmenters return is longer than the
    threshold (10 characters in [conversational_ai.py], 15 in
    [simple_ai_chat.py]), not longer than the text, free of white space at
    both ends and free of [.], [!] and [?]. *)
Theorem sentences_are_clean (text sentence : string) :
  (In sentence (Conversational.split_into_sentences text) ->
   10 < Py.len sentence /\ Py.len sentence <= Py.len text
   /\ Py.strip sentence = sentence /\ no_sentence_end sentence = true)
  /\ (In sentence (Simple.split_sentences text) ->
      15 < Py.len sentence /\ Py.len sentence <= Py.len text
      /\ Py.strip sentence = sentence /\ no_sentence_end sentence = true).
Proof.
  split; apply sentences_clean.
Qed.

Lemma sentences_are_clean_witness :
  In "It is very hot there and nobody can go"
     (Conversational.split_into_sentences sample_text)
  /\ Py.strip "It is very hot there and nobody can go"
     = "It is very hot there and nobody can go".
Proof.
  assert (H : In "It is very hot there and nobody can go"
                (Conversational.split_into_sentences sample_text))
    by (vm_compute; tauto).
  split; [exact H|].
  apply (sentences_are_clean sample_text
           "It is very hot there and nobody can go"). exact H.
Defined.

(** X2. A text of at most 10 characters, the empty text among them, has no
    sentence (at most 15 characters in [simple_ai_chat.py]). *)
Theorem short_text_has_no_sentence (text : string) :
  (Py.len text <= 10 -> Conversational.split_into_sentences text = [])
  /\ (Py.len text <= 15 -> Simple.split_sentences text = []).
Proof.
  split; intros H;
    [unfold Conversational.split_into_sentences
    |unfold Simple.split_sentences];
    apply filter_none; intros s Hs;
    apply in_map_iff in Hs; destruct Hs as (p & <- & Hp);
    apply split_from_pieces in Hp; destruct Hp as [_ Hl];
    pose proof (len_strip p); apply Nat.ltb_ge; lia.
Qed.

Lemma short_text_has_no_sentence_witness :
  Py.len "Too short." <= 10
  /\ Conversational.split_into_sentences "Too short." = [].
Proof.
  assert (H : Py.len "Too short." <= 10) by (vm_compute; lia).
  split; [exact H|].
  destruct (short_text_has_no_sentence "Too short.") as [Hc _].
  exact (Hc H).
Defined.

(** ** The summary of a long text *)

Section SummaryFacts.
Import Py.

Lemma last_char_forall (p : ascii -> bool) (s : string) (c : ascii) :
  string_forall p s = true -> last_char s = Some c -> p c = true.
Proof.
  induction s as [|a s IH]; [discriminate|]. simpl. intros H Hl.
  apply andb_true_iff in H. destruct H as [Ha Hs].
  destruct s; [injection Hl as <-; exact Ha | now apply IH].
Qed.

Lemma endswith_char_forall (p : ascii -> bool) (s : string) (c : ascii) :
  string_forall p s = true -> p c = false ->
  endswith s (String c EmptyString) = false.
Proof.
  intros Hs Hc.
  destruct (endswith s (String c EmptyString)) eqn:E; [|reflexivity].
  apply last_char_endswith in E; [|discriminate].
  simpl in E. rewrite (last_char_forall p s c Hs E) in Hc. discriminate.
Qed.

(** A clean sentence is finished by one period. *)
Lemma finish_clean (sentence : string) :
  strip sentence = sentence -> no_sentence_end sentence = true ->
  Conversational.finish sentence = sentence ++ ".".
Proof.
  intros Hs Hn. unfold Conversational.finish, Conversational.ends_sentence.
  cbv zeta. rewrite Hs. unfold no_sentence_end in Hn.
  now rewrite !(endswith_char_forall _ sentence _ Hn).
Qed.

Lemma top_ranked_In (score : nat -> nat) (k : nat)
    (sentences out : list string) (s : string) :
  top_ranked score k sentences out -> In s out -> In s sentences.
Proof.
  intros (idxs & -> & _ & _ & Hlt & _) Hs.
  apply in_map_iff in Hs. destruct Hs as (i & <- & Hi).
  rewrite Forall_forall in Hlt. now apply nth_In, Hlt.
Qed.

Lemma extract_key_sentences_In (sentences : list string) (s : string) :
  In s (Conversational.extract_key_sentences sentences) -> In s sentences.
Proof.
  apply top_ranked_In with
    (score := fun i => Conversational.sentence_score (length sentences) i
                         (nth i sentences EmptyString))
    (k := Conversational.keep_count (length sentences)).
  apply (select_top_ranked
           (Conversational.sentence_score (length sentences))).
Qed.

Lemma create_summary_nonempty (key_sentences : list string)
    (original_text : string) :
  key_sentences <> [] ->
  Conversational.create_summary key_sentences original_text
  = join nl
      (if 1000 <? len original_text
       then List.app (Conversational.summary_lines key_sentences)
              [Conversational.footnote (len original_text)
                 (len (join " " (Conversational.summary_lines key_sentences)))]
       else Conversational.summary_lines key_sentences).
Proof. destruct key_sentences; [contradiction | reflexivity]. Qed.

Lemma keep_count_at_least_2 (n : nat) : 2 <= Conversational.keep_count n.
Proof.
  unfold Conversational.keep_count.
  destruct (n <=? 5); [lia|]. destruct (n <=? 10); lia.
Qed.
End SummaryFacts.

(** X3. For a text of at least 200 characters with more than 3 sentences,
    the summary is the heading and one bullet for each selected sentence,
    the sentence followed by a period, then the footnote when the text has
    more than 1000 characters. At least 2 sentences are selected, each a
    sentence of the text: the one-sentence form and the message for an
    empty selection are never produced. *)
Theorem long_text_summary (text : string) :
  let stripped := Py.strip text in
  let sentences := Conversational.split_into_sentences text in
  let selected := Conversational.extract_key_sentences sentences in
  let rendered :=
    Py.join nl ("**Key Points:**"
                  :: map (fun sentence => "• " ++ sentence ++ ".") selected) in
  200 <= Py.len stripped -> 3 < length sentences ->
  2 <= length selected
  /\ (forall sentence, In sentence selected -> In sentence sentences)
  /\ Conversational.summarize_text text
     = if 1000 <? Py.len stripped
       then rendered ++ nl
            ++ Conversational.footnote (Py.len stripped) (Py.len rendered)
       else rendered.
Proof.
  intros stripped sentences selected rendered Hlen Hn.
  assert (H2 : 2 <= length selected).
  { unfold selected. rewrite extract_key_sentences_length.
    pose proof (keep_count_at_least_2 (length sentences)). lia. }
  assert (Hin : forall s, In s selected -> In s sentences)
    by (intros s; apply extract_key_sentences_In).
  split; [exact H2|]. split; [exact Hin|].
  unfold Conversational.summarize_text. cbv zeta.
  rewrite !split_into_sentences_strip. fold stripped sentences selected.
  destruct (Nat.ltb_spec (Py.len stripped) 200); [lia|].
  destruct (Nat.leb_spec (length sentences) 3); [lia|].
  assert (Hlines : Conversational.summary_lines selected
                   = "**Key Points:**"
                       :: map (fun s => "• " ++ s ++ ".") selected).
  { unfold Conversational.summary_lines.
    destruct (Nat.ltb_spec 1 (length selected)); [|lia].
    simpl. f_equal. apply map_ext_in. intros s Hs.
    destruct (sentences_clean 10 text s (Hin s Hs))
      as (_ & _ & Hstrip & Hend).
    now rewrite finish_clean. }
  rewrite create_summary_nonempty
    by (intros E; rewrite E in H2; simpl in H2; lia).
  rewrite Hlines. fold rendered.
  destruct (1000 <? Py.len stripped); [|reflexivity].
  rewrite join_snoc by discriminate. fold rendered.
  now rewrite (len_join " " nl) by reflexivity.
Qed.

Lemma long_text_summary_witness :
  200 <= Py.len (Py.strip sample_text)
  /\ 3 < length (Conversational.split_into_sentences sample_text)
  /\ Conversational.summarize_text sample_text
     = "**Key Points:**" ++ nl
       ++ "• The main result is therefore important because 42." ++ nl
       ++ "• Sun is a big star in the sky and it is very far away." ++ nl
       ++ "• Moons go around the planets too.".
Proof.
  assert (H1 : 200 <= Py.len (Py.strip sample_text)) by (vm_compute; lia).
  assert (H2 : 3 < length (Conversational.split_into_sentences sample_text))
    by (vm_compute; lia).
  split; [exact H1|]. split; [exact H2|].
  destruct (long_text_summary sample_text H1 H2) as (_ & _ & ->).
  reflexivity.
Defined.

(** X4. A sentence scores at most 19 in [conversational_ai.py] (3 for
    position, 2 for length, 13 keywords, 1 for a digit) and at most 17 in
    [simple_ai_chat.py]; the first sentence scores at least 3. *)
Theorem score_bounds (n i : nat) (sentence : string) :
  Conversational.sentence_score n i sentence <= 19
  /\ Simple.sentence_score n i sentence <= 17
  /\ 3 <= Conversational.sentence_score n 0 sentence
  /\ 3 <= Simple.sentence_score n 0 sentence.
Proof.
  unfold Conversational.sentence_score, Simple.sentence_score.
  assert (Hk : Conversational.keyword_score sentence <= 13)
    by apply (filter_length_le _ Conversational.keywords).
  assert (Hk' : Simple.keyword_score sentence <= 11)
    by apply (filter_length_le _ Simple.important_words).
  unfold Conversational.position_score, Simple.position_score,
    Conversational.length_score, Simple.length_score,
    Conversational.number_score, Simple.number_score.
  cbn [Nat.eqb].
  repeat split;
    repeat match goal with
    | |- context [if ?b then _ else _] => destruct b
    end; lia.
Qed.

(** ** The expression of a math request *)

Section ExpressionFacts.
Import Py.

Lemma append_empty_r (s : string) : s ++ EmptyString = s.
Proof. induction s as [|c s IH]; simpl; [reflexivity | now rewrite IH]. Qed.

Lemma string_of_list_ascii_snoc (l : list ascii) (c : ascii) (s : string) :
  string_of_list_ascii (List.app l [c]) ++ s
  = string_of_list_ascii l ++ String c s.
Proof. induction l as [|a l IH]; simpl; [reflexivity | now rewrite IH]. Qed.

Lemma join_empty_cons (p : string) (parts : list string) :
  join EmptyString (p :: parts) = p ++ join EmptyString parts.
Proof.
  destruct parts; simpl; [now rewrite append_empty_r | reflexivity].
Qed.

Lemma join_flush (cur : list ascii) (runs : list string) :
  join EmptyString (flush cur runs)
  = string_of_list_ascii (rev cur) ++ join EmptyString runs.
Proof.
  destruct cur; [reflexivity|]. unfold flush. apply join_empty_cons.
Qed.

Lemma join_findall_from (cur : list ascii) (s : string) :
  join EmptyString (findall_from cur s)
  = string_of_list_ascii (rev cur) ++ filter_string is_math_char s.
Proof.
  revert cur; induction s as [|c s IH]; intros cur; simpl.
  - now rewrite join_flush.
  - destruct (is_math_char c).
    + rewrite IH. simpl rev. apply string_of_list_ascii_snoc.
    + rewrite join_flush, IH. reflexivity.
Qed.

Lemma string_forall_filter (p : ascii -> bool) (s : string) :
  string_forall p (filter_string p s) = true.
Proof.
  induction s as [|c s IH]; [reflexivity|]. simpl.
  destruct (p c) eqn:Hc; [simpl; now rewrite Hc | exact IH].
Qed.

Lemma all_math_chars_forall (s : string) :
  all_math_chars s = string_forall is_math_char s.
Proof. induction s as [|c s IH]; simpl; [reflexivity | now rewrite IH]. Qed.

Lemma lstrip_spaces (s : string) :
  string_forall is_space s = true -> lstrip s = EmptyString.
Proof.
  induction s as [|c s IH]; [reflexivity|]. simpl. intros H.
  apply andb_true_iff in H. destruct H as [-> H]. now apply IH.
Qed.

Lemma filter_string_spaces (s : string) :
  (forall c, In c (list_ascii_of_string s) ->
             is_math_char c = true -> is_space c = true) ->
  string_forall is_space (filter_string is_math_char s) = true.
Proof.
  induction s as [|c s IH]; [reflexivity|]. simpl. intros H.
  destruct (is_math_char c) eqn:Hc.
  - simpl. rewrite (H c) by auto. apply IH. intros a Ha. apply H. now right.
  - apply IH. intros a Ha. apply H. now right.
Qed.
End ExpressionFacts.

Lemma expression_is_filtered (request : string) :
  math_expression request = Py.strip (filter_string Py.is_math_char request).
Proof.
  unfold math_expression. f_equal. apply (join_findall_from [] request).
Qed.

(** X5. The runs that [re.findall] extracts, joined, are the characters of
    the request that belong to the class (digits, the operators, parentheses,
    dot, white space), in order: every other character is deleted and the
    runs on either side of it are glued together. *)
Theorem joined_runs_are_filtered (request : string) :
  Py.join EmptyString (Py.re_findall_math request)
  = filter_string Py.is_math_char request
  /\ math_expression request
     = Py.strip (filter_string Py.is_math_char request).
Proof.
  split; [apply (join_findall_from [] request) | apply expression_is_filtered].
Qed.

Lemma expression_guard (request : string) :
  Py.re_match_math (math_expression request)
  = negb (String.eqb (math_expression request) EmptyString).
Proof.
  unfold Py.re_match_math.
  rewrite all_math_chars_forall, expression_is_filtered.
  rewrite string_forall_strip by apply string_forall_filter.
  apply andb_true_r.
Qed.

Lemma expression_runs (request : string) :
  math_expression request <> EmptyString -> Py.re_findall_math request <> [].
Proof.
  unfold math_expression. intros H E. now rewrite E in H.
Qed.

(** X6. The [re.match] guard of the math handlers rejects the empty
    expression and nothing else: the extracted expression always consists
    of characters of the class. *)
Theorem guard_rejects_only_empty (request : string) :
  Py.re_match_math (math_expression request)
  = negb (String.eqb (math_expression request) EmptyString)
  /\ string_forall Py.is_math_char (math_expression request) = true.
Proof.
  split; [apply expression_guard|].
  rewrite expression_is_filtered.
  apply string_forall_strip, string_forall_filter.
Qed.

(** X7. A math handler consults the evaluator exactly when the extracted
    expression is not empty. A request without a digit, operator,
    parenthesis or dot gets the help message whatever the evaluator would
    do; otherwise a successful evaluation is reported with the expression
    and its value. *)
Theorem math_handler_behaviour (py_eval : string -> outcome string)
    (request : string) :
  let expr := math_expression request in
  ((forall c, In c (list_ascii_of_string request) ->
              Py.is_math_char c = true -> Py.is_space c = true) ->
   expr = EmptyString)
  /\ (expr = EmptyString ->
      Conversational.handle_math_request py_eval request
      = Ret Conversational.math_help
      /\ Simple.handle_math py_eval request
         = Ret "I can help with math! Try something like: 'Calculate 25 * 4 + 10'")
  /\ (forall result, expr <> EmptyString -> py_eval expr = Ret result ->
      Conversational.handle_math_request py_eval request
      = Ret ("The answer is: **" ++ result ++ "**" ++ nl ++ nl
             ++ "Calculation: " ++ expr ++ " = " ++ result)
      /\ Simple.handle_math py_eval request
         = Ret ("**Answer:** " ++ result ++ nl ++ nl
                ++ "Calculation: " ++ expr ++ " = " ++ result)).
Proof.
  cbv zeta. split; [|split].
  - intros H. rewrite expression_is_filtered. unfold Py.strip.
    now rewrite lstrip_spaces by now apply filter_string_spaces.
  - intros E.
    assert (G : Py.re_match_math (math_expression request) = false)
      by (rewrite expression_guard, E; reflexivity).
    unfold Conversational.handle_math_request, Simple.handle_math.
    cbv zeta. fold (math_expression request). rewrite G.
    destruct (Py.re_findall_math request); split; reflexivity.
  - intros result Hne He.
    assert (G : Py.re_match_math (math_expression request) = true).
    { rewrite expression_guard. apply String.eqb_neq in Hne.
      now rewrite Hne. }
    pose proof (expression_runs request Hne) as Hr.
    unfold Conversational.handle_math_request, Simple.handle_math.
    cbv zeta. fold (math_expression request). rewrite G, He.
    destruct (Py.re_findall_math request); [contradiction|].
    split; reflexivity.
Qed.

Lemma math_handler_behaviour_witness :
  math_expression "what is 2+2" = "2+2"
  /\ Conversational.handle_math_request (fun _ => Ret "4") "what is 2+2"
     = Ret ("The answer is: **4**" ++ nl ++ nl ++ "Calculation: 2+2 = 4")
  /\ Simple.handle_math failing_eval "hello world"
     = Ret "I can help with math! Try something like: 'Calculate 25 * 4 + 10'".
Proof.
  split; [reflexivity|]. split.
  - destruct (math_handler_behaviour (fun _ => Ret "4") "what is 2+2")
      as (_ & _ & H).
    apply (H "4"); [discriminate | reflexivity].
  - destruct (math_handler_behaviour failing_eval "hello world")
      as (H0 & H & _).
    apply H. apply H0. intros c Hc.
    cbn in Hc.
    repeat (destruct Hc as [<-|Hc]; [vm_compute; congruence|]).
    contradiction.
Defined.
(** ** The guard of the math handlers *)

(** C10 (as amended). A math handler evaluates at most one string, the
    expression it extracts, and only when that string matches the pattern:
    an evaluator that differs on other strings gives the same response. The
    expression is the request with every character outside the class
    deleted, stripped; it matches exactly when it is not empty and holds
    characters of the class only, so no letter. What the request held
    besides does not prevent the evaluation: when the expression is not
    empty and its evaluation succeeds, the value is reported. The handler
    raises nothing, and when the evaluation fails it answers with its help
    message. *)
Theorem C10_math_guard (py_eval : string -> outcome string)
    (request : string) :
  let expr := math_expression request in
  (forall other : string -> outcome string,
     (forall e, Py.re_match_math e = true -> other e = py_eval e) ->
     Conversational.handle_math_request other request
     = Conversational.handle_math_request py_eval request
     /\ Simple.handle_math other request = Simple.handle_math py_eval request)
  /\ expr = Py.strip (filter_string Py.is_math_char request)
  /\ Py.re_match_math expr = negb (String.eqb expr EmptyString)
  /\ (forall c, In c (list_ascii_of_string expr) ->
        Py.is_math_char c = true
        /\ Py.is_upper c = false /\ Py.is_lower c = false)
  /\ (forall result, expr <> EmptyString -> py_eval expr = Ret result ->
        Conversational.handle_math_request py_eval request
        = Ret ("The answer is: **" ++ result ++ "**" ++ nl ++ nl
               ++ "Calculation: " ++ expr ++ " = " ++ result)
        /\ Simple.handle_math py_eval request
           = Ret ("**Answer:** " ++ result ++ nl ++ nl
                  ++ "Calculation: " ++ expr ++ " = " ++ result))
  /\ (exists text,
        Conversational.handle_math_request py_eval request = Ret text)
  /\ (exists text, Simple.handle_math py_eval request = Ret text)
  /\ (forall e, expr <> EmptyString -> py_eval expr = Raise e ->
        Conversational.handle_math_request py_eval request
        = Ret Conversational.math_help
        /\ Simple.handle_math py_eval request
           = Ret "I can help with calculations! What would you like me to calculate?").
Proof.
  cbv zeta.
  assert (Hguard : forall expr, expr <> EmptyString ->
            expr = math_expression request ->
            Py.re_match_math expr = true).
  { intros expr Hne ->. rewrite expression_guard.
    apply String.eqb_neq in Hne. now rewrite Hne. }
  split; [|split; [|split; [|split; [|split; [|split; [|split]]]]]].
  - intros other Hsame.
    unfold Conversational.handle_math_request, Simple.handle_math.
    destruct (Py.re_findall_math request) as [|m ms]; [split; reflexivity|].
    destruct (Py.re_match_math (Py.strip (Py.join EmptyString (m :: ms))))
      eqn:E; [|split; reflexivity].
    now rewrite (Hsame _ E).
  - apply expression_is_filtered.
  - apply expression_guard.
  - intros c Hc.
    assert (H : Py.is_math_char c = true).
    { assert (Hall : Py.all_math_chars (math_expression request) = true).
      { rewrite all_math_chars_forall, expression_is_filtered.
        apply string_forall_strip, string_forall_filter. }
      exact (all_math_chars_In _ Hall c Hc). }
    split; [exact H | now apply math_char_not_letter].
  - intros result Hne He.
    pose proof (Hguard _ Hne eq_refl) as G.
    pose proof (expression_runs request Hne) as Hr.
    unfold Conversational.handle_math_request, Simple.handle_math.
    cbv zeta. fold (math_expression request). rewrite G, He.
    destruct (Py.re_findall_math request); [contradiction|].
    split; reflexivity.
  - unfold Conversational.handle_math_request.
    destruct (Py.re_findall_math request) as [|m ms]; [simpl; eauto|].
    destruct (Py.re_match_math (Py.strip (Py.join EmptyString (m :: ms))));
      [|simpl; eauto].
    destruct (py_eval (Py.strip (Py.join EmptyString (m :: ms)))); simpl; eauto.
  - unfold Simple.handle_math.
    destruct (Py.re_findall_math request) as [|m ms]; [simpl; eauto|].
    destruct (Py.re_match_math (Py.strip (Py.join EmptyString (m :: ms))));
      [|simpl; eauto].
    destruct (py_eval (Py.strip (Py.join EmptyString (m :: ms)))); simpl; eauto.
  - intros e Hne He.
    pose proof (Hguard _ Hne eq_refl) as G.
    pose proof (expression_runs request Hne) as Hr.
    unfold Conversational.handle_math_request, Simple.handle_math.
    cbv zeta. fold (math_expression request). rewrite G, He.
    destruct (Py.re_findall_math request); [contradiction|].
    split; reflexivity.
Qed.

Lemma C10_witness :
  math_expression "what is 2+2" = "2+2"
  /\ Conversational.handle_math_request failing_eval "what is 2+2"
     = Ret Conversational.math_help
  /\ Simple.handle_math failing_eval "what is 2+2"
     = Ret "I can help with calculations! What would you like me to calculate?".
Proof.
  split; [reflexivity|].
  destruct (C10_math_guard failing_eval "what is 2+2")
    as (_ & _ & _ & _ & _ & _ & _ & H).
  apply (H SyntaxError); [discriminate | reflexivity].
Defined.

(** C10 as the claim states it fails: the request [what is 2+2] contains
    letters, and the evaluator, which here answers on [2+2] alone, is
    consulted and its value reported by both handlers. *)
Lemma C10_counterexample :
  let py_eval := fun expr : string =>
    if String.eqb expr "2+2" then Ret "4" else Raise SyntaxError in
  existsb Py.is_lower (list_ascii_of_string "what is 2+2") = true
  /\ Py.re_match_math "what is 2+2" = false
  /\ Conversational.handle_math_request py_eval "what is 2+2"
     = Ret ("The answer is: **4**" ++ nl ++ nl ++ "Calculation: 2+2 = 4")
  /\ Simple.handle_math py_eval "what is 2+2"
     = Ret ("**Answer:** 4" ++ nl ++ nl ++ "Calculation: 2+2 = 4").
Proof.
  cbv zeta. repeat split.
Qed.

(** ** Search results *)

Section SublistFacts.
Context {A : Type}.

Lemma sublist_refl (l : list A) : sublist l l.
Proof. induction l; constructor; assumption. Qed.

Lemma sublist_nil_l (l : list A) : sublist [] l.
Proof. induction l; constructor; assumption. Qed.

Lemma sublist_trans (l1 l2 l3 : list A) :
  sublist l1 l2 -> sublist l2 l3 -> sublist l1 l3.
Proof.
  intros H12 H23; revert l1 H12.
  induction H23 as [|x l2 l3 H IH|x l2 l3 H IH]; intros l1 H12.
  - assumption.
  - inversion H12; subst; constructor; auto.
  - constructor; auto.
Qed.

Lemma sublist_snoc (sub l : list A) (x : A) :
  sublist sub l -> sublist (sub ++ [x]) (l ++ [x]).
Proof.
  induction 1; simpl; constructor; try assumption.
  constructor.
Qed.

Lemma sublist_snoc_skip (sub l : list A) (x : A) :
  sublist sub l -> sublist sub (l ++ [x]).
Proof.
  induction 1; simpl; constructor; try assumption.
  constructor.
Qed.

Lemma sublist_firstn (k : nat) (l : list A) : sublist (firstn k l) l.
Proof.
  revert k; induction l as [|x l IH]; intros [|k]; simpl;
    try constructor; auto using sublist_nil_l.
Qed.

Lemma sublist_In (sub l : list A) (x : A) :
  sublist sub l -> In x sub -> In x l.
Proof.
  induction 1; simpl; intros Hx; [assumption | | right; auto].
  destruct Hx; [now left | right; auto].
Qed.

Lemma sublist_length (sub l : list A) : sublist sub l -> length sub <= length l.
Proof. induction 1; simpl; lia. Qed.

Lemma sublist_app (s1 l1 s2 l2 : list A) :
  sublist s1 l1 -> sublist s2 l2 -> sublist (s1 ++ s2) (l1 ++ l2).
Proof.
  induction 1; simpl; intros H2; [assumption | |]; constructor; auto.
Qed.
End SublistFacts.

Section SnippetFacts.
Import Py.

Lemma unique_sublist (snippets seen acc : list string) :
  sublist acc seen ->
  sublist (fold_left Simple.keep_unique snippets acc)
          (List.app seen snippets).
Proof.
  revert seen acc; induction snippets as [|s l IH]; intros seen acc H; simpl.
  - now rewrite app_nil_r.
  - replace (List.app seen (s :: l)) with (List.app (List.app seen [s]) l)
      by now rewrite <- app_assoc.
    apply IH. unfold Simple.keep_unique.
    destruct (existsb _ acc);
      [now apply sublist_snoc_skip | now apply sublist_snoc].
Qed.

Lemma unique_grows (snippets acc : list string) :
  length acc <= length (fold_left Simple.keep_unique snippets acc).
Proof.
  revert acc; induction snippets as [|s l IH]; intros acc; simpl; [lia|].
  specialize (IH (Simple.keep_unique acc s)).
  unfold Simple.keep_unique in *.
  destruct (existsb _ acc); [assumption|].
  rewrite length_app in IH. simpl in IH. lia.
Qed.

Lemma collect_snippets_usable (soup : string -> list string) (s : string) :
  In s (Simple.collect_snippets soup) ->
  Simple.usable s = true /\ strip s = s.
Proof.
  unfold Simple.collect_snippets. intros H.
  apply in_flat_map in H. destruct H as (selector & _ & H).
  apply filter_In in H. destruct H as [H Hu].
  apply in_map_iff in H. destruct H as (t & <- & _).
  split; [assumption | apply strip_idempotent].
Qed.

Lemma strip_starts (c : ascii) (s : string) :
  is_space c = false -> strip (String c s) <> EmptyString.
Proof.
  intros Hc. unfold strip. simpl. rewrite Hc. simpl.
  destruct (rstrip s); [now rewrite Hc | discriminate].
Qed.
End SnippetFacts.

(** X8. The snippets that are listed come from the page in page order, and
    each is a stripped text of more than 30 and fewer than 300 characters
    that mentions none of the unwanted words, letter case apart. *)
Theorem kept_snippets_usable (soup : string -> list string) :
  sublist (Simple.kept_snippets soup) (Simple.collect_snippets soup)
  /\ forall snippet, In snippet (Simple.kept_snippets soup) ->
       Py.strip snippet = snippet
       /\ 30 < Py.len snippet < 300
       /\ forall skip, In skip Simple.unwanted ->
            Py.contains skip (Py.lower snippet) = false.
Proof.
  assert (Hsub : sublist (Simple.kept_snippets soup)
                         (Simple.collect_snippets soup)).
  { unfold Simple.kept_snippets.
    apply sublist_trans with (Simple.unique (Simple.collect_snippets soup));
      [apply sublist_firstn|].
    apply (unique_sublist (Simple.collect_snippets soup) [] []). constructor. }
  split; [exact Hsub|]. intros s Hs.
  apply (sublist_In _ _ _ Hsub) in Hs.
  apply collect_snippets_usable in Hs. destruct Hs as [Hu Hstrip].
  unfold Simple.usable in Hu.
  repeat (apply andb_true_iff in Hu; destruct Hu as [Hu ?]).
  split; [exact Hstrip|]. split.
  - split; now apply Nat.ltb_lt.
  - intros skip Hskip.
    destruct (Py.contains skip (Py.lower s)) eqn:E; [|reflexivity].
    match goal with
    | H : negb (existsb ?f ?l) = true |- _ =>
        apply negb_true_iff in H;
        rewrite <- not_true_iff_false in H; exfalso; apply H;
        apply existsb_exists; now exists skip
    end.
Qed.

Lemma kept_snippets_usable_witness :
  In fox (Simple.kept_snippets fox_page) /\ 30 < Py.len fox < 300.
Proof.
  assert (H : In fox (Simple.kept_snippets fox_page)) by (vm_compute; tauto).
  split; [exact H|].
  destruct (kept_snippets_usable fox_page) as [_ Hk].
  exact (proj1 (proj2 (Hk fox H))).
Defined.

Lemma extract_search_snippets_cases (soup : string -> list string) :
  (Simple.collect_snippets soup = []
   /\ Simple.extract_search_snippets soup = None)
  \/ (Simple.collect_snippets soup <> []
      /\ exists text, Simple.extract_search_snippets soup = Some text
                      /\ text <> EmptyString).
Proof.
  unfold Simple.extract_search_snippets.
  destruct (Simple.collect_snippets soup) as [|s l] eqn:E; [now left|].
  right. split; [discriminate|].
  pose proof (unique_grows l (Simple.keep_unique [] s)) as Hg.
  unfold Simple.unique. simpl fold_left.
  destruct (fold_left Simple.keep_unique l (Simple.keep_unique [] s))
    as [|u us]; [simpl in Hg; lia|].
  eexists. split; [reflexivity|].
  apply (strip_starts "*"). reflexivity.
Qed.

Lemma collect_snippets_empty (soup : string -> list string) :
  Simple.collect_snippets soup = []
  <-> (forall selector element,
         In selector Simple.result_selectors ->
         In element (firstn 5 (soup selector)) ->
         Simple.usable (Py.strip element) = false).
Proof.
  unfold Simple.collect_snippets.
  induction Simple.result_selectors as [|selector selectors IH].
  - simpl. split; [contradiction | reflexivity].
  - cbn [flat_map]. split.
    + intros H. apply app_eq_nil in H. destruct H as [Hhere Hrest].
      intros sel element [<-|Hsel] Helement.
      * destruct (Simple.usable (Py.strip element)) eqn:E; [|reflexivity].
        assert (Hin : In (Py.strip element)
                        (filter Simple.usable
                           (map Py.strip (firstn 5 (soup selector))))).
        { apply filter_In. split; [now apply in_map | exact E]. }
        rewrite Hhere in Hin. contradiction.
      * now apply (proj1 IH Hrest sel element).
    + intros H.
      assert (Hhere : filter Simple.usable
                        (map Py.strip (firstn 5 (soup selector))) = []).
      { destruct (filter Simple.usable
                    (map Py.strip (firstn 5 (soup selector))))
          as [|text texts] eqn:E; [reflexivity|].
        assert (Hin : In text
                        (filter Simple.usable
                           (map Py.strip (firstn 5 (soup selector)))))
          by (rewrite E; now left).
        apply filter_In in Hin. destruct Hin as [Hin Hu].
        apply in_map_iff in Hin. destruct Hin as (element & <- & Helement).
        rewrite (H selector element) in Hu; [discriminate | now left|].
        exact Helement. }
      rewrite Hhere. cbn [List.app]. apply IH.
      intros sel element Hsel. apply H. now right.
Qed.

(** X9. The snippet extraction answers [None] exactly when, under each of
    the five result selectors, none of the first 5 elements has a usable
    text once stripped; otherwise its answer is not empty. *)
Theorem snippets_found_iff (soup : string -> list string) :
  (Simple.extract_search_snippets soup = None
   <-> (forall selector element,
          In selector Simple.result_selectors ->
          In element (firstn 5 (soup selector)) ->
          Simple.usable (Py.strip element) = false))
  /\ (forall text, Simple.extract_search_snippets soup = Some text ->
        text <> EmptyString).
Proof.
  rewrite <- collect_snippets_empty.
  destruct (extract_search_snippets_cases soup)
    as [[Hc Hn]|[Hc (text & Hs & Hne)]].
  - split; [tauto|]. intros text H. rewrite Hn in H. discriminate.
  - split.
    + split; [rewrite Hs; discriminate | intros H; contradiction].
    + intros t H. rewrite Hs in H. now injection H as <-.
Qed.

Lemma snippets_found_iff_witness :
  Simple.usable (Py.strip "too short") = false
  /\ Simple.extract_search_snippets (fun _ => ["too short"]) = None.
Proof.
  split; [reflexivity|].
  destruct (snippets_found_iff (fun _ => ["too short"])) as [Hiff _].
  apply (proj2 Hiff).
  intros selector element _ [<-|[]]. reflexivity.
Defined.

(** X10. A direct answer is the first text, in selector order, that is
    stripped, has more than 20 and fewer than 500 characters and mentions
    none of [sign in], [cookies], [privacy], [javascript]; there is none
    exactly when no element text qualifies. *)
Theorem direct_answer_filtered (soup : string -> list string) :
  (forall text, Simple.extract_direct_answer soup = Some text ->
     Py.strip text = text /\ 20 < Py.len text < 500
     /\ forall skip, In skip ["sign in"; "cookies"; "privacy"; "javascript"] ->
          Py.contains skip (Py.lower text) = false)
  /\ (Simple.extract_direct_answer soup = None ->
      forall selector element,
        In selector Simple.answer_selectors -> In element (soup selector) ->
        Simple.direct (Py.strip element) = false).
Proof.
  unfold Simple.extract_direct_answer. split.
  - intros text H. apply find_some in H. destruct H as [Hin Hd].
    apply in_flat_map in Hin. destruct Hin as (selector & _ & Hin).
    apply in_map_iff in Hin. destruct Hin as (t & <- & _).
    unfold Simple.direct in Hd.
    repeat (apply andb_true_iff in Hd; destruct Hd as [Hd ?]).
    split; [apply strip_idempotent|]. split.
    + split; now apply Nat.ltb_lt.
    + intros skip Hskip.
      destruct (Py.contains skip (Py.lower (Py.strip t))) eqn:E;
        [|reflexivity].
      match goal with
      | H : negb (existsb ?f ?l) = true |- _ =>
          apply negb_true_iff in H;
          rewrite <- not_true_iff_false in H; exfalso; apply H;
          apply existsb_exists; now exists skip
      end.
  - intros H selector element Hs He.
    apply (find_none _ _ H). apply in_flat_map. exists selector.
    split; [assumption|]. now apply in_map.
Qed.

Lemma direct_answer_filtered_witness :
  Simple.extract_direct_answer
    (fun selector => if String.eqb selector "span.hgKElc"
                     then ["  Paris is the capital of France.  "] else [])
  = Some "Paris is the capital of France."
  /\ 20 < Py.len "Paris is the capital of France." < 500.
Proof.
  split; [reflexivity|].
  apply (direct_answer_filtered
           (fun selector => if String.eqb selector "span.hgKElc"
                            then ["  Paris is the capital of France.  "]
                            else [])).
  reflexivity.
Defined.

(** ** Searching the web *)

Section SearchFacts.
Import Py.

Lemma endswith_refl (s : string) : endswith s s = true.
Proof. destruct s; cbn [endswith]; now rewrite String.eqb_refl. Qed.

Lemma endswith_app_left (s t u : string) :
  endswith t u = true -> endswith (s ++ t) u = true.
Proof.
  intros H. induction s as [|c s IH]; [exact H|].
  change (String c s ++ t) with (String c (s ++ t)).
  cbn [endswith]. rewrite IH. apply orb_true_r.
Qed.

Lemma prefix_cancel (a s t : string) : prefix (a ++ s) (a ++ t) = prefix s t.
Proof.
  induction a as [|c a IH]; [reflexivity|]. simpl.
  destruct (ascii_dec c c); [exact IH | contradiction].
Qed.

Lemma direct_answer_truthy (soup : string -> list string) (text : string) :
  Simple.extract_direct_answer soup = Some text ->
  Simple.truthy_text (Some text) = true.
Proof.
  unfold Simple.extract_direct_answer. intros E.
  apply find_some in E. destruct E as [_ E]. unfold Simple.direct in E.
  repeat (apply andb_true_iff in E; destruct E as [E ?]). exact E.
Qed.

Lemma snippets_truthy (soup : string -> list string) (text : string) :
  Simple.extract_search_snippets soup = Some text ->
  Simple.truthy_text (Some text) = true.
Proof.
  intros H.
  destruct (extract_search_snippets_cases soup)
    as [[_ Hn]|[_ (t & Hs & Hne)]]; [rewrite Hn in H; discriminate|].
  rewrite Hs in H. injection H as <-.
  simpl. now apply negb_true_iff, String.eqb_neq.
Qed.

(** What [search_google] reads off a page. *)
Lemma page_answer_truthy (soup : string -> list string) :
  (if Simple.truthy_text (Simple.extract_direct_answer soup)
   then Ret (Simple.extract_direct_answer soup)
   else if Simple.truthy_text (Simple.extract_search_snippets soup)
        then Ret (Simple.extract_search_snippets soup)
        else Ret None)
  = Ret (match Simple.extract_direct_answer soup with
         | Some text => Some text
         | None => Simple.extract_search_snippets soup
         end).
Proof.
  destruct (Simple.extract_direct_answer soup) as [d|] eqn:Ed.
  - now rewrite (direct_answer_truthy soup d Ed).
  - simpl. destruct (Simple.extract_search_snippets soup) as [t|] eqn:Es;
      [|reflexivity].
    now rewrite (snippets_truthy soup t Es).
Qed.
End SearchFacts.

(** X11. [search_google] answers with the direct answer of the page when
    there is one, otherwise with the snippet list, otherwise with [None]; a
    failure of the request or of the parse gives [None] as well. *)
Theorem search_google_result (quote : string -> string)
    (fetch_page : string -> outcome (string -> list string))
    (query : string) :
  catchable (fetch_page ("https://www.google.com/search?q=" ++ quote query)) ->
  Simple.search_google quote fetch_page query
  = Ret (match fetch_page ("https://www.google.com/search?q=" ++ quote query)
         with
         | Ret soup =>
             match Simple.extract_direct_answer soup with
             | Some text => Some text
             | None => Simple.extract_search_snippets soup
             end
         | Raise _ => None
         end).
Proof.
  unfold Simple.search_google. intros H.
  destruct (fetch_page _) as [soup|e]; simpl in *.
  - cbv zeta. now rewrite page_answer_truthy.
  - now rewrite H.
Qed.

Lemma search_google_result_witness :
  Simple.search_google (fun s => s) (fun _ => Ret fox_page) "fox"
  = Ret (Some ("**Key Information Found:**" ++ nl
               ++ "1. " ++ fox ++ nl ++ "2. " ++ fox_more)).
Proof.
  rewrite (search_google_result (fun s => s) (fun _ => Ret fox_page) "fox");
    [reflexivity | exact I].
Defined.

(** X12. With a transport whose failures derive from [Exception],
    [search_and_answer] returns an answer that opens with the question and
    closes with the time of the search; when neither search finds anything
    the answer says so, naming the question. The message for a failed
    search is never needed. *)
Theorem search_and_answer_shape (quote : string -> string)
    (http_get : string -> list (string * string) -> outcome response)
    (fetch_page : string -> outcome (string -> list string))
    (str_of_json : json -> string) (str_of_exn : exn -> string)
    (now question : string) :
  (forall url params, catchable (http_get url params)) ->
  (forall url params r,
     http_get url params = Ret r -> catchable (json_body r)) ->
  (forall url, catchable (fetch_page url)) ->
  let answer :=
    Simple.search_and_answer quote http_get fetch_page str_of_json str_of_exn
      now question in
  (exists text,
     answer = Ret text
     /\ prefix ("**Answer to: " ++ question ++ "**" ++ nl ++ nl) text = true
     /\ Py.endswith text ("🕒 **Search completed at:** " ++ now) = true)
  /\ (Simple.search_google quote fetch_page question = Ret None ->
      Simple.search_wikipedia quote http_get question = Ret None ->
      answer = Ret ("**Answer to: " ++ question ++ "**" ++ nl ++ nl
                    ++ Simple.no_clear_results question
                    ++ "🕒 **Search completed at:** " ++ now)).
Proof.
  intros Hget Hjson Hfetch answer. unfold answer, Simple.search_and_answer.
  split.
  - assert (Hg : exists g,
              Simple.search_google quote fetch_page question = Ret g).
    { unfold Simple.search_google. specialize (Hfetch
        ("https://www.google.com/search?q=" ++ quote question)).
      destruct (fetch_page _) as [soup|e]; simpl in *.
      + cbv zeta. rewrite page_answer_truthy. eexists. reflexivity.
      + rewrite Hfetch. eexists. reflexivity. }
    destruct Hg as [g ->].
    unfold Simple.search_wikipedia.
    rewrite try_except_Exception_absorbs
      by now apply search_wikipedia_body_catchable.
    cbn [bind try_except_Exception]. eexists. split; [reflexivity|]. split.
    + rewrite !prefix_cancel. apply contains_refl_app.
    + repeat first [apply endswith_refl | apply endswith_app_left].
  - intros -> ->. reflexivity.
Qed.

Lemma search_and_answer_shape_witness :
  Simple.search_and_answer (fun s => s) unreachable (fun _ => Raise Timeout)
    (fun _ => EmptyString) (fun _ => EmptyString) "10:00 AM" "who won"
  = Ret ("**Answer to: who won**" ++ nl ++ nl
         ++ Simple.no_clear_results "who won"
         ++ "🕒 **Search completed at:** 10:00 AM").
Proof.
  destruct (search_and_answer_shape (fun s => s) unreachable
              (fun _ => Raise Timeout) (fun _ => EmptyString)
              (fun _ => EmptyString) "10:00 AM" "who won") as [_ H].
  - intros url params. reflexivity.
  - intros url params r E. discriminate.
  - intros url. reflexivity.
  - apply H; reflexivity.
Defined.

(** ** Encyclopedia extracts *)

Section ExtractFacts.
Import Py.

Lemma len_slice_to (n : nat) (s : string) :
  len (slice_to n s) = Nat.min n (len s).
Proof.
  revert n; induction s as [|c s IH]; intros n; simpl; [lia|].
  destruct (is_continuation c) eqn:Hc; simpl.
  - now rewrite Hc, IH.
  - destruct n; simpl; [reflexivity | now rewrite Hc, IH].
Qed.

Lemma bind_ret {A B : Type} (m : outcome A) (k : A -> outcome B) (b : B) :
  bind m k = Ret b -> exists a, m = Ret a /\ k a = Ret b.
Proof. destruct m as [a|e]; simpl; [eauto | discriminate]. Qed.

(** The reading of the [extract] field, cut to [limit] characters. *)
Lemma limited_extract (limit : nat) (data v : json) :
  3 <= limit ->
  (present <- Json.has "extract" data ;;
   if present then
     extract <- Json.get "extract" data ;;
     if Json.truthy extract then
       n <- Json.len extract ;;
       if limit <? n
       then (cut <- Json.truncate (limit - 3) extract ;; Ret (Some cut))
       else Ret (Some extract)
     else Ret None
   else Ret None) = Ret (Some v) ->
  Json.truthy v = true /\ forall s, v = JStr s -> len s <= limit.
Proof.
  intros Hl H.
  apply bind_ret in H. destruct H as ([|] & _ & H); [|discriminate].
  apply bind_ret in H. destruct H as (extract & _ & H).
  destruct (Json.truthy extract) eqn:Ht; [|discriminate].
  apply bind_ret in H. destruct H as (n & Hn & H).
  destruct (Nat.ltb_spec limit n) as [Hlt|Hle].
  - apply bind_ret in H. destruct H as (cut & Hc & H).
    injection H as <-. destruct extract; try discriminate.
    simpl in Hc. injection Hc as <-. split.
    + simpl. destruct (slice_to (limit - 3) s); reflexivity.
    + intros s' E. injection E as <-.
      rewrite len_app, len_slice_to. simpl. lia.
  - injection H as <-. split; [exact Ht|].
    intros s ->. simpl in Hn. injection Hn as <-. exact Hle.
Qed.

Lemma try_except_Exception_some {A : Type} (body : outcome (option A))
    (a : A) :
  try_except_Exception body (fun _ => Ret None) = Ret (Some a) ->
  body = Ret (Some a).
Proof.
  destruct body as [r|e]; simpl; [trivial|].
  destruct (is_Exception e); discriminate.
Qed.

Lemma try_except_some {A : Type} (body : outcome (option A)) (a : A) :
  try_except body (fun _ => Ret None) = Ret (Some a) -> body = Ret (Some a).
Proof. destruct body as [r|e]; simpl; [trivial | discriminate]. Qed.

Lemma read_extract_some (r : response) (v : json) :
  Simple.read_extract r = Ret (Some v) ->
  Json.truthy v = true /\ forall s, v = JStr s -> len s <= 400.
Proof.
  unfold Simple.read_extract. destruct (status_code r =? 200); [|discriminate].
  intros H. apply bind_ret in H. destruct H as (data & _ & H).
  apply (limited_extract 400 data v); [lia | exact H].
Qed.
End ExtractFacts.

(** X13. An extract that a Wikipedia lookup returns is never empty and,
    when it is a text, has at most 400 characters in [simple_ai_chat.py],
    500 in [conversational_ai.py] and 300 in [smart_search_test.py]. *)
Theorem wikipedia_extract_bounded (quote : string -> string)
    (http_get : string -> list (string * string) -> outcome response)
    (query : string) (v : json) :
  (Simple.search_wikipedia quote http_get query = Ret (Some v) ->
   Json.truthy v = true /\ forall s, v = JStr s -> Py.len s <= 400)
  /\ (Conversational.search_wikipedia quote http_get query = Ret (Some v) ->
      Json.truthy v = true /\ forall s, v = JStr s -> Py.len s <= 500)
  /\ (SmartSearch.search_wikipedia quote http_get query = Ret (Some v) ->
      Json.truthy v = true /\ forall s, v = JStr s -> Py.len s <= 300).
Proof.
  split; [|split]; intros H.
  - apply try_except_Exception_some in H.
    unfold Simple.search_wikipedia_body in H. cbv zeta in H.
    apply bind_ret in H. destruct H as (r & _ & H).
    apply bind_ret in H. destruct H as ([direct|] & Hd & H).
    + injection H as <-. now apply read_extract_some in Hd.
    + apply bind_ret in H. destruct H as (r' & _ & H).
      apply bind_ret in H. destruct H as (search_data & _ & H).
      apply bind_ret in H. destruct H as ([|] & _ & H); [|discriminate].
      apply bind_ret in H. destruct H as (title & _ & H).
      apply bind_ret in H. destruct H as (r'' & _ & H).
      now apply read_extract_some in H.
  - apply try_except_some in H.
    unfold Conversational.search_wikipedia_body in H. cbv zeta in H.
    apply bind_ret in H. destruct H as (r & _ & H).
    destruct (status_code r =? 200); [|discriminate].
    apply bind_ret in H. destruct H as (data & _ & H).
    apply (limited_extract 500 data v); [lia | exact H].
  - apply try_except_Exception_some in H.
    unfold SmartSearch.search_wikipedia_body in H. cbv zeta in H.
    apply bind_ret in H. destruct H as (r & _ & H).
    destruct (status_code r =? 200); [|discriminate].
    apply bind_ret in H. destruct H as (data & _ & H).
    apply (limited_extract 300 data v); [lia | exact H].
Qed.

Lemma wikipedia_extract_bounded_witness :
  Simple.search_wikipedia (fun s => s) long_page "rocq"
  = Ret (Some (JStr (Py.slice_to 397 long_text ++ "...")))
  /\ Py.len (Py.slice_to 397 long_text ++ "...") <= 400.
Proof.
  assert (H : Simple.search_wikipedia (fun s => s) long_page "rocq"
              = Ret (Some (JStr (Py.slice_to 397 long_text ++ "..."))))
    by (vm_compute; reflexivity).
  split; [exact H|].
  destruct (wikipedia_extract_bounded (fun s => s) long_page "rocq"
              (JStr (Py.slice_to 397 long_text ++ "..."))) as [Hs _].
  now apply (Hs H).
Defined.

(** X14. A [KeyboardInterrupt] during the request passes through the
    lookup of [simple_ai_chat.py], whose handler is [except Exception], and
    is turned into [None] by the lookup of [conversational_ai.py], whose
    handler is a bare [except]; the latter returns whatever the transport
    does. *)
Theorem interrupt_handling (quote : string -> string)
    (http_get : string -> list (string * string) -> outcome response)
    (query : string) :
  (exists r, Conversational.search_wikipedia quote http_get query = Ret r)
  /\ ((forall url params, http_get url params = Raise KeyboardInterrupt) ->
      Simple.search_wikipedia quote http_get query = Raise KeyboardInterrupt
      /\ Conversational.search_wikipedia quote http_get query = Ret None).
Proof.
  split.
  - unfold Conversational.search_wikipedia.
    destruct (Conversational.search_wikipedia_body quote http_get query);
      simpl; eauto.
  - intros H. unfold Simple.search_wikipedia, Conversational.search_wikipedia,
      Simple.search_wikipedia_body, Conversational.search_wikipedia_body.
    cbv zeta. rewrite !H. split; reflexivity.
Qed.

Lemma interrupt_handling_witness :
  Simple.search_wikipedia (fun s => s) (fun _ _ => Raise KeyboardInterrupt)
    "rocq" = Raise KeyboardInterrupt
  /\ Conversational.search_wikipedia (fun s => s)
       (fun _ _ => Raise KeyboardInterrupt) "rocq" = Ret None.
Proof.
  apply (interrupt_handling (fun s => s) (fun _ _ => Raise KeyboardInterrupt)
           "rocq").
  reflexivity.
Defined.

(** X18. A report on at least one source closes with the line that counts
    the sources, and the count is the number of sources handed in. *)
Theorem report_counts_sources (str_of_items : list Limbor.item -> string)
    (now query : string) (sources : list (string * Limbor.source_data)) :
  sources <> [] ->
  exists text,
    Limbor.compile_comprehensive_response str_of_items now query sources
    = Ret text
    /\ Py.endswith text
         ("📊 Sources consulted: " ++ Py.str_of_nat (length sources) ++ nl)
       = true.
Proof.
  intros Hne. destruct sources as [|[main_name main_data] rest];
    [contradiction|].
  unfold Limbor.compile_comprehensive_response.
  cbn [Limbor.first bind snd tl].
  destruct (main_summary_returns str_of_items main_data) as [summary ->].
  cbn [bind].
  destruct (1 <? length ((main_name, main_data) :: rest)).
  - destruct (additional_returns 1 rest) as [lines ->]. cbn [bind].
    eexists. split; [reflexivity|].
    repeat first [apply endswith_refl | apply endswith_app_left].
  - cbn [bind]. eexists. split; [reflexivity|].
    repeat first [apply endswith_refl | apply endswith_app_left].
Qed.

Lemma report_counts_sources_witness :
  exists text,
    Limbor.compile_comprehensive_response (fun _ => EmptyString) "10:00 AM"
      "fox" [("News Sources", Limbor.Items [Limbor.ItemStr "Fox news"])]
    = Ret text
    /\ Py.endswith text ("📊 Sources consulted: 1" ++ nl) = true.
Proof.
  apply (report_counts_sources (fun _ => EmptyString) "10:00 AM" "fox"
           [("News Sources", Limbor.Items [Limbor.ItemStr "Fox news"])]).
  discriminate.
Defined.

(** ** The detailed web lookups *)

Section WebFacts.
Import Py.

Lemma flat_map_length_le {A B : Type} (f : A -> list B) (l : list A) :
  (forall x, length (f x) <= 1) -> length (flat_map f l) <= length l.
Proof.
  intros Hf. induction l as [|x l IH]; simpl; [lia|].
  rewrite length_app. specialize (Hf x). lia.
Qed.

Lemma result_of_length (element : Limbor.result_block) :
  length (Limbor.result_of element) <= 1.
Proof.
  unfold Limbor.result_of.
  destruct (Limbor.title_link element) as [[t l]|];
    destruct (Limbor.snippet_link element); simpl; try lia.
  destruct (_ && _); simpl; lia.
Qed.

Lemma news_of_length (element : option string) :
  length (Limbor.news_of element) <= 1.
Proof.
  unfold Limbor.news_of. destruct element; [|simpl; lia]. cbv zeta.
  match goal with
  | |- context [if ?b then _ else _] => destruct b
  end; simpl; lia.
Qed.

Lemma result_of_shape (element : Limbor.result_block) (d : Limbor.dict) :
  In d (Limbor.result_of element) ->
  exists title snippet url,
    d = [("title", title); ("snippet", snippet); ("url", url)]
    /\ strip title = title /\ strip snippet = snippet /\ 30 < len snippet.
Proof.
  unfold Limbor.result_of.
  destruct (Limbor.title_link element) as [[t l]|]; [|contradiction].
  destruct (Limbor.snippet_link element) as [s|]; [|contradiction].
  cbv zeta. destruct (_ && _) eqn:E; [|contradiction].
  intros [<-|[]]. apply andb_true_iff in E. destruct E as [_ E].
  apply Nat.ltb_lt in E.
  exists (strip t), (strip s), l.
  repeat split; auto using strip_idempotent.
Qed.
End WebFacts.

(** X19. The detailed DuckDuckGo lookup returns [None] or between 1 and 3
    results, never an empty list; each result has the keys [title],
    [snippet] and [url], in that order, a stripped title and a stripped
    snippet of more than 30 characters. The news lookup returns [None] or 1
    or 2 stripped titles, each mentioning [news], [report], [update] or
    [announce]. *)
Theorem detailed_results_shape (quote : string -> string)
    (fetch_results : string -> outcome (list Limbor.result_block))
    (fetch_news : string -> outcome (list (option string)))
    (query : string) :
  (forall results,
     Limbor.search_duckduckgo_detailed quote fetch_results query
     = Ret (Some results) ->
     1 <= length results <= 3
     /\ forall d, In d results ->
          exists title snippet url,
            d = [("title", title); ("snippet", snippet); ("url", url)]
            /\ Py.strip title = title /\ Py.strip snippet = snippet
            /\ 30 < Py.len snippet)
  /\ (forall titles,
        Limbor.search_news quote fetch_news query = Ret (Some titles) ->
        1 <= length titles <= 2
        /\ forall title, In title titles ->
             Py.strip title = title
             /\ existsb (fun word => Py.contains word (Py.lower title))
                  Limbor.news_words = true).
Proof.
  split.
  - intros results H. apply try_except_Exception_some in H.
    apply bind_ret in H. destruct H as (elements & _ & H).
    cbv zeta in H.
    pose proof (flat_map_length_le Limbor.result_of (firstn 3 elements)
                  result_of_length) as Hlen.
    rewrite length_firstn in Hlen.
    destruct (flat_map Limbor.result_of (firstn 3 elements))
      as [|r rs] eqn:E; [discriminate|].
    injection H as <-. split; [cbn [length] in *; lia|].
    intros d Hd. rewrite <- E in Hd. apply in_flat_map in Hd.
    destruct Hd as (element & _ & Hd). now apply result_of_shape in Hd.
  - intros titles H. apply try_except_Exception_some in H.
    apply bind_ret in H. destruct H as (elements & _ & H).
    cbv zeta in H.
    pose proof (flat_map_length_le Limbor.news_of (firstn 2 elements)
                  news_of_length) as Hlen.
    rewrite length_firstn in Hlen.
    destruct (flat_map Limbor.news_of (firstn 2 elements))
      as [|r rs] eqn:E; [discriminate|].
    injection H as <-. split; [cbn [length] in *; lia|].
    intros title Ht. rewrite <- E in Ht. apply in_flat_map in Ht.
    destruct Ht as ([text|] & _ & Ht); [|contradiction].
    unfold Limbor.news_of in Ht. cbv zeta in Ht.
    destruct (existsb _ Limbor.news_words) eqn:Hw; [|contradiction].
    destruct Ht as [<-|[]]. split; [apply strip_idempotent | exact Hw].
Qed.

Lemma detailed_results_shape_witness :
  Limbor.search_duckduckgo_detailed (fun s => s) (fun _ => Ret [fox_block])
    "fox"
  = Ret (Some [[("title", "Foxes"); ("snippet", fox);
                ("url", "https://example.org/fox")]])
  /\ 1 <= 1 <= 3.
Proof.
  assert (H : Limbor.search_duckduckgo_detailed (fun s => s)
                (fun _ => Ret [fox_block]) "fox"
              = Ret (Some [[("title", "Foxes"); ("snippet", fox);
                            ("url", "https://example.org/fox")]]))
    by reflexivity.
  split; [exact H|].
  destruct (detailed_results_shape (fun s => s) (fun _ => Ret [fox_block])
              (fun _ => Ret []) "fox") as [Hd _].
  exact (proj1 (Hd _ H)).
Defined.

(** ** The fallback chain of smart_search_test.py *)

Section SmartFacts.
Import Py.

Lemma first_acceptable_bounds (texts : list string) (text : string) :
  SmartSearch.first_acceptable texts = Some text ->
  30 < len text <= 303.
Proof.
  unfold SmartSearch.first_acceptable.
  destruct (filter SmartSearch.acceptable (map strip (firstn 3 texts)))
    as [|x l] eqn:E; [discriminate|].
  intros H. injection H as <-.
  assert (Hx : In x (filter SmartSearch.acceptable
                       (map strip (firstn 3 texts))))
    by (rewrite E; now left).
  apply filter_In in Hx. destruct Hx as [_ Hx].
  unfold SmartSearch.acceptable in Hx.
  repeat (apply andb_true_iff in Hx; destruct Hx as [Hx ?]).
  repeat match goal with
  | H : (_ <? _) = true |- _ => apply Nat.ltb_lt in H
  end.
  unfold SmartSearch.shorten.
  destruct (Nat.ltb_spec 300 (len x)); cbv iota; [|lia].
  rewrite len_app, len_slice_to. change (len "...") with 3. lia.
Qed.

Lemma built_in_answer_truthy (now_time now_date query answer : string) :
  SmartSearch.get_built_in_knowledge now_time now_date query = Some answer ->
  SmartSearch.truthy_text (Some answer) = true.
Proof.
  unfold SmartSearch.get_built_in_knowledge. cbv zeta.
  repeat match goal with
  | |- context [if ?b then _ else _] => destruct b
  end; intros H; try discriminate; injection H as <-; reflexivity.
Qed.
End SmartFacts.

(** X15. A snippet that the DuckDuckGo lookup of [smart_search_test.py]
    returns has more than 30 and at most 303 characters. *)
Theorem duckduckgo_snippet_bounded (quote : string -> string)
    (fetch_snippets : string -> outcome (list string))
    (query text : string) :
  SmartSearch.search_duckduckgo quote fetch_snippets query = Ret (Some text) ->
  30 < Py.len text <= 303.
Proof.
  intros H. apply try_except_Exception_some in H.
  unfold SmartSearch.search_duckduckgo_body in H.
  apply bind_ret in H. destruct H as (results & _ & H).
  injection H as H. now apply first_acceptable_bounds in H.
Qed.

Lemma duckduckgo_snippet_bounded_witness :
  SmartSearch.search_duckduckgo (fun s => s) (fun _ => Ret [fox; fox_more])
    "fox" = Ret (Some fox)
  /\ 30 < Py.len fox <= 303.
Proof.
  assert (H : SmartSearch.search_duckduckgo (fun s => s)
                (fun _ => Ret [fox; fox_more]) "fox" = Ret (Some fox))
    by reflexivity.
  split; [exact H|].
  exact (duckduckgo_snippet_bounded (fun s => s) (fun _ => Ret [fox; fox_more])
           "fox" fox H).
Defined.

(** X16. When the built-in table of [smart_search_test.py] knows the query,
    that answer is returned at once: the network is not consulted and no
    browser is opened. *)
Theorem built_in_answer_first (now_time now_date : string)
    (quote : string -> string)
    (http_get : string -> list (string * string) -> outcome response)
    (fetch_snippets : string -> outcome (list string))
    (str_of_json : json -> string) (query answer : string) :
  SmartSearch.get_built_in_knowledge now_time now_date query = Some answer ->
  SmartSearch.get_smart_answer now_time now_date quote http_get fetch_snippets
    str_of_json query
  = Ret ("💡 " ++ answer, None).
Proof.
  intros H. unfold SmartSearch.get_smart_answer. cbv zeta.
  rewrite H, (built_in_answer_truthy _ _ _ _ H). reflexivity.
Qed.

Lemma built_in_answer_first_witness :
  SmartSearch.get_smart_answer "10:00 AM" "Monday" (fun s => s)
    (fun _ _ => Raise KeyboardInterrupt) (fun _ => Raise KeyboardInterrupt)
    (fun _ => EmptyString) "What time is it?"
  = Ret ("💡 Current time: 10:00 AM", None).
Proof.
  apply (built_in_answer_first "10:00 AM" "Monday" (fun s => s)
           (fun _ _ => Raise KeyboardInterrupt)
           (fun _ => Raise KeyboardInterrupt) (fun _ => EmptyString)
           "What time is it?" "Current time: 10:00 AM").
  reflexivity.
Defined.

(** X17. [get_smart_answer] opens the browser exactly when the built-in
    table, Wikipedia and DuckDuckGo have all given nothing; the address is
    the Google search for the query and the answer says so, naming the
    query. *)
Theorem browser_opened_last (now_time now_date : string)
    (quote : string -> string)
    (http_get : string -> list (string * string) -> outcome response)
    (fetch_snippets : string -> outcome (list string))
    (str_of_json : json -> string) (query : string) :
  let answer :=
    SmartSearch.get_smart_answer now_time now_date quote http_get
      fetch_snippets str_of_json query in
  let opened :=
    Ret ("🌐 I've opened a browser search for '" ++ query
         ++ "' - check the results there!",
         Some ("https://www.google.com/search?q=" ++ quote query)) in
  (SmartSearch.get_built_in_knowledge now_time now_date query = None ->
   SmartSearch.search_wikipedia quote http_get query = Ret None ->
   SmartSearch.search_duckduckgo quote fetch_snippets query = Ret None ->
   answer = opened)
  /\ (forall text url, answer = Ret (text, Some url) ->
        answer = opened
        /\ SmartSearch.get_built_in_knowledge now_time now_date query = None
        /\ (exists w, SmartSearch.search_wikipedia quote http_get query = Ret w
                      /\ SmartSearch.truthy_json w = false)
        /\ (exists d, SmartSearch.search_duckduckgo quote fetch_snippets query
                      = Ret d
                      /\ SmartSearch.truthy_text d = false)).
Proof.
  cbv zeta. unfold SmartSearch.get_smart_answer. cbv zeta. split.
  - intros -> -> ->. reflexivity.
  - intros text url.
    destruct (SmartSearch.get_built_in_knowledge now_time now_date query)
      as [a|] eqn:Hb.
    + rewrite (built_in_answer_truthy _ _ _ _ Hb). discriminate.
    + cbn [SmartSearch.truthy_text].
      destruct (SmartSearch.search_wikipedia quote http_get query)
        as [w|e]; [|discriminate].
      cbn [bind].
      destruct (SmartSearch.truthy_json w) eqn:Hw; [discriminate|].
      destruct (SmartSearch.search_duckduckgo quote fetch_snippets query)
        as [d|e]; [|discriminate].
      cbn [bind].
      destruct (SmartSearch.truthy_text d) eqn:Hd; [discriminate|].
      intros _. repeat split; eauto.
Qed.

Lemma browser_opened_last_witness :
  SmartSearch.get_smart_answer "10:00 AM" "Monday" (fun s => s) unreachable
    (fun _ => Raise ConnectionError) (fun _ => EmptyString) "xyzzy"
  = Ret ("🌐 I've opened a browser search for 'xyzzy' - check the results there!",
         Some "https://www.google.com/search?q=xyzzy").
Proof.
  apply (browser_opened_last "10:00 AM" "Monday" (fun s => s) unreachable
           (fun _ => Raise ConnectionError) (fun _ => EmptyString) "xyzzy");
    reflexivity.
Defined.

(** ** The research report *)

Section ReportFacts.
Import Py.

Lemma when_truthy_sublist (label : string) (x : option Limbor.source_data) :
  sublist (map fst (Limbor.when_truthy label x)) [label]
  /\ Forall (fun source => Limbor.truthy (snd source) = true)
       (Limbor.when_truthy label x).
Proof.
  unfold Limbor.when_truthy. destruct x as [data|].
  - destruct (Limbor.truthy data) eqn:E; simpl.
    + split; [apply sublist_refl | now repeat constructor].
    + split; [repeat constructor | constructor].
  - split; [repeat constructor | constructor].
Qed.

Lemma built_in_has_definition (query : string) (d : Limbor.dict) :
  Limbor.get_built_in_knowledge query = Some d ->
  exists definition,
    Limbor.getitem "definition" d = Ret definition
    /\ Limbor.has_key "definition" d = true
    /\ Limbor.truthy (Limbor.Dict d) = true.
Proof.
  unfold Limbor.get_built_in_knowledge. cbv zeta.
  repeat match goal with
  | |- context [if ?b then _ else _] => destruct b
  end; intros H; try discriminate; injection H as <-;
    eexists; repeat split; reflexivity.
Qed.

Lemma contains_after (k a t : string) :
  contains k t = true -> contains k (a ++ t) = true.
Proof. apply contains_app_left. Qed.
End ReportFacts.

(** X20. The compiler consults its providers in a fixed order: the sources
    it gathers are labelled by some of [Built-in Knowledge], [Wikipedia],
    [DuckDuckGo Search], [News Sources], in that order and each at most
    once, none of them empty; the news come only for a query with one of
    the words [news], [latest], [current], [today], [recent]. *)
Theorem sources_in_provider_order
    (search_wikipedia_detailed : string -> option Limbor.dict)
    (search_duckduckgo_detailed : string -> option (list Limbor.dict))
    (search_news : string -> option (list string))
    (query : string) :
  let sources :=
    Limbor.gather search_wikipedia_detailed search_duckduckgo_detailed
      search_news query in
  sublist (map fst sources) provider_order
  /\ length sources <= 4
  /\ Forall (fun source => Limbor.truthy (snd source) = true) sources
  /\ (existsb (fun word => Py.contains word (Py.lower query))
        Limbor.current_words = false ->
      ~ In "News Sources" (map fst sources)).
Proof.
  cbv zeta.
  assert (Hsub : sublist
            (map fst (Limbor.gather search_wikipedia_detailed
                        search_duckduckgo_detailed search_news query))
            provider_order).
  { unfold Limbor.gather, Limbor.search_multiple_sources.
    rewrite !map_app.
    change provider_order
      with (["Built-in Knowledge"] ++ ["Wikipedia"] ++ ["DuckDuckGo Search"]
            ++ ["News Sources"])%list.
    repeat apply sublist_app; try apply when_truthy_sublist.
    destruct (existsb _ Limbor.current_words);
      [apply when_truthy_sublist | repeat constructor]. }
  split; [exact Hsub|]. split; [|split].
  - apply sublist_length in Hsub. now rewrite length_map in Hsub.
  - unfold Limbor.gather, Limbor.search_multiple_sources.
    repeat (apply Forall_app; split); try apply when_truthy_sublist.
    destruct (existsb _ Limbor.current_words);
      [apply when_truthy_sublist | constructor].
  - intros Hw. unfold Limbor.gather, Limbor.search_multiple_sources.
    rewrite Hw, !map_app. intros Hin.
    repeat (apply in_app_or in Hin; destruct Hin as [Hin|Hin]);
      try contradiction;
      match type of Hin with
      | In _ (map fst (Limbor.when_truthy ?l ?x)) =>
          destruct (when_truthy_sublist l x) as [Hs _];
          apply (sublist_In _ _ _ Hs) in Hin;
          destruct Hin as [Hin|[]]; discriminate
      end.
Qed.

Lemma sources_in_provider_order_witness :
  ~ In "News Sources"
      (map fst (Limbor.gather (fun _ => None) (fun _ => None)
                  (fun _ => Some ["Rocq news"]) "what is npu")).
Proof.
  apply (sources_in_provider_order (fun _ => None) (fun _ => None)
           (fun _ => Some ["Rocq news"]) "what is npu").
  reflexivity.
Defined.

(** X21. When the built-in table knows the query, its entry is the main
    source: the report is returned and its summary opens with the
    definition of the entry, whatever the other providers return. *)
Theorem built_in_definition_leads (str_of_items : list Limbor.item -> string)
    (now : string)
    (search_wikipedia_detailed : string -> option Limbor.dict)
    (search_duckduckgo_detailed : string -> option (list Limbor.dict))
    (search_news : string -> option (list string))
    (query : string) (entry : Limbor.dict) :
  Limbor.get_built_in_knowledge query = Some entry ->
  exists definition text,
    Json.lookup "definition" entry = Some definition
    /\ hd_error (Limbor.gather search_wikipedia_detailed
                   search_duckduckgo_detailed search_news query)
       = Some ("Built-in Knowledge", Limbor.Dict entry)
    /\ Limbor.compile_comprehensive_response str_of_items now query
         (Limbor.gather search_wikipedia_detailed search_duckduckgo_detailed
            search_news query) = Ret text
    /\ Py.contains ("📋 SUMMARY:" ++ nl ++ definition ++ nl ++ nl) text = true.
Proof.
  intros Hb.
  destruct (built_in_has_definition query entry Hb)
    as (definition & Hget & Hkey & Htruthy).
  unfold Limbor.gather.
  rewrite Hb. cbn [option_map Limbor.when_truthy]. rewrite Htruthy.
  cbn [List.app hd_error].
  set (rest := List.app _ _).
  unfold Limbor.compile_comprehensive_response.
  cbn [Limbor.first bind snd tl Limbor.main_summary].
  rewrite Hkey, Hget. cbn [bind].
  assert (Hmore : exists more,
            (if 1 <? length (("Built-in Knowledge", Limbor.Dict entry) :: rest)
             then (lines <- Limbor.additional 1 rest ;;
                   Ret ("📚 ADDITIONAL SOURCES:" ++ nl ++ nl ++ lines))
             else Ret EmptyString) = Ret more).
  { destruct (1 <? _); [|eauto].
    destruct (additional_returns 1 rest) as [lines ->]. simpl. eauto. }
  destruct Hmore as [more ->]. cbn [bind].
  exists definition. eexists. repeat split.
  - unfold Limbor.getitem in Hget.
    destruct (Json.lookup "definition" entry); [now injection Hget as -> | discriminate].
  - do 9 apply contains_after.
    apply contains_prefix.
    rewrite !prefix_cancel, !append_assoc, !prefix_cancel.
    apply contains_refl_app.
Qed.

Lemma built_in_definition_leads_witness :
  exists definition text,
    Limbor.compile_comprehensive_response (fun _ => EmptyString) "10:00 AM"
      "What is NPU?"
      (Limbor.gather (fun _ => None) (fun _ => None) (fun _ => None)
         "What is NPU?")
    = Ret text
    /\ Py.contains ("📋 SUMMARY:" ++ nl ++ definition ++ nl ++ nl) text = true.
Proof.
  destruct (built_in_definition_leads (fun _ => EmptyString) "10:00 AM"
              (fun _ => None) (fun _ => None) (fun _ => None) "What is NPU?"
              _ eq_refl) as (definition & text & _ & _ & H1 & H2).
  exists definition, text. split; assumption.
Defined.

(** ** The conversation history *)

Section HistoryFacts.

Lemma last_n_length {A : Type} (n : nat) (l : list A) :
  length (Conversational.last_n n l) <= n.
Proof. unfold Conversational.last_n. rewrite length_skipn. lia. Qed.

Lemma last_n_snoc {A : Type} (n : nat) (l : list A) (x : A) :
  1 <= n ->
  exists front, Conversational.last_n n (l ++ [x])%list = (front ++ [x])%list.
Proof.
  intros Hn. unfold Conversational.last_n.
  rewrite length_app, skipn_app. simpl length.
  replace (length l + 1 - n - length l) with 0 by lia.
  simpl skipn. eauto.
Qed.

Variable generate : list string -> string -> outcome string.

Lemma get_response_bound (history : list string) (user_input : string) :
  length (fst (Conversational.get_response generate history user_input))
  <= 21.
Proof.
  unfold Conversational.get_response. cbv zeta.
  set (h := (List.app history ["User: " ++ user_input])).
  assert (Hh : length (if 20 <? length h
                       then Conversational.last_n 20 h else h) <= 20).
  { destruct (Nat.ltb_spec 20 (length h)); [apply last_n_length | lia]. }
  destruct (generate _ user_input); simpl; [|lia].
  rewrite length_app. simpl. lia.
Qed.

Lemma converse_bound (history inputs : list string) :
  length history <= 21 ->
  length (Conversational.converse generate history inputs) <= 21.
Proof.
  revert history; induction inputs as [|i inputs IH]; intros history H;
    simpl; [exact H|].
  apply IH, get_response_bound.
Qed.
End HistoryFacts.

(** X22. [get_response] keeps the history bounded: after a call it holds
    at most 21 entries, whatever it held before, so a conversation started
    with the empty history never holds more. After a successful call the
    last two entries are the request and the response. *)
Theorem history_bounded (generate : list string -> string -> outcome string)
    (history inputs : list string) (user_input : string) :
  length (fst (Conversational.get_response generate history user_input)) <= 21
  /\ length (Conversational.converse generate [] inputs) <= 21
  /\ (forall response,
        snd (Conversational.get_response generate history user_input)
        = Ret response ->
        exists front,
          fst (Conversational.get_response generate history user_input)
          = List.app front ["User: " ++ user_input; "Limbor: " ++ response]).
Proof.
  split; [apply get_response_bound|]. split.
  - apply converse_bound. simpl. lia.
  - intros response. unfold Conversational.get_response. cbv zeta.
    set (h := (List.app history ["User: " ++ user_input])).
    assert (Hh : exists front,
              (if 20 <? length h then Conversational.last_n 20 h else h)
              = List.app front ["User: " ++ user_input]).
    { destruct (20 <? length h); [apply last_n_snoc; lia | now exists history]. }
    destruct Hh as [front ->].
    destruct (generate _ user_input) as [r|e]; simpl; [|discriminate].
    intros H. injection H as <-. exists front.
    now rewrite <- app_assoc.
Qed.

Lemma history_bounded_witness :
  length (Conversational.converse echo [] (repeat "again" 30)) = 21
  /\ exists front,
       fst (Conversational.get_response echo [] "hello")
       = (front ++ ["User: hello"; "Limbor: hello"])%list.
Proof.
  split; [reflexivity|].
  apply (history_bounded echo [] [] "hello"). reflexivity.
Defined.

Section ChatFacts.
Variable process_input : string -> outcome string.

Lemma chat_extends (history : list string) (user_input : string) :
  exists tail,
    fst (Simple.chat process_input history user_input)
    = (history ++ tail)%list
    /\ 1 <= length tail <= 2
    /\ ((exists r, process_input user_input = Ret r) -> length tail = 2).
Proof.
  unfold Simple.chat. cbv zeta.
  destruct (process_input user_input) as [r|e]; simpl.
  - exists ["User: " ++ user_input; "Limbor: " ++ r].
    rewrite <- app_assoc. simpl. repeat split; lia.
  - exists ["User: " ++ user_input]. simpl. repeat split; try lia.
    intros [r H]. discriminate.
Qed.
End ChatFacts.

(** X23. [chat] only ever appends to the history: after a conversation
    the old entries are still there, in front, followed by at least one and
    at most two entries for each request, and by exactly two when
    [process_input] raises nothing. The history is never cut. *)
Theorem chat_history_grows (process_input : string -> outcome string)
    (history inputs : list string) :
  exists tail,
    Simple.converse process_input history inputs = (history ++ tail)%list
    /\ length inputs <= length tail <= 2 * length inputs
    /\ ((forall user_input, exists r, process_input user_input = Ret r) ->
        length tail = 2 * length inputs).
Proof.
  revert history; induction inputs as [|i inputs IH]; intros history; simpl.
  - exists []. rewrite app_nil_r. simpl. repeat split; lia.
  - destruct (chat_extends process_input history i)
      as (t1 & -> & Hl1 & He1).
    destruct (IH (history ++ t1)%list) as (t2 & -> & Hl2 & He2).
    exists (t1 ++ t2)%list. rewrite <- app_assoc, length_app.
    repeat split; try lia.
    intros Hall. rewrite (He1 (Hall i)), (He2 Hall). lia.
Qed.

Lemma chat_history_grows_witness :
  exists tail,
    Simple.converse (fun user_input => Ret user_input)
      ["User: hi"; "Limbor: hi"] ["one"; "two"]
    = List.app ["User: hi"; "Limbor: hi"] tail
    /\ length tail = 4.
Proof.
  destruct (chat_history_grows (fun user_input => Ret user_input)
              ["User: hi"; "Limbor: hi"] ["one"; "two"])
    as (tail & H & _ & He).
  exists tail. split; [exact H|].
  apply He. intros user_input. now exists user_input.
Defined.

(** ** The text of a request *)

Section RequestFacts.
Import Py.

Lemma len_drop (n : nat) (s : string) : len (drop n s) <= len s.
Proof.
  revert n; induction s as [|c s IH]; intros [|n]; simpl; try lia.
  specialize (IH n). lia.
Qed.

Lemma len_after_colon_space (s : string) : len (after_colon_space s) <= len s.
Proof.
  unfold after_colon_space.
  destruct s as [|c s]; [simpl; lia|].
  destruct (Ascii.eqb_spec c ":") as [->|Hc].
  - pose proof (len_lstrip s). simpl. lia.
  - replace (match c with
             | ":"%char => s
             | _ => String c s
             end) with (String c s).
    + apply len_lstrip.
    + destruct c as [[] [] [] [] [] [] [] []]; try reflexivity.
      contradiction.
Qed.

Lemma search_after_unfold (phrase s : string) :
  search_after phrase s
  = if prefix phrase (lower s)
    then Some (after_colon_space (drop (String.length phrase) s))
    else match s with
         | EmptyString => None
         | String _ s' => search_after phrase s'
         end.
Proof. destruct s; reflexivity. Qed.

Lemma search_after_len (phrase s group : string) :
  search_after phrase s = Some group -> len group <= len s.
Proof.
  induction s as [|c s IH]; rewrite search_after_unfold;
    destruct (prefix phrase _).
  - intros H. injection H as <-.
    pose proof (len_after_colon_space (drop (String.length phrase) EmptyString)).
    pose proof (len_drop (String.length phrase) EmptyString). lia.
  - discriminate.
  - intros H. injection H as <-.
    pose proof (len_after_colon_space
                  (drop (String.length phrase) (String c s))).
    pose proof (len_drop (String.length phrase) (String c s)). lia.
  - intros H. specialize (IH H). cbn [len]. lia.
Qed.

Lemma first_long_match_len (limit : nat) (phrases : list string)
    (request text : string) :
  first_long_match limit phrases request = Some text ->
  limit < len text <= len request.
Proof.
  induction phrases as [|p ps IH]; simpl; [discriminate|].
  destruct (search_after p request) as [group|] eqn:E; [|exact IH].
  cbv zeta.
  destruct (Nat.ltb_spec limit (len (strip group))) as [Hlt|Hge];
    [|exact IH].
  intros H. injection H as <-.
  pose proof (search_after_len _ _ _ E). pose proof (len_strip group). lia.
Qed.

(** The three extractions share one shape. *)
Lemma extraction_bounds (limit whole : nat) (phrases : list string)
    (request : string) :
  limit <= whole ->
  let extracted :=
    match first_long_match limit phrases request with
    | Some text => Some text
    | None => if whole <? len request then Some request else None
    end in
  (forall text, extracted = Some text -> limit < len text <= len request)
  /\ (len request <= limit -> extracted = None)
  /\ (whole < len request -> extracted <> None).
Proof.
  intros Hlw. cbv zeta.
  destruct (first_long_match limit phrases request) as [t|] eqn:E.
  - apply first_long_match_len in E. split; [|split].
    + intros text H. injection H as <-. exact E.
    + intros H. lia.
    + discriminate.
  - destruct (Nat.ltb_spec whole (len request)) as [Hlt|Hge];
      (split; [|split]).
    + intros text H. injection H as <-. lia.
    + intros H. lia.
    + discriminate.
    + discriminate.
    + reflexivity.
    + intros H. lia.
Qed.
End RequestFacts.

(** X24. The text that a request is found to carry is longer than the
    threshold of its extraction (100 characters for a summary and 50 for an
    analysis in [conversational_ai.py], 30 for a summary in
    [simple_ai_chat.py]) and never longer than the request; a request that
    is not longer than the threshold carries none, and a request longer
    than 500 (respectively 200 and 200) characters always carries one. *)
Theorem extracted_text_bounds (request : string) :
  ((forall text, Conversational.extract_text_for_summary request = Some text ->
      100 < Py.len text <= Py.len request)
   /\ (Py.len request <= 100 ->
       Conversational.extract_text_for_summary request = None)
   /\ (500 < Py.len request ->
       Conversational.extract_text_for_summary request <> None))
  /\ ((forall text,
         Conversational.extract_text_for_analysis request = Some text ->
         50 < Py.len text <= Py.len request)
      /\ (Py.len request <= 50 ->
          Conversational.extract_text_for_analysis request = None)
      /\ (200 < Py.len request ->
          Conversational.extract_text_for_analysis request <> None))
  /\ ((forall text, Simple.extract_text_to_summarize request = Some text ->
         30 < Py.len text <= Py.len request)
      /\ (Py.len request <= 30 ->
          Simple.extract_text_to_summarize request = None)
      /\ (200 < Py.len request ->
          Simple.extract_text_to_summarize request <> None)).
Proof.
  split; [|split].
  - apply (extraction_bounds 100 500); lia.
  - apply (extraction_bounds 50 200); lia.
  - apply (extraction_bounds 30 200); lia.
Qed.

Lemma extracted_text_bounds_witness :
  Py.len "Summarize this: too short" <= 100
  /\ Conversational.extract_text_for_summary "Summarize this: too short" = None
  /\ Simple.extract_text_to_summarize
       "TLDR:  The committee will meet again on Monday at the pub. "
     = Some "The committee will meet again on Monday at the pub.".
Proof.
  assert (H : Py.len "Summarize this: too short" <= 100) by (vm_compute; lia).
  split; [exact H|]. split; [|reflexivity].
  destruct (extracted_text_bounds "Summarize this: too short")
    as ((_ & Hn & _) & _).
  exact (Hn H).
Defined.
